(** * Keratoconus severity pipeline: a shallow embedding

    The Python sources embedded here are
    - [src/data_generator.py]   (class [PentacamDataGenerator], [main]),
    - [src/preprocessing.py]    ([main]),
    - [src/feature_selection.py] ([main]),
    - [src/train.py]            ([main]),
    - [src/evaluate.py]         (class [ModelEvaluator], [main]),
    - [run_pipeline.py]         ([run_step], [main]),
    - [app/streamlit_app.py]    ([load_model], [main]).

    Conventions.  A float64 is modelled by the rational it denotes (rounding
    is not modelled); a pandas DataFrame is a header and a list of rows; the
    file system, the global NumPy generator and the text printed so far form
    the world that every Python function threads; an exception is a value
    of [exn] returned instead of a result.  Third-party functions (NumPy's
    sampler, the pandas shuffle, scikit-learn, Streamlit's widgets) are the
    fields of the class [Libs]. *)

From Stdlib Require Import ZArith QArith Qround List Permutation Lia Ascii String.
From stdpp Require Import gmap strings list fin_maps.

Local Open Scope string_scope.
Local Open Scope list_scope.

(** ** DataFrames *)

Inductive cell : Type :=
| CInt (z : Z)
| CFloat (q : Q).

Definition row : Type := list cell.

Record DataFrame : Type := mkDataFrame {
  columns : list string;
  rows : list row
}.

(** Python exceptions raised by the modelled code and its libraries. *)
Inductive exn : Type :=
| FileNotFoundError (path : string)
| OSError (msg : string)
| KeyError (key : string)
| ValueError (msg : string)
| IndexError
| ParserError (path : string)
| UnpicklingError (path : string)
| LibraryError (msg : string)
| ImportError (name : string)
| SystemExit (code : Z)
| StopException
| KeyboardInterrupt.

(** [except Exception] catches every class but the three that derive from
    [BaseException] directly. *)
Definition is_Exception (e : exn) : bool :=
  match e with
  | SystemExit _ | StopException | KeyboardInterrupt => false
  | _ => true
  end.

Inductive result (A : Type) : Type :=
| Ok (a : A)
| Raise (e : exn).
Arguments Ok {A} a.
Arguments Raise {A} e.

Definition is_ok {A} (r : result A) : bool :=
  match r with Ok _ => true | Raise _ => false end.

(** Position of a column label in the header. *)
Fixpoint index_of (name : string) (cols : list string) : option nat :=
  match cols with
  | [] => None
  | c :: cs => if String.eqb c name then Some 0
               else option_map S (index_of name cs)
  end.

(** [df[name]]: the column as a list, [KeyError] when the label is absent.
    A row too short for the header contributes nothing, which cannot
    happen for a frame built by [DataFrame_of_dict]. *)
Definition getitem (df : DataFrame) (name : string) : result (list cell) :=
  match index_of name (columns df) with
  | None => Raise (KeyError name)
  | Some i => Ok (omap (fun r : row => r !! i) (rows df))
  end.

(** [df[[a, b, c]]]: a sub-frame, [KeyError] on the first missing label. *)
Fixpoint indices_of (names : list string) (cols : list string)
  : result (list nat) :=
  match names with
  | [] => Ok []
  | n :: ns =>
      match index_of n cols with
      | None => Raise (KeyError n)
      | Some i =>
          match indices_of ns cols with
          | Ok ixs => Ok (i :: ixs)
          | Raise e => Raise e
          end
      end
  end.

Definition getitems (df : DataFrame) (names : list string) : result DataFrame :=
  match indices_of names (columns df) with
  | Raise e => Raise e
  | Ok ixs =>
      Ok (mkDataFrame names
            (map (fun r : row => omap (fun i => r !! i) ixs) (rows df)))
  end.

(** [pd.DataFrame(data)] for a dict of equally long arrays: row [i] holds
    entry [i] of each array, in the dict's insertion order. *)
Fixpoint zip_columns (n : nat) (cols : list (list cell)) : list row :=
  match n with
  | O => []
  | S n' => omap head cols :: zip_columns n' (map (drop 1) cols)
  end.

Definition DataFrame_of_dict (data : list (string * list cell))
  : result DataFrame :=
  match data with
  | [] => Ok (mkDataFrame [] [])
  | (_, c0) :: _ =>
      if forallb (fun kc => Nat.eqb (length (snd kc)) (length c0)) data
      then Ok (mkDataFrame (map fst data)
                 (zip_columns (length c0) (map snd data)))
      else Raise (ValueError "All arrays must be of the same length")
  end.

(** [pd.concat(frames, ignore_index=True)] for frames with one header. *)
Definition concat (frames : list DataFrame) : DataFrame :=
  match frames with
  | [] => mkDataFrame [] []
  | f :: _ => mkDataFrame (columns f) (List.concat (map rows frames))
  end.

(** [(df[name] == z).sum()]. *)
Definition cell_eq_int (z : Z) (c : cell) : bool :=
  match c with
  | CInt z' => Z.eqb z' z
  | CFloat q => Qeq_bool q (inject_Z z)
  end.

Definition count_eq (z : Z) (col : list cell) : nat :=
  length (filter (fun c => cell_eq_int z c = true) col).

(** ** Paths *)

(** Text before the last ['/'] of a path, if it has one. *)
Fixpoint dirname (s : string) : option string :=
  match s with
  | EmptyString => None
  | String c r =>
      match dirname r with
      | Some d => Some (String c d)
      | None => if Ascii.eqb c "/"%char then Some EmptyString else None
      end
  end.

(** [Path(p).parent] for a relative path. *)
Definition parent (p : string) : string := default "." (dirname p).

(** The chain of directories [mkdir(parents=True)] creates for [d]. *)
Fixpoint ancestors (fuel : nat) (d : string) : list string :=
  match fuel with
  | O => []
  | S fuel' =>
      if String.eqb d "." then [] else d :: ancestors fuel' (parent d)
  end.

(** ** Python computations: state and exceptions

    A computation runs in a state [S], returns a value or raises, and in
    both cases leaves a state behind (what was written before a [raise]
    stays written). *)

Definition M (S A : Type) : Type := S -> result A * S.

Definition ret {S A} (a : A) : M S A := fun s => (Ok a, s).

Definition bind {S A B} (c : M S A) (k : A -> M S B) : M S B :=
  fun s => match c s with
           | (Ok a, s') => k a s'
           | (Raise e, s') => (Raise e, s')
           end.

Definition raise {S A} (e : exn) : M S A := fun s => (Raise e, s).

Definition lift {S A} (r : result A) : M S A := fun s => (r, s).

Definition gets {S A} (f : S -> A) : M S A := fun s => (Ok (f s), s).

Definition modify {S} (f : S -> S) : M S unit := fun s => (Ok tt, f s).

(** [try: c except <classes>: h e] *)
Definition try_except {S A} (c : M S A) (catches : exn -> bool)
    (h : exn -> M S A) : M S A :=
  fun s => match c s with
           | (Ok a, s') => (Ok a, s')
           | (Raise e, s') => if catches e then h e s' else (Raise e, s')
           end.

Notation "x <- c ;; k" := (bind c (fun x => k))
  (at level 100, c at next level, right associativity).
Notation "c ;;; k" := (bind c (fun _ => k))
  (at level 100, right associativity).

(** [for x in xs: body x], collecting what the bodies return. *)
Fixpoint for_each {S A B} (xs : list A) (body : A -> M S B) : M S (list B) :=
  match xs with
  | [] => ret []
  | x :: xs' => b <- body x ;; bs <- for_each xs' body ;; ret (b :: bs)
  end.

(** [xs[i]] with Python's negative positions. *)
Definition py_index {A} (xs : list A) (i : Z) : result A :=
  let n := Z.of_nat (length xs) in
  let j := if (i <? 0)%Z then (i + n)%Z else i in
  if (0 <=? j)%Z && (j <? n)%Z
  then match xs !! Z.to_nat j with
       | Some x => Ok x
       | None => Raise IndexError
       end
  else Raise IndexError.

(** [s.replace(old, new)] for a non-empty [old] (the only use in the
    source): leftmost, non-overlapping occurrences.  [skip] counts the
    characters of a match still to be dropped. *)
Fixpoint replace_from (old new : string) (skip : nat) (s : string) : string :=
  match s with
  | EmptyString => EmptyString
  | String c r =>
      match skip with
      | S k => replace_from old new k r
      | O =>
          if String.prefix old s && negb (String.eqb old "")
          then (new ++ replace_from old new (String.length old - 1) r)%string
          else String c (replace_from old new 0 r)
      end
  end.

Definition replace (old new s : string) : string := replace_from old new 0 s.

(** [if path:] for an optional string: [None] and the empty string are
    false. *)
Definition truthy (path : option string) : option string :=
  match path with
  | Some p => if String.eqb p "" then None else Some p
  | None => None
  end.

(** ** Third-party libraries *)

Class Libs : Type := {
  (** State of a NumPy Mersenne Twister. *)
  RngState : Type;
  (** A fitted [RandomForestClassifier]. *)
  Model : Type;
  (** What the person at the browser has set in the Streamlit form. *)
  Session : Type;
  (** [np.random.seed(s)] for a seed in range: the state it installs. *)
  mt_seed : Z -> RngState;
  (** [np.random.normal(loc, scale, size)]: the draws and the next state. *)
  np_normal : Q -> Q -> nat -> RngState -> list Q * RngState;
  (** The order in which [df.sample(frac=1, random_state=s)] lists the row
      positions of a frame with the given number of rows; it comes from a
      generator of its own, seeded with [s]. *)
  sample_order : Z -> nat -> list nat;
  (** The float64 [read_csv] parses from the text [to_csv] wrote for one. *)
  csv_float : Q -> Q;
  np_mean : list Q -> Q;
  np_std : list Q -> Q;
  (** [cross_val_score(rf, X, y, cv=StratifiedKFold(6, ...))] *)
  cross_val_score : list row -> list cell -> result (list Q);
  (** [RandomForestClassifier(..., random_state=42).fit(X, y)] *)
  rf_fit : list row -> list cell -> result Model;
  sk_predict : Model -> list row -> result (list Z);
  sk_predict_proba : Model -> list row -> result (list (list Q));
  (** [accuracy_score], [precision_score], ... selected by name. *)
  sk_score : string -> list cell -> list Z -> Q;
  confusion_matrix : list cell -> list Z -> list (list nat);
  classification_report : list cell -> list Z -> list string -> result string;
  (** [sns.pairplot(df, hue=...)] *)
  sns_pairplot : DataFrame -> string -> result unit;
  (** [st.slider(label, min_value, max_value, value, step)] *)
  st_slider : string -> Q -> Q -> Q -> Q -> Session -> Q;
  st_slider_int : string -> Z -> Z -> Z -> Z -> Session -> Z;
  (** [st.button(label)] *)
  st_button : string -> Session -> bool
}.

(** ** The world of the repository's scripts *)

Section Repository.
Context {L : Libs}.

(** What a saved figure shows. *)
Inductive figure : Type :=
| PairPlot (df : DataFrame) (hue : string)
| Heatmap (title : string) (cm : list (list nat)) (ticks : list string).

Inductive content : Type :=
| Csv (df : DataFrame)
| MetricsCsv (header : list string) (record : list (string + Q))
| Pickle (m : Model)
| Png (fig : figure).

(** What the scripts print, by kind; formatted numbers are kept as the
    values they are computed from. *)
Inductive event : Type :=
| Print (text : string)
| PrintInt (label : string) (z : Z)
| PrintStages (stages : list Z)
| PrintStage (stage : Z)
| PrintShape (n_rows n_cols : nat)
| PrintCount (stage : Z) (count : nat)
| PrintSaved (path : string)
| PrintRange (name : string) (col : list cell)
| PrintColumns (names : list string)
| PrintHead (head_rows : list row)
| PrintScore (label : string) (score : Q)
| PrintReport (report : string)
| PrintCase (name : string) (hit : bool) (expected pred : Z) (confidence : Q).

(** A call of the classifier, with the frame it was given. *)
Inductive call : Type :=
| CallPredict (X : DataFrame)
| CallPredictProba (X : DataFrame).

Record World : Type := mkWorld {
  files : gmap string content;
  dirs : gset string;
  rng : RngState;
  stdout : list event;
  model_calls : list call
}.

Definition print (e : event) : M World unit :=
  modify (fun w => mkWorld (files w) (dirs w) (rng w) (stdout w ++ [e])
                     (model_calls w)).

Definition set_rng (g : RngState) : M World unit :=
  modify (fun w => mkWorld (files w) (dirs w) g (stdout w) (model_calls w)).

Definition log_call (c : call) : M World unit :=
  modify (fun w => mkWorld (files w) (dirs w) (rng w) (stdout w)
                     (model_calls w ++ [c])).

(** [model.predict(X)] and [model.predict_proba(X)] *)
Definition model_predict (m : Model) (X : DataFrame) : M World (list Z) :=
  log_call (CallPredict X) ;;; lift (sk_predict m (rows X)).

Definition model_predict_proba (m : Model) (X : DataFrame)
  : M World (list (list Q)) :=
  log_call (CallPredictProba X) ;;; lift (sk_predict_proba m (rows X)).

Definition dir_exists (w : World) (d : string) : bool :=
  String.eqb d "." || bool_decide (d ∈ dirs w).

(** [Path(d).mkdir(parents=True, exist_ok=True)] *)
Definition mkdir_parents (d : string) : M World unit :=
  modify (fun w => mkWorld (files w)
                     (list_to_set (ancestors (S (String.length d)) d) ∪ dirs w)
                     (rng w) (stdout w) (model_calls w)).

(** Creating or truncating a file; [missing] is what the caller raises
    when the directory is not there. *)
Definition write_file (path : string) (c : content) (missing : exn)
  : M World unit :=
  fun w => if dir_exists w (parent path)
           then (Ok tt, mkWorld (<[path := c]> (files w)) (dirs w)
                          (rng w) (stdout w) (model_calls w))
           else (Raise missing, w).

(** [df.to_csv(path, index=False)] *)
Definition to_csv (df : DataFrame) (path : string) : M World unit :=
  write_file path (Csv df)
    (OSError "Cannot save file into a non-existent directory").

Definition parse_cell (c : cell) : cell :=
  match c with
  | CInt z => CInt z
  | CFloat q => CFloat (csv_float q)
  end.

(** The frame [read_csv] builds from the text of a frame [to_csv] wrote. *)
Definition parse_frame (df : DataFrame) : DataFrame :=
  mkDataFrame (columns df) (map (map parse_cell) (rows df)).

(** [pd.read_csv(path)] *)
Definition read_csv (path : string) : M World DataFrame :=
  fun w => match files w !! path with
           | None => (Raise (FileNotFoundError path), w)
           | Some (Csv df) => (Ok (parse_frame df), w)
           | Some _ => (Raise (ParserError path), w)
           end.

(** [joblib.dump(m, path)] and [joblib.load(path)] *)
Definition joblib_dump (m : Model) (path : string) : M World unit :=
  write_file path (Pickle m) (FileNotFoundError path).

Definition joblib_load (path : string) : M World Model :=
  fun w => match files w !! path with
           | None => (Raise (FileNotFoundError path), w)
           | Some (Pickle m) => (Ok m, w)
           | Some _ => (Raise (UnpicklingError path), w)
           end.

(** [plt.savefig(path)] *)
Definition savefig (path : string) (fig : figure) : M World unit :=
  write_file path (Png fig) (FileNotFoundError path).

(** [print] of the minimum and maximum of [df[name]]. *)
Definition print_range (df : DataFrame) (name : string) : M World unit :=
  col <- lift (getitem df name) ;; print (PrintRange name col).

(** ** src/data_generator.py *)

Definition seed_in_range (s : Z) : bool := (0 <=? s)%Z && (s <? 2 ^ 32)%Z.

(** [np.random.seed(s)] *)
Definition np_random_seed (s : Z) : M World unit :=
  if seed_in_range s then set_rng (mt_seed s)
  else raise (ValueError "Seed must be between 0 and 2**32 - 1").

(** [np.random.normal(loc, scale, n)] on the global generator. *)
Definition np_random_normal (loc scale : Q) (n : nat) : M World (list cell) :=
  fun w => let '(xs, g) := np_normal loc scale n (rng w) in
           (Ok (map CFloat xs),
            mkWorld (files w) (dirs w) g (stdout w) (model_calls w)).

(** [df.sample(frac=1, random_state=s).reset_index(drop=True)] *)
Definition sample_frac1 (df : DataFrame) (s : Z) : result DataFrame :=
  if seed_in_range s
  then Ok (mkDataFrame (columns df)
             (omap (fun i => rows df !! i)
                (sample_order s (length (rows df)))))
  else Raise (ValueError "Seed must be between 0 and 2**32 - 1").

Record PentacamDataGenerator : Type := mkGenerator {
  n_per_class : nat;
  random_state : Z;
  severity_stages : list Z
}.

Definition PentacamDataGenerator_init (n : nat) (seed : Z)
  : M World PentacamDataGenerator :=
  np_random_seed seed ;;;
  ret (mkGenerator n seed [0; 1; 2; 3; 4]%Z).

Definition pachy_min_mean (stage : Z) : Q := inject_Z (520 - stage * 30).
Definition rm_b_mean (stage : Z) : Q := 6.5 - inject_Z stage * 0.4.
Definition rm_f_mean (stage : Z) : Q := 7.8 - inject_Z stage * 0.35.

Definition _generate_stage_data (self : PentacamDataGenerator) (stage : Z)
  : M World DataFrame :=
  let n := n_per_class self in
  let severity := replicate n (CInt stage) in
  rm_b <- np_random_normal (rm_b_mean stage) 0.25 n ;;
  rm_f <- np_random_normal (rm_f_mean stage) 0.3 n ;;
  pachy <- np_random_normal (pachy_min_mean stage) 20 n ;;
  lift (DataFrame_of_dict
          [("Severity", severity); ("Rm_B", rm_b); ("Rm_F", rm_f);
           ("Pachy_Min", pachy)]).

Definition pd_concat (frames : list DataFrame) : result DataFrame :=
  match frames with
  | [] => Raise (ValueError "No objects to concatenate")
  | _ => Ok (concat frames)
  end.

Definition generate_dataset (self : PentacamDataGenerator)
    (output_path : option string) : M World DataFrame :=
  print (Print "Generating Synthetic Pentacam Dataset...") ;;;
  print (PrintInt "Samples per class" (Z.of_nat (n_per_class self))) ;;;
  print (PrintStages (severity_stages self)) ;;;
  stage_data <- for_each (severity_stages self) (fun stage =>
                  print (PrintStage stage) ;;;
                  _generate_stage_data self stage) ;;
  df_complete <- lift (pd_concat stage_data) ;;
  df_complete <- lift (sample_frac1 df_complete (random_state self)) ;;
  print (Print "Dataset Generated Successfully!") ;;;
  print (PrintInt "Total samples" (Z.of_nat (length (rows df_complete)))) ;;;
  print (PrintInt "Total features"
           (Z.of_nat (length (columns df_complete)) - 1)) ;;;
  print (PrintShape (length (rows df_complete))
           (length (columns df_complete))) ;;;
  print (Print "Class Distribution:") ;;;
  for_each (severity_stages self) (fun stage =>
    col <- lift (getitem df_complete "Severity") ;;
    print (PrintCount stage (count_eq stage col))) ;;;
  match truthy output_path with
  | Some path =>
      mkdir_parents (parent path) ;;;
      to_csv df_complete path ;;;
      print (PrintSaved path)
  | None => ret tt
  end ;;;
  print (Print "Feature Statistics:") ;;;
  print_range df_complete "Rm_B" ;;;
  print_range df_complete "Rm_F" ;;;
  print_range df_complete "Pachy_Min" ;;;
  ret df_complete.

Definition raw_path : string := "data/raw/synthetic_pentacam_79_features.csv".

Definition data_generator_main : M World unit :=
  generator <- PentacamDataGenerator_init 130 42 ;;
  df <- generate_dataset generator (Some raw_path) ;;
  print (Print "Sample Data (first 5 rows):") ;;;
  print (PrintHead (take 5 (rows df))).

(** ** src/preprocessing.py *)

Definition processed_path : string := "data/processed/preprocessed_data.csv".

Definition preprocessing_main : M World unit :=
  print (Print "DATA PREPROCESSING") ;;;
  print (Print "Loading raw data...") ;;;
  df <- read_csv raw_path ;;
  print (PrintInt "Loaded samples" (Z.of_nat (length (rows df)))) ;;;
  print (PrintInt "Loaded features" (Z.of_nat (length (columns df)) - 1)) ;;;
  print (Print "Feature ranges:") ;;;
  print_range df "Rm_B" ;;;
  print_range df "Rm_F" ;;;
  print_range df "Pachy_Min" ;;;
  to_csv df processed_path ;;;
  print (PrintSaved processed_path) ;;;
  print (PrintShape (length (rows df)) (length (columns df))).

(** ** src/feature_selection.py *)

Definition selected_path : string := "data/processed/selected_features_data.csv".
Definition pairplot_path : string := "models/feature_pairplot.png".

Definition feature_selection_main : M World unit :=
  print (Print "FEATURE SELECTION") ;;;
  print (Print "Loading preprocessed data...") ;;;
  df <- read_csv processed_path ;;
  let selected_features := ["Rm_B"; "Rm_F"; "Pachy_Min"] in
  print (PrintColumns selected_features) ;;;
  to_csv df selected_path ;;;
  print (PrintSaved selected_path) ;;;
  let plot_df := df in
  try_except
    (lift (sns_pairplot plot_df "Severity") ;;;
     savefig pairplot_path (PairPlot plot_df "Severity") ;;;
     print (PrintSaved pairplot_path))
    (fun _ => true)
    (fun _ => print (Print "  (Skipping visualization)")) ;;;
  print (Print "").

(** ** src/train.py *)

Definition model_path : string := "models/rf_kc_severity.pkl".
Definition cv_results_path : string := "models/cv_results.csv".
Definition feature_names : list string := ["Rm_B"; "Rm_F"; "Pachy_Min"].

Definition train_main : M World unit :=
  print (Print "MODEL TRAINING") ;;;
  print (Print "Loading training data...") ;;;
  df <- read_csv selected_path ;;
  X <- lift (getitems df feature_names) ;;
  y <- lift (getitem df "Severity") ;;
  print (PrintShape (length (rows X)) (length (columns X))) ;;;
  print (PrintColumns (columns X)) ;;;
  print (Print "Feature ranges:") ;;;
  print_range X "Rm_B" ;;;
  print_range X "Rm_F" ;;;
  print_range X "Pachy_Min" ;;;
  print (Print "TRAINING RANDOM FOREST") ;;;
  print (Print "Performing 6-fold cross-validation...") ;;;
  cv_scores <- lift (cross_val_score (rows X) y) ;;
  print (PrintScore "CV Accuracy" (np_mean cv_scores * 100)) ;;;
  print (PrintScore "CV Std" (np_std cv_scores * 100)) ;;;
  print (Print "Training on full dataset...") ;;;
  rf <- lift (rf_fit (rows X) y) ;;
  train_pred <- model_predict rf X ;;
  let train_acc := sk_score "accuracy" y train_pred in
  print (PrintScore "Training Accuracy" (train_acc * 100)) ;;;
  joblib_dump rf model_path ;;;
  print (PrintSaved model_path) ;;;
  write_file cv_results_path
    (MetricsCsv ["Model"; "CV_Accuracy"; "CV_Std"; "Train_Accuracy"]
       [inl "Random Forest"; inr (np_mean cv_scores * 100)%Q;
        inr (np_std cv_scores * 100)%Q; inr (train_acc * 100)%Q])
    (OSError "Cannot save file into a non-existent directory") ;;;
  print (PrintSaved cv_results_path) ;;;
  print (Print "Training complete!").

(** ** src/evaluate.py *)

Record ModelEvaluator : Type := mkEvaluator {
  model : option Model
}.

Definition ModelEvaluator_load_model (self : ModelEvaluator) (path : string)
  : M World ModelEvaluator :=
  m <- joblib_load path ;;
  print (PrintSaved path) ;;;
  ret (mkEvaluator (Some m)).

Definition ModelEvaluator_init (path : option string) : M World ModelEvaluator :=
  let self := mkEvaluator None in
  match truthy path with
  | Some p => ModelEvaluator_load_model self p
  | None => ret self
  end.

Definition metric_names : list string :=
  ["accuracy"; "precision"; "recall"; "f1"; "f2"].

Definition evaluate (self : ModelEvaluator) (X : DataFrame) (y : list cell)
  : M World (list (string * Q) * list Z) :=
  match model self with
  | None => raise (ValueError "No model loaded")
  | Some m =>
      y_pred <- model_predict m X ;;
      let metrics :=
        map (fun name => (name, (sk_score name y y_pred * 100)%Q)) metric_names in
      ret (metrics, y_pred)
  end.

Definition stage_names : list string :=
  ["Stage 0"; "Stage 1"; "Stage 2"; "Stage 3"; "Stage 4"].

Definition plot_confusion_matrix (y_true : list cell) (y_pred : list Z)
    (save_path : option string) : M World unit :=
  let cm := confusion_matrix y_true y_pred in
  match truthy save_path with
  | Some path =>
      savefig path
        (Heatmap "Confusion Matrix - Keratoconus Severity Staging" cm
           stage_names) ;;;
      print (PrintSaved path)
  | None => ret tt
  end.

Definition print_classification_report (y_true : list cell) (y_pred : list Z)
  : M World unit :=
  let target_names := stage_names in
  print (Print "DETAILED CLASSIFICATION REPORT") ;;;
  report <- lift (classification_report y_true y_pred target_names) ;;
  print (PrintReport report).

(** [metrics[name]] on a dict. *)
Fixpoint dict_get (d : list (string * Q)) (name : string) : result Q :=
  match d with
  | [] => Raise (KeyError name)
  | (k, v) :: d' => if String.eqb k name then Ok v else dict_get d' name
  end.

Definition print_performance_summary (metrics : list (string * Q))
  : M World unit :=
  print (Print "PERFORMANCE SUMMARY") ;;;
  for_each metric_names (fun name =>
    v <- lift (dict_get metrics name) ;; print (PrintScore name v)) ;;;
  ret tt.

Record test_case : Type := mkCase {
  case_name : string;
  case_Rm_B : Q;
  case_Rm_F : Q;
  case_Pachy_Min : Z;
  case_expected : Z
}.

Definition test_cases : list test_case :=
  [ mkCase "Normal (Stage 0)" 6.4 7.7 518 0;
    mkCase "Mild (Stage 1)" 6.0 7.3 481 1;
    mkCase "Moderate (Stage 2)" 5.7 7.0 448 2;
    mkCase "Advanced (Stage 3)" 5.1 6.7 391 3;
    mkCase "Severe (Stage 4)" 4.6 6.0 395 4 ].

Definition test_input (c : test_case) : DataFrame :=
  mkDataFrame ["Rm_B"; "Rm_F"; "Pachy_Min"]
    [[CFloat (case_Rm_B c); CFloat (case_Rm_F c); CInt (case_Pachy_Min c)]].

Definition confusion_matrix_path : string := "models/confusion_matrix.png".
Definition evaluation_metrics_path : string := "models/evaluation_metrics.csv".

Definition run_test_case (m : Model) (c : test_case) : M World unit :=
  preds <- model_predict m (test_input c) ;;
  pred <- lift (py_index preds 0) ;;
  probas <- model_predict_proba m (test_input c) ;;
  proba <- lift (py_index probas 0) ;;
  confidence <- lift (py_index proba pred) ;;
  print (PrintCase (case_name c) (Z.eqb pred (case_expected c))
           (case_expected c) pred (confidence * 100)).

Definition evaluate_main : M World unit :=
  print (Print "MODEL EVALUATION") ;;;
  print (Print "Loading test data from raw source...") ;;;
  df_raw <- read_csv raw_path ;;
  X <- lift (getitems df_raw feature_names) ;;
  y <- lift (getitem df_raw "Severity") ;;
  print (PrintInt "Test set size" (Z.of_nat (length y))) ;;;
  print (PrintColumns (columns X)) ;;;
  print (Print "Feature ranges (UNSCALED):") ;;;
  print_range X "Rm_B" ;;;
  print_range X "Rm_F" ;;;
  print_range X "Pachy_Min" ;;;
  evaluator <- ModelEvaluator_init (Some model_path) ;;
  print (Print "Evaluating model performance...") ;;;
  scored <- evaluate evaluator X y ;;
  let metrics := fst scored in
  let y_pred := snd scored in
  print_performance_summary metrics ;;;
  print_classification_report y y_pred ;;;
  plot_confusion_matrix y y_pred (Some confusion_matrix_path) ;;;
  write_file evaluation_metrics_path
    (MetricsCsv (map fst metrics) (map (fun kv => inr (snd kv)) metrics))
    (OSError "Cannot save file into a non-existent directory") ;;;
  print (PrintSaved evaluation_metrics_path) ;;;
  print (Print "TESTING WITH CLINICAL CASES") ;;;
  match model evaluator with
  | Some m => for_each test_cases (run_test_case m) ;;; ret tt
  | None => raise (LibraryError "'NoneType' object has no attribute 'predict'")
  end ;;;
  print (Print "Evaluation complete!").

(** ** app/streamlit_app.py *)

(** What the page shows, in order. *)
Inductive widget : Type :=
| StMarkdown (text : string)
| StSidebar (text : string)
| StError (msg : string) (e : option exn)
| StInfo (text : string)
| StSuccess (text : string)
| StWarning (text : string)
| StCaption (text : string)
| StValue (label : string) (value : cell)
| StGauge (stage : Z)
| StBarChart (stages : list string) (percent : list Q).

(** The server side of one browser session: the world, the resource cache
    of [@st.cache_resource] and the page built by the current run. *)
Record AppState : Type := mkApp {
  world : World;
  cache : option Model;
  page : list widget
}.

Definition in_world {A} (c : M World A) : M AppState A :=
  fun a => let '(r, w) := c (world a) in (r, mkApp w (cache a) (page a)).

Definition show (x : widget) : M AppState unit :=
  modify (fun a => mkApp (world a) (cache a) (page a ++ [x])).

Definition st_stop {A} : M AppState A := raise StopException.

Definition path_exists (path : string) : M AppState bool :=
  gets (fun a => bool_decide (is_Some (files (world a) !! path))).

Definition streamlit_load_model : M AppState Model :=
  cached <- gets cache ;;
  match cached with
  | Some m => ret m
  | None =>
      show (StSidebar "Looking for model at") ;;;
      show (StSidebar "File exists") ;;;
      found <- path_exists model_path ;;
      if found then
        m <- in_world (joblib_load model_path) ;;
        modify (fun a => mkApp (world a) (Some m) (page a)) ;;;
        ret m
      else
        show (StError "Model file not found" None) ;;;
        show (StError "Please run: python run_pipeline.py" None) ;;;
        st_stop
  end.

Record severity_info : Type := mkInfo {
  info_name : string;
  info_description : string;
  info_color : string;
  info_class : string
}.

Definition get_severity_info (stage : Z) : severity_info :=
  let info0 :=
    mkInfo "Stage 0 - Normal"
      "Clear cornea with normal thickness and visual acuity"
      "#28a745" "stage-0" in
  match stage with
  | 0%Z => info0
  | 1%Z => mkInfo "Stage 1 - Mild KC"
             "Fleischer's ring may be present, mild corneal thinning"
             "#17a2b8" "stage-1"
  | 2%Z => mkInfo "Stage 2 - Moderate KC"
             "Fleischer's ring and Vogt's striae, evident thinning"
             "#ffc107" "stage-2"
  | 3%Z => mkInfo "Stage 3 - Advanced KC"
             "Munson's sign, significant thinning with faint scarring"
             "#fd7e14" "stage-3"
  | 4%Z => mkInfo "Stage 4 - Severe KC"
             "Corneal scarring and opacities, evident Munson's sign"
             "#dc3545" "stage-4"
  | _ => info0
  end.

Definition recommendation (prediction : Z) : widget :=
  if (prediction =? 0)%Z then
    StSuccess "Normal cornea. Regular follow-up recommended."
  else if (prediction =? 1)%Z then
    StInfo "Mild KC. Consider corneal cross-linking consultation."
  else if (prediction =? 2)%Z then
    StWarning "Moderate KC. Corneal cross-linking recommended."
  else if (prediction =? 3)%Z then
    StWarning "Advanced KC. Corneal cross-linking and specialty contact lenses."
  else
    StError "Severe KC. Surgical intervention likely required." None.

Definition streamlit_main (ses : Session) : M AppState unit :=
  show (StMarkdown "Keratoconus Severity Staging System") ;;;
  show (StMarkdown "Automated Severity Classification using Machine Learning") ;;;
  model <- streamlit_load_model ;;
  show (StSidebar "About") ;;;
  show (StMarkdown "Enter Corneal Parameters") ;;;
  let rm_b := st_slider "Rm_B (mm)" 4.0 8.0 6.5 0.1 ses in
  show (StValue "Rm_B (mm)" (CFloat rm_b)) ;;;
  let rm_f := st_slider "Rm_F (mm)" 5.0 9.0 7.8 0.1 ses in
  show (StValue "Rm_F (mm)" (CFloat rm_f)) ;;;
  let pachy_min := st_slider_int "Pachy_Min (µm)" 200 600 520 5 ses in
  show (StValue "Pachy_Min (µm)" (CInt pachy_min)) ;;;
  show (StMarkdown "---") ;;;
  let predict_button := st_button "Predict Severity" ses in
  (if predict_button then
     let input_data :=
       mkDataFrame ["Rm_B"; "Rm_F"; "Pachy_Min"]
         [[CFloat rm_b; CFloat rm_f; CInt pachy_min]] in
     answer <- try_except
       (preds <- in_world (model_predict model input_data) ;;
        prediction <- lift (py_index preds 0) ;;
        probas <- in_world (model_predict_proba model input_data) ;;
        probabilities <- lift (py_index probas 0) ;;
        ret (prediction, probabilities))
       is_Exception
       (fun e =>
          show (StError "Prediction error" (Some e)) ;;;
          show (StInfo "Please retrain the model: python run_pipeline.py") ;;;
          st_stop) ;;
     let prediction := fst answer in
     let probabilities := snd answer in
     let severity := get_severity_info prediction in
     show (StMarkdown "Prediction Results") ;;;
     show (StMarkdown (info_name severity)) ;;;
     show (StMarkdown "Clinical Recommendations") ;;;
     show (recommendation prediction) ;;;
     show (StGauge prediction) ;;;
     show (StMarkdown "Confidence Distribution") ;;;
     (if Nat.eqb (length probabilities) (length stage_names)
      then ret tt
      else raise (ValueError "All arrays must be of the same length")) ;;;
     show (StBarChart stage_names
             (map (fun p => (p * 100)%Q) probabilities))
   else ret tt) ;;;
  show (StMarkdown "---") ;;;
  show (StMarkdown "Keratoconus Severity Staging System | Educational & Research Tool").

End Repository.

(** ** run_pipeline.py *)

Section RunPipeline.

(** The state the imported modules act on. *)
Variable St : Type.

(** A module object: its [main] attribute, if it has one. *)
Record py_module : Type := mkModule {
  module_main : option (M St unit)
}.

(** [__import__(name, fromlist=['main'])] *)
Variable import_ : string -> M St py_module.

(** What the orchestrator prints.  [PImport] and [PCallMain] are not
    printed: they record that the import and the call of [main] were
    reached. *)
Inductive pevent : Type :=
| PBanner
| PSection (title : string)
| PImport (module_name : string)
| PCallMain (module_name : string)
| PCompleted (step_name : string)
| PFailed (step_name : string) (e : exn)
| PTraceback (e : exn)
| PHalted
| PStatus (status step_name : string)
| PTimes
| PDone.

Definition PState : Type := (St * list pevent)%type.

Definition pprint (e : pevent) : M PState unit :=
  modify (fun s : PState => (fst s, (snd s ++ [e])%list)).

Definition in_modules {A} (c : M St A) : M PState A :=
  fun s => let '(r, st) := c (fst s) in (r, (st, snd s)).

Definition print_section (title : string) : M PState unit :=
  pprint (PSection title).

Definition run_step (step_name module_path : string) : M PState bool :=
  print_section ("STEP: " ++ step_name)%string ;;;
  try_except
    (let module_name := replace ".py" "" (replace "/" "." module_path) in
     pprint (PImport module_name) ;;;
     module <- in_modules (import_ module_name) ;;
     match module_main module with
     | Some main => pprint (PCallMain module_name) ;;; in_modules main
     | None => ret tt
     end ;;;
     pprint (PCompleted step_name) ;;;
     ret true)
    is_Exception
    (fun e =>
       pprint (PFailed step_name e) ;;;
       pprint (PTraceback e) ;;;
       ret false).

Definition steps : list (string * string) :=
  [ ("1. Data Generation", "src.data_generator");
    ("2. Data Preprocessing", "src.preprocessing");
    ("3. Feature Selection", "src.feature_selection");
    ("4. Model Training", "src.train");
    ("5. Model Evaluation", "src.evaluate") ].

(** The [for step_name, module_path in steps] loop of [main]; [results] is
    the list built so far. *)
Fixpoint execute (todo : list (string * string)) (results : list (string * bool))
  : M PState (list (string * bool)) :=
  match todo with
  | [] => ret results
  | (step_name, module_path) :: rest =>
      success <- run_step step_name module_path ;;
      let results := (results ++ [(step_name, success)])%list in
      if negb success
      then pprint PHalted ;;; raise (SystemExit 1)
      else execute rest results
  end.

Definition main : M PState unit :=
  pprint PBanner ;;;
  results <- execute steps [] ;;
  print_section "PIPELINE EXECUTION SUMMARY" ;;;
  for_each results (fun r =>
    pprint (PStatus (if snd r : bool then "PASSED" else "FAILED") (fst r))) ;;;
  pprint PTimes ;;;
  pprint PDone.


End RunPipeline.

Arguments mkModule {St} _.
Arguments module_main {St} _.
Arguments run_step {St} _ _ _.
Arguments execute {St} _ _ _.
Arguments main {St} _.

(** ** The pipeline over the repository's own modules *)

(** ** The orchestrator as the specification describes it *)

Section InOrder.
Variable St : Type.
Variable import_ : string -> M St (py_module St).




End InOrder.

Section Assembled.
Context {L : Libs}.

(** [__import__] in an environment where the third-party packages are
    installed: the five modules of [src/] load and expose their [main]. *)
Definition repo_import (name : string) : M World (py_module World) :=
  if String.eqb name "src.data_generator" then
    ret (mkModule (Some data_generator_main))
  else if String.eqb name "src.preprocessing" then
    ret (mkModule (Some preprocessing_main))
  else if String.eqb name "src.feature_selection" then
    ret (mkModule (Some feature_selection_main))
  else if String.eqb name "src.train" then
    ret (mkModule (Some train_main))
  else if String.eqb name "src.evaluate" then
    ret (mkModule (Some evaluate_main))
  else raise (ImportError name).

Definition run_pipeline : M (World * list pevent) unit := main repo_import.

(** The two invariants of a dataset: every label is an integer from 0 to
    4, and the three feature columns are present. *)
Definition label_ok (c : cell) : bool :=
  match c with
  | CInt z => (0 <=? z)%Z && (z <=? 4)%Z
  | CFloat _ => false
  end.

Definition dataset_ok (df : DataFrame) : bool :=
  match getitem df "Severity" with
  | Ok col => forallb label_ok col && Nat.eqb (length col) (length (rows df))
  | Raise _ => false
  end
  && forallb (fun name => is_ok (getitem df name)) feature_names.

End Assembled.

(** ** A small instance of the libraries

    A counter-based sampler, a reversing shuffle, a threshold classifier
    and clamping sliders: enough to run every script on concrete inputs. *)

Module Toy.

Definition normal (loc scale : Q) (n : nat) (g : nat) : list Q * nat :=
  (map (fun k => (loc + scale * inject_Z (Z.of_nat (k mod 3) - 1))%Q) (seq g n),
   g + n).

Definition order (s : Z) (len : nat) : list nat := rev (seq 0 len).

Definition stage_of (r : row) : Z :=
  let pachy := match last r with
               | Some (CInt z) => z
               | Some (CFloat q) => Qfloor q
               | None => 0%Z
               end in
  Z.max 0 (Z.min 4 ((535 - pachy) / 30)).

Definition one_hot (z : Z) : list Q :=
  map (fun k => if Z.eqb (Z.of_nat k) z then 1%Q else 0%Q) (seq 0 5).

(** What the person at the browser did: slider positions, counted in steps
    from the minimum, and whether the button was pressed. *)
Record session : Type := mkSession {
  pos_rm_b : nat;
  pos_rm_f : nat;
  pos_pachy : nat;
  pressed : bool
}.

Definition pos_of (label : string) (ses : session) : nat :=
  if String.eqb label "Rm_B (mm)" then pos_rm_b ses
  else if String.eqb label "Rm_F (mm)" then pos_rm_f ses
  else pos_pachy ses.

Definition slider (label : string) (lo hi value step : Q) (ses : session) : Q :=
  let x := (lo + inject_Z (Z.of_nat (pos_of label ses)) * step)%Q in
  if Qle_bool x hi then (if Qle_bool lo x then x else lo) else hi.

Definition slider_int (label : string) (lo hi value step : Z) (ses : session)
  : Z :=
  Z.max lo (Z.min hi (lo + Z.of_nat (pos_of label ses) * step)).

#[export] Instance libs : Libs := {|
  RngState := nat;
  Model := unit;
  Session := session;
  mt_seed := Z.to_nat;
  np_normal := normal;
  sample_order := order;
  csv_float := fun q => q;
  np_mean := fun _ => 0.75%Q;
  np_std := fun _ => 0.05%Q;
  cross_val_score := fun _ _ => Ok [0.75%Q];
  rf_fit := fun _ _ => Ok tt;
  sk_predict := fun _ X => Ok (map stage_of X);
  sk_predict_proba := fun _ X => Ok (map (fun r => one_hot (stage_of r)) X);
  sk_score := fun _ _ _ => 0.75%Q;
  confusion_matrix := fun _ _ => [];
  classification_report := fun _ _ _ => Ok "report";
  sns_pairplot := fun _ _ => Ok tt;
  st_slider := slider;
  st_slider_int := slider_int;
  st_button := fun _ ses => pressed ses
|}.

(** A fresh checkout: no data, no model, only the [models] directory. *)
Definition fresh : World :=
  mkWorld ∅ {["models"]} 0 [] [].

(** A checkout with the directories the scripts write into. *)
Definition prepared : World :=
  mkWorld ∅ {["models"; "data"; "data/processed"]} 0 [] [].

End Toy.

(** ** Vocabulary of the statements *)

Section Vocabulary.
Context {L : Libs}.

Definition header : list string := ["Severity"; "Rm_B"; "Rm_F"; "Pachy_Min"].

(** One generated row: the label and one draw per feature. *)
Definition mk_row (stage : Z) (x : Q * Q * Q) : row :=
  [CInt stage; CFloat (fst (fst x)); CFloat (snd (fst x)); CFloat (snd x)].

(** The three arrays [_generate_stage_data] draws for a stage when the
    global generator is in state [g], and the state it leaves. *)
Definition stage_draws (n : nat) (stage : Z) (g : RngState)
  : list Q * list Q * list Q * RngState :=
  let d1 := np_normal (rm_b_mean stage) 0.25 n g in
  let d2 := np_normal (rm_f_mean stage) 0.3 n (snd d1) in
  let d3 := np_normal (pachy_min_mean stage) 20 n (snd d2) in
  (fst d1, fst d2, fst d3, snd d3).

Definition stage_rows (n : nat) (stage : Z) (g : RngState) : list row :=
  let '(b, f, p, _) := stage_draws n stage g in
  map (mk_row stage) (zip (zip b f) p).

(** The per-stage frames the loop of [generate_dataset] collects when it
    starts with the global generator in state [g], and the state left. *)
Fixpoint stage_frames (n : nat) (stages : list Z) (g : RngState)
  : list DataFrame * RngState :=
  match stages with
  | [] => ([], g)
  | stage :: rest =>
      let fr := mkDataFrame header (stage_rows n stage g) in
      let '(frs, g') := stage_frames n rest (snd (stage_draws n stage g)) in
      (fr :: frs, g')
  end.

(** The rows of all stages in generation order, then as shuffled. *)
Definition unshuffled (n : nat) (stages : list Z) (g : RngState) : list row :=
  List.concat (map rows (fst (stage_frames n stages g))).

Definition shuffled (seed : Z) (rs : list row) : list row :=
  omap (fun i => rs !! i) (sample_order seed (length rs)).

(** A fresh generator followed by one call of [generate_dataset]. *)
Definition fresh_run (n : nat) (seed : Z) (output_path : option string)
  : M World DataFrame :=
  generator <- PentacamDataGenerator_init n seed ;;
  generate_dataset generator output_path.

(** The frame [generate_dataset] returns when the loop starts with the
    global generator in state [g]. *)
Definition dataset (self : PentacamDataGenerator) (g : RngState) : DataFrame :=
  mkDataFrame header
    (shuffled (random_state self)
       (unshuffled (n_per_class self) (severity_stages self) g)).

(** The label column of a list of rows under [header]. *)
Definition labels (rs : list row) : list cell := omap (fun r : row => r !! 0) rs.

(** World updates: more output, one more file, the effect of saving. *)
Definition add_out (es : list event) (w : World) : World :=
  mkWorld (files w) (dirs w) (rng w) (stdout w ++ es) (model_calls w).

Definition put_file (path : string) (c : content) (w : World) : World :=
  mkWorld (<[path := c]> (files w)) (dirs w) (rng w) (stdout w)
    (model_calls w).

Definition saved (df : DataFrame) (path : option string) (w : World) : World :=
  match truthy path with
  | Some p =>
      mkWorld (<[p := Csv df]> (files w))
        (list_to_set (ancestors (S (String.length (parent p))) (parent p))
           ∪ dirs w)
        (rng w) (stdout w) (model_calls w)
  | None => w
  end.

(** A computation whose result and effect on the global generator depend
    on the world only through the state of that generator. *)
Definition rng_only {A} (c : M World A) : Prop :=
  forall w1 w2, rng w1 = rng w2 ->
    fst (c w1) = fst (c w2) /\ rng (snd (c w1)) = rng (snd (c w2)).

Definition add_calls (cs : list call) (w : World) : World :=
  mkWorld (files w) (dirs w) (rng w) (stdout w) (model_calls w ++ cs).

(** What [evaluate.main] prints for one clinical case, when the two
    prediction calls and the three indexings succeed. *)
Definition case_outcome (m : Model) (c : test_case) : result event :=
  match sk_predict m (rows (test_input c)) with
  | Raise e => Raise e
  | Ok preds =>
      match py_index preds 0 with
      | Raise e => Raise e
      | Ok pred =>
          match sk_predict_proba m (rows (test_input c)) with
          | Raise e => Raise e
          | Ok probas =>
              match py_index probas 0 with
              | Raise e => Raise e
              | Ok proba =>
                  match py_index proba pred with
                  | Raise e => Raise e
                  | Ok confidence =>
                      Ok (PrintCase (case_name c)
                            (Z.eqb pred (case_expected c))
                            (case_expected c) pred (confidence * 100))
                  end
              end
          end
      end
  end.

Definition case_calls (c : test_case) : list call :=
  [CallPredict (test_input c); CallPredictProba (test_input c)].

(** The metrics [evaluate] computes from the labels and the predictions. *)
Definition metrics_of (y : list cell) (y_pred : list Z) : list (string * Q) :=
  map (fun name => (name, (sk_score name y y_pred * 100)%Q)) metric_names.

(** The frame the prediction form sends to the classifier. *)
Definition query (ses : Session) : DataFrame :=
  mkDataFrame ["Rm_B"; "Rm_F"; "Pachy_Min"]
    [[CFloat (st_slider "Rm_B (mm)" 4.0 8.0 6.5 0.1 ses);
      CFloat (st_slider "Rm_F (mm)" 5.0 9.0 7.8 0.1 ses);
      CInt (st_slider_int "Pachy_Min (µm)" 200 600 520 5 ses)]].

Definition call_frame (c : call) : DataFrame :=
  match c with
  | CallPredict X => X
  | CallPredictProba X => X
  end.

(** One query point inside the ranges of the three sliders. *)
Definition within_sliders (X : DataFrame) : Prop :=
  exists b f p,
    columns X = ["Rm_B"; "Rm_F"; "Pachy_Min"] /\
    rows X = [[CFloat b; CFloat f; CInt p]] /\
    (4.0 <= b <= 8.0)%Q /\ (5.0 <= f <= 9.0)%Q /\ (200 <= p <= 600)%Z.

(** A computation of the app all of whose classifier calls satisfy [P]. *)
Definition calls_within (P : call -> Prop) {A} (c : M AppState A) : Prop :=
  forall a, exists new,
    model_calls (world (snd (c a))) = model_calls (world a) ++ new /\
    Forall P new.

(** The two error kinds the specification names: the model file is
    missing, or a prediction call raised. *)
Definition raised_by_predict (e : exn) : Prop :=
  exists m X, sk_predict m X = Raise e \/ sk_predict_proba m X = Raise e.

Definition in_spec_taxonomy (e : exn) : Prop :=
  e = FileNotFoundError model_path \/ raised_by_predict e.

End Vocabulary.

(** The module a step names, as [run_step] computes it. *)
Definition module_name_of (module_path : string) : string :=
  replace ".py" "" (replace "/" "." module_path).

(** The modules whose import was reached, in order. *)
Definition imports (tr : list pevent) : list string :=
  omap (fun e => match e with PImport name => Some name | _ => None end) tr.

(** The modules whose [main] was called, in order. *)
Definition main_calls (tr : list pevent) : list string :=
  omap (fun e => match e with PCallMain name => Some name | _ => None end) tr.

(** The verdicts [run_step] printed: completed ([true]) or failed. *)
Definition outcomes (tr : list pevent) : list (string * bool) :=
  omap (fun e => match e with
                 | PCompleted name => Some (name, true)
                 | PFailed name _ => Some (name, false)
                 | _ => None
                 end) tr.

(** The verdicts of steps that all completed. *)
Definition passed (names : list string) : list (string * bool) :=
  map (fun n => (n, true)) names.

Definition step_names : list string := map fst steps.

(** * Properties *)

(** ** Concrete worlds over the small instance *)

Module ToyWorlds.
Import Toy.

Definition sample_frame : DataFrame :=
  mkDataFrame ["Severity"; "Rm_B"; "Rm_F"; "Pachy_Min"]
    [[CInt 0; CFloat 6.5; CFloat 7.8; CFloat 520];
     [CInt 4; CFloat 4.9; CFloat 6.4; CFloat 400]].

(** The raw file is there, and so are the output directories. *)
Definition with_raw : World :=
  mkWorld {[raw_path := Csv sample_frame]}
    {["models"; "data"; "data/raw"; "data/processed"]} 0 [] [].

(** The preprocessed file is there. *)
Definition with_processed : World :=
  mkWorld {[processed_path := Csv sample_frame]}
    {["models"; "data"; "data/processed"]} 0 [] [].

(** A raw file that lacks the column Rm_B. *)
Definition without_rm_b : World :=
  mkWorld {[raw_path :=
              Csv (mkDataFrame ["Severity"; "Rm_F"; "Pachy_Min"]
                     [[CInt 0; CFloat 7.8; CFloat 520]])]}
    {["models"; "data"; "data/raw"; "data/processed"]} 0 [] [].

(** The raw file and a trained model. *)
Definition trained : World :=
  mkWorld (<[model_path := Pickle tt]> {[raw_path := Csv sample_frame]})
    {["models"; "data"; "data/raw"; "data/processed"]} 0 [] [].

Definition features_of_sample : DataFrame :=
  mkDataFrame ["Rm_B"; "Rm_F"; "Pachy_Min"]
    [[CFloat 6.5; CFloat 7.8; CFloat 520];
     [CFloat 4.9; CFloat 6.4; CFloat 400]].

Definition case_events : list event :=
  omap (fun c => match case_outcome tt c with
                 | Ok ev => Some ev
                 | Raise _ => None
                 end) test_cases.

(** A session with the sliders moved and the button pressed, on a server
    that has the model in its cache. *)
Definition pressing : session := mkSession 3 50 7 true.

Definition serving : AppState := mkApp trained (Some tt) [].

(** A server without a model file. *)
Definition cold : AppState := mkApp fresh None [].

(** A module table in which every module loads and none has [main]. *)
Definition bare_import (name : string) : M nat (py_module nat) :=
  ret (mkModule None).

End ToyWorlds.

(** ** Vocabulary of the further properties *)

(** The status lines of the summary, as (status, step) pairs. *)
Definition statuses (tr : list pevent) : list (string * string) :=
  omap (fun e => match e with
                 | PStatus status name => Some (status, name)
                 | _ => None
                 end) tr.

(** What [run_step] and the loop of [main] print: never a status line,
    and section titles that start with STEP. *)
Definition step_event (e : pevent) : bool :=
  match e with
  | PSection title => String.prefix "STEP: " title
  | PImport _ | PCallMain _ | PCompleted _ | PFailed _ _ | PTraceback _
  | PHalted => true
  | PBanner | PStatus _ _ | PTimes | PDone => false
  end.

Definition is_halted (e : pevent) : bool :=
  match e with PHalted => true | _ => false end.

(** The summary lines for steps that all passed. *)
Definition passed_lines (names : list string) : list pevent :=
  map (fun n => PStatus "PASSED" n) names.

(** The components of a path, split at the slashes. *)
Fixpoint path_components (p : string) : list string :=
  match p with
  | EmptyString => [EmptyString]
  | String c r =>
      if Ascii.eqb c "/"%char then EmptyString :: path_components r
      else match path_components r with
           | x :: xs => String c x :: xs
           | [] => [String c EmptyString]
           end
  end.

(** A relative path written the way [pathlib] keeps it: no empty
    component (so no leading, trailing or doubled slash) and no [.] or
    [..]. *)
Definition plain_path (p : string) : bool :=
  forallb (fun c => negb (String.eqb c "" || String.eqb c "."
                          || String.eqb c ".."))
    (path_components p).

Section FurtherVocabulary.
Context {L : Libs}.

(** The generator object [__init__] builds. *)
Definition generator_of (n : nat) (seed : Z) : PentacamDataGenerator :=
  mkGenerator n seed [0; 1; 2; 3; 4]%Z.

(** The state of the global generator after one call of
    [generate_dataset] that started in state [g]. *)
Definition rng_after (self : PentacamDataGenerator) (g : RngState) : RngState :=
  snd (stage_frames (n_per_class self) (severity_stages self) g).

(** Two generators built one after the other, then a dataset from the
    first. *)
Definition first_of_two (n1 : nat) (seed1 : Z) (n2 : nat) (seed2 : Z)
    (output_path : option string) : M World DataFrame :=
  g1 <- PentacamDataGenerator_init n1 seed1 ;;
  g2 <- PentacamDataGenerator_init n2 seed2 ;;
  generate_dataset g1 output_path.

(** One generator, two datasets. *)
Definition two_datasets (n : nat) (seed : Z) (path1 path2 : option string)
  : M World (DataFrame * DataFrame) :=
  g <- PentacamDataGenerator_init n seed ;;
  d1 <- generate_dataset g path1 ;;
  d2 <- generate_dataset g path2 ;;
  ret (d1, d2).

(** The files the five scripts write. *)
Definition artefacts : list string :=
  [raw_path; processed_path; selected_path; pairplot_path; model_path;
   cv_results_path; confusion_matrix_path; evaluation_metrics_path].

(** A checkout in which nothing stands in the way of the pipeline's
    files: none of the places it writes is a directory, and none of the
    directories on the way to them is a regular file. *)
Definition unobstructed (w : World) : Prop :=
  (forall p, p ∈ artefacts -> p ∉ dirs w) /\
  (forall d, d ∈ ["data"; "data/raw"; "data/processed"; "models"] ->
             files w !! d = None).

(** A computation that leaves the file at [p], or its absence, as it is. *)
Definition keeps (p : string) {A} (c : M World A) : Prop :=
  forall w, files (snd (c w)) !! p = files w !! p.

(** The table [train.main] writes next to the model. *)
Definition cv_results (cv_scores : list Q) (y : list cell) (train_pred : list Z)
  : content :=
  MetricsCsv ["Model"; "CV_Accuracy"; "CV_Std"; "Train_Accuracy"]
    [inl "Random Forest"; inr (np_mean cv_scores * 100)%Q;
     inr (np_std cv_scores * 100)%Q;
     inr (sk_score "accuracy" y train_pred * 100)%Q].

End FurtherVocabulary.

(** A module table in which no module can be imported. *)
Definition broken_import (name : string) : M nat (py_module nat) :=
  raise (ImportError name).

(** A module table whose modules all stop the interpreter with status 0. *)
Definition quitting_import (name : string) : M nat (py_module nat) :=
  ret (mkModule (Some (raise (SystemExit 0)))).

(** Further concrete worlds over the small instance. *)
Module MoreWorlds.
Import Toy.

(** The selected-features file is there, and so is [models]. *)
Definition with_selected : World :=
  mkWorld {[selected_path := Csv ToyWorlds.sample_frame]}
    {["models"; "data"; "data/processed"]} 0 [] [].

(** A checkout that holds a file of the user's own. *)
Definition with_patients : World :=
  mkWorld {["data/patients.csv" := Csv ToyWorlds.sample_frame]}
    {["models"; "data"; "data/processed"]} 0 [] [].

(** The generated dataset of the small instance, its feature columns and
    its labels. *)
Definition toy_raw : DataFrame :=
  dataset (generator_of 130 42) (mt_seed 42).

Definition toy_features : DataFrame :=
  mkDataFrame feature_names (map (drop 1) (rows toy_raw)).

Definition toy_labels : list cell := labels (rows toy_raw).

End MoreWorlds.

Local Open Scope string_scope.
Local Open Scope list_scope.

Section Properties.
Context {L : Libs}.

Hypothesis np_normal_length :
  forall loc scale n g, length (fst (np_normal loc scale n g)) = n.
Hypothesis sample_order_perm :
  forall s len, Permutation (sample_order s len) (seq 0 len).

Lemma zip_columns_rows (n : nat) (stage : Z) (b f p : list Q) :
  length b = n -> length f = n -> length p = n ->
  zip_columns n [replicate n (CInt stage); map CFloat b; map CFloat f;
                 map CFloat p]
  = map (mk_row stage) (zip (zip b f) p).
Proof.
  revert b f p.
  induction n as [|n IH]; intros b f p Hb Hf Hp.
  - destruct b; [|discriminate]. reflexivity.
  - destruct b as [|xb b]; [discriminate|].
    destruct f as [|xf f]; [discriminate|].
    destruct p as [|xp p]; [discriminate|].
    simpl in Hb, Hf, Hp.
    cbn [zip_columns replicate map zip zip_with omap head list_omap drop].
    simpl. f_equal. rewrite !drop_0.
    apply IH; lia.
Qed.

Lemma generate_stage_data_run (self : PentacamDataGenerator) (stage : Z)
    (w : World) :
  _generate_stage_data self stage w
  = (Ok (mkDataFrame header (stage_rows (n_per_class self) stage (rng w))),
     mkWorld (files w) (dirs w)
       (snd (stage_draws (n_per_class self) stage (rng w)))
       (stdout w) (model_calls w)).
Proof.
  unfold _generate_stage_data, stage_rows, stage_draws, bind, np_random_normal, lift.
  set (n := n_per_class self).
  pose proof (np_normal_length (rm_b_mean stage) 0.25 n (rng w)) as H1.
  destruct (np_normal (rm_b_mean stage) 0.25 n (rng w)) as [b g1].
  pose proof (np_normal_length (rm_f_mean stage) 0.3 n g1) as H2.
  cbn [rng fst snd] in *.
  destruct (np_normal (rm_f_mean stage) 0.3 n g1) as [f g2].
  pose proof (np_normal_length (pachy_min_mean stage) 20 n g2) as H3.
  cbn [rng fst snd] in *.
  destruct (np_normal (pachy_min_mean stage) 20 n g2) as [p g3].
  cbn [rng fst snd files dirs stdout model_calls] in *.
  unfold DataFrame_of_dict.
  cbn [forallb snd map fst].
  rewrite !length_map, length_replicate, H1, H2, H3, Nat.eqb_refl.
  cbn [andb].
  rewrite zip_columns_rows by assumption.
  reflexivity.
Qed.

Lemma stage_loop_run (self : PentacamDataGenerator) (stages : list Z)
    (w : World) :
  for_each stages (fun stage =>
      print (PrintStage stage) ;;; _generate_stage_data self stage) w
  = (Ok (fst (stage_frames (n_per_class self) stages (rng w))),
     mkWorld (files w) (dirs w)
       (snd (stage_frames (n_per_class self) stages (rng w)))
       (stdout w ++ map PrintStage stages) (model_calls w)).
Proof.
  revert w. induction stages as [|stage rest IH]; intros w.
  - cbn. rewrite app_nil_r. destruct w; reflexivity.
  - cbn [for_each stage_frames].
    unfold bind at 1. unfold bind at 1. unfold print at 1, modify.
    rewrite generate_stage_data_run.
    cbn [files dirs rng stdout model_calls].
    unfold bind at 1. rewrite IH.
    cbn [files dirs rng stdout model_calls ret fst snd].
    destruct (stage_frames (n_per_class self) rest _) as [frs g'].
    cbn [fst snd map]. rewrite <- app_assoc. reflexivity.
Qed.

Lemma omap_lookup_seq {A} (l : list A) (k : nat) :
  omap (fun i => l !! i) (seq k (length l - k)) = drop k l.
Proof.
  remember (length l - k) as m eqn:Hm.
  revert k Hm. induction m as [|m IH]; intros k Hm.
  - cbn. rewrite drop_ge by lia. reflexivity.
  - cbn [seq omap list_omap].
    destruct (l !! k) as [x|] eqn:Hx.
    + rewrite (drop_S l x k Hx). f_equal. apply IH. lia.
    + apply lookup_ge_None in Hx. lia.
Qed.

Lemma shuffled_perm (seed : Z) (rs : list row) : shuffled seed rs ≡ₚ rs.
Proof.
  unfold shuffled.
  rewrite (sample_order_perm seed (length rs)).
  pose proof (omap_lookup_seq rs 0) as H.
  rewrite Nat.sub_0_r, drop_0 in H. rewrite H. reflexivity.
Qed.

Lemma stage_rows_length n stage g : length (stage_rows n stage g) = n.
Proof.
  unfold stage_rows, stage_draws.
  rewrite length_map, !length_zip, !np_normal_length. lia.
Qed.

Lemma labels_stage_rows n stage g :
  labels (stage_rows n stage g) = replicate n (CInt stage).
Proof.
  rewrite <- (stage_rows_length n stage g) at 2.
  unfold stage_rows. destruct (stage_draws n stage g) as [[[b f] p] g'].
  unfold labels. induction (zip (zip b f) p) as [|x l IH]; [reflexivity|].
  cbn. f_equal. exact IH.
Qed.

Lemma bind_print {A} (e : event) (k : unit -> M World A) (w : World) :
  bind (print e) k w = k tt (add_out [e] w).
Proof. reflexivity. Qed.

Lemma print_run (e : event) (w : World) :
  print e w = (Ok tt, add_out [e] w).
Proof. reflexivity. Qed.

Lemma bind_ok {S A B} (c : M S A) (k : A -> M S B) (s s' : S) (a : A) :
  c s = (Ok a, s') -> bind c k s = k a s'.
Proof. intros H. unfold bind. rewrite H. reflexivity. Qed.

Lemma add_out_mk (es : list event) f d g o c :
  add_out es (mkWorld f d g o c) = mkWorld f d g (o ++ es) c.
Proof. reflexivity. Qed.

Lemma put_file_mk (path : string) (x : content) f d g o c :
  put_file path x (mkWorld f d g o c) = mkWorld (<[path := x]> f) d g o c.
Proof. reflexivity. Qed.

Lemma add_out_add_out (es1 es2 : list event) (w : World) :
  add_out es2 (add_out es1 w) = add_out (es1 ++ es2) w.
Proof. unfold add_out; cbn. rewrite app_assoc. reflexivity. Qed.

Lemma stage_frames_columns n stages g :
  Forall (fun fr => columns fr = header) (fst (stage_frames n stages g)).
Proof.
  revert g. induction stages as [|s rest IH]; intros g; cbn; [constructor|].
  specialize (IH (snd (stage_draws n s g))).
  destruct (stage_frames n rest _) as [frs g']. cbn in *.
  constructor; [reflexivity|exact IH].
Qed.

Lemma pd_concat_stage_frames n stages g :
  stages <> [] ->
  pd_concat (fst (stage_frames n stages g))
  = Ok (mkDataFrame header (unshuffled n stages g)).
Proof.
  intros Hne. unfold unshuffled.
  destruct stages as [|s rest]; [congruence|].
  cbn [stage_frames].
  destruct (stage_frames n rest _) as [frs g']. reflexivity.
Qed.

Lemma count_loop_run (df : DataFrame) (stages : list Z) (w : World) :
  columns df = header ->
  for_each stages (fun stage =>
      col <- lift (getitem df "Severity") ;;
      print (PrintCount stage (count_eq stage col))) w
  = (Ok (map (fun _ => tt) stages),
     add_out (map (fun stage => PrintCount stage (count_eq stage (labels (rows df))))
                stages) w).
Proof.
  intros Hc. revert w. induction stages as [|s rest IH]; intros w.
  - cbn. unfold add_out. rewrite app_nil_r. destruct w; reflexivity.
  - cbn [for_each map]. set (tl := for_each rest _).
    unfold bind at 1. unfold bind at 1.
    unfold getitem. rewrite Hc.
    cbn [header index_of String.eqb Ascii.eqb Bool.eqb lift].
    fold (labels (rows df)). cbn [print modify].
    unfold bind at 1. subst tl. rewrite IH.
    unfold add_out, ret. cbn [files dirs rng stdout model_calls].
    rewrite <- app_assoc. reflexivity.
Qed.

Lemma print_range_run (df : DataFrame) (name : string) :
  columns df = header -> name ∈ feature_names ->
  exists col, getitem df name = Ok col /\
    forall w, print_range df name w = (Ok tt, add_out [PrintRange name col] w).
Proof.
  intros Hc Hin. unfold print_range, getitem. rewrite Hc.
  unfold feature_names in Hin.
  repeat (apply elem_of_cons in Hin as [->|Hin]);
    [| | |apply elem_of_nil in Hin; contradiction];
    eexists; (split; [reflexivity|]); reflexivity.
Qed.

Lemma bind_assoc {S A B C} (c : M S A) (f : A -> M S B) (g : B -> M S C)
    (s : S) :
  bind (bind c f) g s = bind c (fun x => bind (f x) g) s.
Proof. unfold bind. destruct (c s) as [[a|e] s']; reflexivity. Qed.

Lemma bind_modify {S A} (f : S -> S) (k : unit -> M S A) (s : S) :
  bind (modify f) k s = k tt (f s).
Proof. reflexivity. Qed.

Lemma bind_ret {S A B} (a : A) (k : A -> M S B) (s : S) :
  bind (ret a) k s = k a s.
Proof. reflexivity. Qed.

Lemma bind_write_file {A} (path : string) (c : content) (e : exn)
    (k : unit -> M World A) (w : World) :
  dir_exists w (parent path) = true ->
  bind (write_file path c e) k w = k tt (put_file path c w).
Proof. intros H. unfold bind, write_file. rewrite H. reflexivity. Qed.

Lemma ancestors_head (d : string) :
  String.eqb d "." = false -> d ∈ ancestors (S (String.length d)) d.
Proof. intros H. cbn [ancestors]. rewrite H. apply list_elem_of_here. Qed.

Lemma dir_exists_after_mkdir (d : string) (w : World) (f : gmap string content)
    (g : RngState) (out : list event) (calls : list call) :
  dir_exists
    (mkWorld f (list_to_set (ancestors (S (String.length d)) d) ∪ dirs w)
       g out calls) d = true.
Proof.
  unfold dir_exists. cbn [dirs].
  destruct (String.eqb d ".") eqn:E; [reflexivity|].
  rewrite bool_decide_eq_true_2; [reflexivity|].
  apply elem_of_union_l, elem_of_list_to_set, ancestors_head, E.
Qed.

Lemma generate_dataset_run (self : PentacamDataGenerator)
    (path : option string) (w : World) :
  seed_in_range (random_state self) = true ->
  severity_stages self <> [] ->
  exists out,
    generate_dataset self path w =
    (Ok (dataset self (rng w)),
     add_out out
       (saved (dataset self (rng w)) path
          (mkWorld (files w) (dirs w)
             (snd (stage_frames (n_per_class self) (severity_stages self)
                     (rng w)))
             (stdout w) (model_calls w)))).
Proof.
  intros Hseed Hne. unfold generate_dataset.
  rewrite !bind_print.
  erewrite bind_ok by apply stage_loop_run.
  cbn [add_out files dirs rng stdout model_calls].
  unfold bind at 1. unfold lift at 1.
  rewrite (pd_concat_stage_frames _ _ _ Hne).
  unfold bind at 1. unfold lift at 1, sample_frac1.
  rewrite Hseed. cbn [columns rows].
  fold (shuffled (random_state self)
          (unshuffled (n_per_class self) (severity_stages self) (rng w))).
  fold (dataset self (rng w)).
  set (df := dataset self (rng w)).
  rewrite !bind_print.
  erewrite bind_ok by (apply count_loop_run; reflexivity).
  assert (Hdf : columns df = header) by reflexivity.
  destruct (print_range_run df "Rm_B" Hdf) as (c1 & _ & R1);
    [apply (bool_decide_unpack _); reflexivity|].
  destruct (print_range_run df "Rm_F" Hdf) as (c2 & _ & R2);
    [apply (bool_decide_unpack _); reflexivity|].
  destruct (print_range_run df "Pachy_Min" Hdf) as (c3 & _ & R3);
    [apply (bool_decide_unpack _); reflexivity|].
  unfold saved.
  destruct (truthy path) as [p|].
  - rewrite bind_assoc. unfold mkdir_parents. rewrite bind_modify.
    cbv beta. cbn [add_out files dirs rng stdout model_calls].
    rewrite bind_assoc. unfold to_csv.
    rewrite bind_write_file by apply dir_exists_after_mkdir.
    cbv beta. rewrite !bind_print.
    rewrite (bind_ok _ _ _ _ _ (R1 _)), (bind_ok _ _ _ _ _ (R2 _)),
      (bind_ok _ _ _ _ _ (R3 _)).
    unfold ret. repeat (rewrite add_out_mk || rewrite put_file_mk).
    eexists. rewrite <- !app_assoc. reflexivity.
  - rewrite bind_ret, !bind_print.
    rewrite (bind_ok _ _ _ _ _ (R1 _)), (bind_ok _ _ _ _ _ (R2 _)),
      (bind_ok _ _ _ _ _ (R3 _)).
    unfold ret. repeat rewrite add_out_mk.
    eexists. rewrite <- !app_assoc. reflexivity.
Qed.

(** *** The generated dataset, class by class *)

Lemma unshuffled_cons n stage rest g :
  unshuffled n (stage :: rest) g
  = stage_rows n stage g ++ unshuffled n rest (snd (stage_draws n stage g)).
Proof.
  unfold unshuffled. cbn [stage_frames].
  destruct (stage_frames n rest _) as [frs g']. reflexivity.
Qed.

Lemma length_unshuffled n stages g :
  length (unshuffled n stages g) = length stages * n.
Proof.
  revert g. induction stages as [|s rest IH]; intros g; [reflexivity|].
  rewrite unshuffled_cons, length_app, stage_rows_length, IH. reflexivity.
Qed.

Lemma labels_unshuffled n stages g :
  labels (unshuffled n stages g)
  = List.concat (map (fun s => replicate n (CInt s)) stages).
Proof.
  revert g. induction stages as [|s rest IH]; intros g; [reflexivity|].
  rewrite unshuffled_cons. unfold labels in *.
  rewrite omap_app. fold (labels (stage_rows n s g)).
  rewrite labels_stage_rows, IH. reflexivity.
Qed.

Lemma count_eq_app z l1 l2 :
  count_eq z (l1 ++ l2) = count_eq z l1 + count_eq z l2.
Proof. unfold count_eq. rewrite filter_app, length_app. reflexivity. Qed.

Lemma count_eq_replicate z n s :
  count_eq z (replicate n (CInt s)) = if Z.eqb s z then n else 0.
Proof.
  unfold count_eq. induction n as [|n IH].
  - destruct (Z.eqb s z); reflexivity.
  - cbn [replicate]. rewrite filter_cons. cbn [cell_eq_int].
    destruct (Z.eqb s z) eqn:E.
    + rewrite decide_True by reflexivity. cbn. rewrite IH. reflexivity.
    + rewrite decide_False by discriminate. exact IH.
Qed.

Lemma count_eq_stages z n stages :
  NoDup stages -> z ∈ stages ->
  count_eq z (List.concat (map (fun s => replicate n (CInt s)) stages)) = n.
Proof.
  intros Hnd. induction Hnd as [|s rest Hnotin Hnd IH]; intros Hin.
  - apply elem_of_nil in Hin. contradiction.
  - cbn [map List.concat]. rewrite count_eq_app, count_eq_replicate.
    assert (Hout : forall l, z ∉ l ->
              count_eq z (List.concat (map (fun s => replicate n (CInt s)) l)) = 0).
    { clear. induction l as [|a l IHl]; intros Hz; [reflexivity|].
      cbn [map List.concat]. rewrite count_eq_app, count_eq_replicate.
      apply not_elem_of_cons in Hz as [Hne Hz].
      rewrite IHl by exact Hz.
      destruct (Z.eqb a z) eqn:E; [apply Z.eqb_eq in E; congruence|reflexivity]. }
    apply elem_of_cons in Hin as [->|Hin].
    + rewrite Z.eqb_refl, Hout by exact Hnotin. lia.
    + rewrite IH by exact Hin.
      destruct (Z.eqb s z) eqn:E; [|reflexivity].
      apply Z.eqb_eq in E. subst. contradiction.
Qed.

Lemma count_eq_perm z (l1 l2 : list cell) :
  l1 ≡ₚ l2 -> count_eq z l1 = count_eq z l2.
Proof. intros H. unfold count_eq. rewrite H. reflexivity. Qed.

Lemma labels_perm (rs1 rs2 : list row) :
  rs1 ≡ₚ rs2 -> labels rs1 ≡ₚ labels rs2.
Proof. intros H. unfold labels. rewrite H. reflexivity. Qed.

Lemma getitem_severity (rs : list row) :
  getitem (mkDataFrame header rs) "Severity" = Ok (labels rs).
Proof. reflexivity. Qed.

(** Where a row of a stage comes from: position [i] of the three arrays
    drawn for that stage. *)
Lemma stage_rows_provenance n stage g r :
  r ∈ stage_rows n stage g ->
  exists i xb xf xp,
    r = [CInt stage; CFloat xb; CFloat xf; CFloat xp] /\
    let d1 := np_normal (rm_b_mean stage) 0.25 n g in
    let d2 := np_normal (rm_f_mean stage) 0.3 n (snd d1) in
    let d3 := np_normal (pachy_min_mean stage) 20 n (snd d2) in
    fst d1 !! i = Some xb /\ fst d2 !! i = Some xf /\ fst d3 !! i = Some xp.
Proof.
  unfold stage_rows, stage_draws. intros Hin.
  apply list_elem_of_fmap in Hin as ([[xb xf] xp] & -> & Hin).
  apply list_elem_of_lookup in Hin as [i Hi].
  apply lookup_zip_with_Some in Hi as (bf & xp' & Heq & Hbf & Hp).
  apply lookup_zip_with_Some in Hbf as (xb' & xf' & Heq' & Hb & Hf).
  inversion Heq; subst. inversion H0; subst.
  exists i, xb', xf', xp'. repeat split; assumption.
Qed.

Lemma unshuffled_provenance n stages g r :
  r ∈ unshuffled n stages g ->
  exists stage g', stage ∈ stages /\ r ∈ stage_rows n stage g'.
Proof.
  revert g. induction stages as [|s rest IH]; intros g Hin.
  - apply elem_of_nil in Hin. contradiction.
  - rewrite unshuffled_cons in Hin. apply elem_of_app in Hin as [Hin|Hin].
    + exists s, g. split; [apply list_elem_of_here|exact Hin].
    + destruct (IH _ Hin) as (stage & g' & Hs & Hr).
      exists stage, g'. split; [apply list_elem_of_further, Hs|exact Hr].
Qed.

Lemma mean_formulas (s : Z) :
  (pachy_min_mean s == 520 - 30 * inject_Z s)%Q /\
  (rm_b_mean s == 6.5 - 0.4 * inject_Z s)%Q /\
  (rm_f_mean s == 7.8 - 0.35 * inject_Z s)%Q.
Proof.
  unfold pachy_min_mean, rm_b_mean, rm_f_mean. repeat split.
  - unfold Z.sub. rewrite inject_Z_plus, inject_Z_opp, inject_Z_mult. ring.
  - ring.
  - ring.
Qed.

Lemma fresh_run_unfold (n : nat) (seed : Z) (path : option string) (w : World) :
  seed_in_range seed = true ->
  fresh_run n seed path w
  = generate_dataset (mkGenerator n seed [0; 1; 2; 3; 4]%Z) path
      (mkWorld (files w) (dirs w) (mt_seed seed) (stdout w) (model_calls w)).
Proof.
  intros H. unfold fresh_run, PentacamDataGenerator_init, np_random_seed.
  rewrite H. reflexivity.
Qed.

(** C1.  A fresh generator for [n] samples per class and a seed NumPy
    accepts returns a frame with the header Severity, Rm_B, Rm_F,
    Pachy_Min and [5 * n] rows; for each stage [s] from 0 to 4 exactly [n]
    entries of the Severity column equal [s]; and every row is a label [s]
    followed by the values at one position [i] of the three arrays drawn,
    in this order, by [np.random.normal] with means [6.5 - 0.4 s] (Rm_B),
    [7.8 - 0.35 s] (Rm_F) and [520 - 30 s] (Pachy_Min).  The sampler is
    assumed to return as many draws as asked, the shuffle to list every
    position once. *)
Theorem generate_dataset_per_class (n : nat) (seed : Z)
    (path : option string) (w : World) :
  seed_in_range seed = true ->
  exists df w',
    fresh_run n seed path w = (Ok df, w') /\
    columns df = ["Severity"; "Rm_B"; "Rm_F"; "Pachy_Min"] /\
    length (rows df) = 5 * n /\
    (forall s, s ∈ [0; 1; 2; 3; 4]%Z ->
       exists col, getitem df "Severity" = Ok col /\
                   length col = 5 * n /\ count_eq s col = n) /\
    (forall r, r ∈ rows df ->
       exists s g i xb xf xp,
         s ∈ [0; 1; 2; 3; 4]%Z /\
         r = [CInt s; CFloat xb; CFloat xf; CFloat xp] /\
         (let d1 := np_normal (rm_b_mean s) 0.25 n g in
          let d2 := np_normal (rm_f_mean s) 0.3 n (snd d1) in
          let d3 := np_normal (pachy_min_mean s) 20 n (snd d2) in
          fst d1 !! i = Some xb /\ fst d2 !! i = Some xf /\
          fst d3 !! i = Some xp) /\
         (rm_b_mean s == 6.5 - 0.4 * inject_Z s)%Q /\
         (rm_f_mean s == 7.8 - 0.35 * inject_Z s)%Q /\
         (pachy_min_mean s == 520 - 30 * inject_Z s)%Q).
Proof.
  intros Hseed. rewrite (fresh_run_unfold n seed path w Hseed).
  set (self := mkGenerator n seed [0; 1; 2; 3; 4]%Z).
  destruct (generate_dataset_run self path
              (mkWorld (files w) (dirs w) (mt_seed seed) (stdout w)
                 (model_calls w)) Hseed ltac:(discriminate)) as [out Hrun].
  cbn [rng] in Hrun. rewrite Hrun.
  set (rs := unshuffled n [0; 1; 2; 3; 4]%Z (mt_seed seed)).
  assert (Hperm : shuffled seed rs ≡ₚ rs) by apply shuffled_perm.
  assert (Hlen : length (shuffled seed rs) = 5 * n).
  { rewrite Hperm. subst rs. rewrite length_unshuffled. reflexivity. }
  eexists _, _. split; [reflexivity|].
  unfold dataset. cbn [columns rows n_per_class random_state severity_stages self].
  fold rs. split; [reflexivity|]. split; [exact Hlen|]. split.
  - intros s Hs. exists (labels (shuffled seed rs)).
    split; [reflexivity|].
    pose proof (labels_perm _ _ Hperm) as Hl.
    subst rs. rewrite labels_unshuffled in Hl. split.
    + rewrite Hl. clear. induction n as [|k IH]; [reflexivity|].
      cbn [map List.concat]. rewrite !length_app, !length_replicate. cbn. lia.
    + rewrite (count_eq_perm _ _ _ Hl).
      apply count_eq_stages; [|exact Hs].
      apply (bool_decide_unpack _). reflexivity.
  - intros r Hr. rewrite Hperm in Hr.
    apply unshuffled_provenance in Hr as (s & g & Hs & Hr).
    apply stage_rows_provenance in Hr as (i & xb & xf & xp & -> & Hd).
    destruct (mean_formulas s) as (Hp & Hb & Hf).
    exists s, g, i, xb, xf, xp. repeat split; try assumption; apply Hd.
Qed.

(** *** Determinism of generation *)

Lemma rng_only_ret {A} (a : A) : rng_only (ret a).
Proof. intros w1 w2 H. split; [reflexivity|exact H]. Qed.

Lemma rng_only_lift {A} (r : result A) : rng_only (lift r).
Proof. intros w1 w2 H. split; [reflexivity|exact H]. Qed.

Lemma rng_only_print (e : event) : rng_only (print e).
Proof. intros w1 w2 H. split; [reflexivity|exact H]. Qed.

Lemma rng_only_bind {A B} (c : M World A) (k : A -> M World B) :
  rng_only c -> (forall a, rng_only (k a)) -> rng_only (bind c k).
Proof.
  intros Hc Hk w1 w2 H. unfold bind.
  destruct (Hc w1 w2 H) as [Hr Hg].
  destruct (c w1) as [[a1|e1] w1'], (c w2) as [[a2|e2] w2'];
    cbn [fst snd] in *; try discriminate.
  - inversion Hr; subst. apply Hk, Hg.
  - inversion Hr; subst. split; [reflexivity|exact Hg].
Qed.

Lemma rng_only_normal (loc scale : Q) (n : nat) :
  rng_only (np_random_normal loc scale n).
Proof.
  intros w1 w2 H. unfold np_random_normal. rewrite H.
  destruct (np_normal loc scale n (rng w2)) as [xs g]. split; reflexivity.
Qed.

Lemma rng_only_for_each {A B} (xs : list A) (body : A -> M World B) :
  (forall x, rng_only (body x)) -> rng_only (for_each xs body).
Proof.
  intros Hb. induction xs as [|x xs IH]; cbn [for_each].
  - apply rng_only_ret.
  - apply rng_only_bind; [apply Hb|]. intros b.
    apply rng_only_bind; [exact IH|]. intros bs. apply rng_only_ret.
Qed.

Lemma rng_only_print_range (df : DataFrame) (name : string) :
  rng_only (print_range df name).
Proof.
  unfold print_range. apply rng_only_bind; [apply rng_only_lift|].
  intros col. apply rng_only_print.
Qed.

(** Saving never fails, whatever directories exist: [mkdir] comes first. *)
Lemma rng_only_save (df : DataFrame) (path : option string) :
  rng_only (match truthy path with
            | Some p =>
                mkdir_parents (parent p) ;;; to_csv df p ;;;
                print (PrintSaved p)
            | None => ret tt
            end).
Proof.
  destruct (truthy path) as [p|]; [|apply rng_only_ret].
  intros w1 w2 H. unfold mkdir_parents, to_csv.
  rewrite !bind_modify, !bind_write_file by apply dir_exists_after_mkdir.
  split; [reflexivity|exact H].
Qed.

Lemma rng_only_stage_data (self : PentacamDataGenerator) (stage : Z) :
  rng_only (_generate_stage_data self stage).
Proof.
  unfold _generate_stage_data.
  repeat (apply rng_only_bind; [apply rng_only_normal|intros ?]).
  apply rng_only_lift.
Qed.

Lemma rng_only_generate_dataset (self : PentacamDataGenerator)
    (path : option string) :
  rng_only (generate_dataset self path).
Proof.
  unfold generate_dataset.
  repeat first
    [ apply rng_only_ret
    | apply rng_only_lift
    | apply rng_only_print
    | apply rng_only_print_range
    | apply rng_only_save
    | apply rng_only_stage_data
    | apply rng_only_for_each; intros ?
    | apply rng_only_bind; [|intros ?] ].
Qed.

(** C2.  Two runs that each build a fresh generator with the same
    [n_per_class] and [random_state] and call [generate_dataset] return the
    same thing, the same frame row for row or the same exception, whatever
    the files, the output so far and the state of NumPy's global generator
    were when each run started. *)
Theorem generation_deterministic (n : nat) (seed : Z) (path : option string)
    (w1 w2 : World) :
  fst (fresh_run n seed path w1) = fst (fresh_run n seed path w2).
Proof.
  unfold fresh_run, PentacamDataGenerator_init, np_random_seed.
  destruct (seed_in_range seed); [|reflexivity].
  unfold set_rng. rewrite !bind_assoc, !bind_modify, !bind_ret.
  apply rng_only_generate_dataset. reflexivity.
Qed.

(** *** Pass-through stages *)

Lemma bind_read_csv {A} (path : string) (k : DataFrame -> M World A)
    (w : World) :
  bind (read_csv path) k w =
  match files w !! path with
  | None => (Raise (FileNotFoundError path), w)
  | Some (Csv df) => k (parse_frame df) w
  | Some _ => (Raise (ParserError path), w)
  end.
Proof.
  unfold bind, read_csv.
  destruct (files w !! path) as [[df| | |]|]; reflexivity.
Qed.

Lemma bind_print_range {A} (df : DataFrame) (name : string)
    (k : unit -> M World A) (w : World) :
  bind (print_range df name) k w =
  match getitem df name with
  | Ok col => k tt (add_out [PrintRange name col] w)
  | Raise e => (Raise e, w)
  end.
Proof.
  unfold print_range. rewrite bind_assoc. unfold bind at 1, lift.
  destruct (getitem df name); reflexivity.
Qed.

Lemma bind_write_file_cases {A} (path : string) (c : content) (e : exn)
    (k : unit -> M World A) (w : World) :
  bind (write_file path c e) k w =
  if dir_exists w (parent path) then k tt (put_file path c w)
  else (Raise e, w).
Proof.
  unfold bind, write_file. destruct (dir_exists w (parent path)); reflexivity.
Qed.

Lemma put_file_add_out (path : string) (c : content) (es : list event)
    (w : World) :
  put_file path c (add_out es w) = add_out es (put_file path c w).
Proof. reflexivity. Qed.

Lemma dir_exists_add_out (es : list event) (w : World) (d : string) :
  dir_exists (add_out es w) d = dir_exists w d.
Proof. reflexivity. Qed.

(** What [preprocessing.main] does, case by case. *)
Lemma preprocessing_main_cases (w : World) :
  exists out,
    preprocessing_main w =
    match files w !! raw_path with
    | None => (Raise (FileNotFoundError raw_path), add_out out w)
    | Some (Csv file) =>
        let df := parse_frame file in
        match getitem df "Rm_B", getitem df "Rm_F", getitem df "Pachy_Min" with
        | Ok _, Ok _, Ok _ =>
            if dir_exists w (parent processed_path)
            then (Ok tt, add_out out (put_file processed_path (Csv df) w))
            else (Raise (OSError "Cannot save file into a non-existent directory"),
                  add_out out w)
        | Raise e, _, _ | Ok _, Raise e, _ | Ok _, Ok _, Raise e =>
            (Raise e, add_out out w)
        end
    | Some _ => (Raise (ParserError raw_path), add_out out w)
    end.
Proof.
  unfold preprocessing_main. rewrite !bind_print, bind_read_csv.
  rewrite !add_out_add_out. cbn [add_out files].
  destruct (files w !! raw_path) as [[file| | |]|];
    try (eexists; reflexivity).
  cbv zeta. set (df := parse_frame file).
  rewrite !bind_print, bind_print_range, !add_out_add_out.
  destruct (getitem df "Rm_B") as [c1|e1]; [|eexists; reflexivity].
  rewrite bind_print_range, !add_out_add_out.
  destruct (getitem df "Rm_F") as [c2|e2]; [|eexists; reflexivity].
  rewrite bind_print_range, !add_out_add_out.
  destruct (getitem df "Pachy_Min") as [c3|e3]; [|eexists; reflexivity].
  unfold to_csv. rewrite bind_write_file_cases, !add_out_add_out.
  rewrite dir_exists_add_out.
  destruct (dir_exists w (parent processed_path)); [|eexists; reflexivity].
  rewrite put_file_add_out, bind_print, print_run, !add_out_add_out.
  eexists. reflexivity.
Qed.

(** Whatever [preprocessing.main] does, the only file it can change is
    the processed one, and only to the frame it read. *)
Lemma preprocessing_is_identity_aux (w : World) (file : DataFrame) :
  files w !! raw_path = Some (Csv file) ->
  (forall r w', preprocessing_main w = (r, w') ->
     (r = Ok tt /\
      files w' = <[processed_path := Csv (parse_frame file)]> (files w)) \/
     ((exists e, r = Raise e) /\ files w' = files w)) /\
  (forallb (fun name => is_ok (getitem (parse_frame file) name)) feature_names
   = true ->
   dir_exists w (parent processed_path) = true ->
   exists w', preprocessing_main w = (Ok tt, w') /\
              files w' !! processed_path = Some (Csv (parse_frame file))).
Proof.
  intros Hfile. set (raw := parse_frame file).
  destruct (preprocessing_main_cases w) as [out Hrun].
  rewrite Hfile in Hrun. cbv zeta in Hrun. fold raw in Hrun.
  split.
  - intros r w' Hrw. rewrite Hrun in Hrw.
    destruct (getitem raw "Rm_B") as [c1|e1];
      [|inversion Hrw; subst; right; split; [eexists|]; reflexivity].
    destruct (getitem raw "Rm_F") as [c2|e2];
      [|inversion Hrw; subst; right; split; [eexists|]; reflexivity].
    destruct (getitem raw "Pachy_Min") as [c3|e3];
      [|inversion Hrw; subst; right; split; [eexists|]; reflexivity].
    destruct (dir_exists w (parent processed_path));
      inversion Hrw; subst.
    + left. split; reflexivity.
    + right. split; [eexists|]; reflexivity.
  - intros Hcols Hdir. rewrite Hrun, Hdir. clear Hrun.
    unfold feature_names in Hcols. cbn [forallb] in Hcols.
    destruct (getitem raw "Rm_B"); [|discriminate].
    destruct (getitem raw "Rm_F"); [|discriminate].
    destruct (getitem raw "Pachy_Min"); [|discriminate].
    eexists. split; [reflexivity|].
    cbn [add_out put_file files]. apply lookup_insert_eq.
Qed.

(** C4.  Preprocessing writes what it read.  With [raw] the frame
    [read_csv] builds from the raw file: whenever [main] returns, the
    processed file holds exactly [raw] (same header, same rows, same
    values) and no other file changed; whenever it raises, no file
    changed; and it does return when the three feature columns are present
    and the output directory exists. *)
Theorem preprocessing_is_identity (w : World) (file : DataFrame) :
  files w !! raw_path = Some (Csv file) ->
  let raw := parse_frame file in
  read_csv raw_path w = (Ok raw, w) /\
  (forall r w', preprocessing_main w = (r, w') ->
     (r = Ok tt /\ files w' = <[processed_path := Csv raw]> (files w)) \/
     ((exists e, r = Raise e) /\ files w' = files w)) /\
  (forallb (fun name => is_ok (getitem raw name)) feature_names = true ->
   dir_exists w (parent processed_path) = true ->
   exists w', preprocessing_main w = (Ok tt, w') /\
              files w' !! processed_path = Some (Csv raw)).
Proof.
  intros Hfile raw.
  split; [unfold read_csv; rewrite Hfile; reflexivity|].
  apply preprocessing_is_identity_aux, Hfile.
Qed.

(** What [feature_selection.main] does once its input is there and the
    output directory exists: the frame read goes to the output file as it
    is; the plot is attempted and never stops the step. *)
Lemma feature_selection_main_run (w : World) (file : DataFrame) :
  files w !! processed_path = Some (Csv file) ->
  dir_exists w (parent selected_path) = true ->
  exists w',
    feature_selection_main w = (Ok tt, w') /\
    files w' !! selected_path = Some (Csv (parse_frame file)) /\
    (forall p, p <> selected_path -> p <> pairplot_path ->
               files w' !! p = files w !! p) /\
    exists out, stdout w' = stdout w ++ out /\
                PrintColumns ["Rm_B"; "Rm_F"; "Pachy_Min"] ∈ out.
Proof.
  intros Hfile Hdir. unfold feature_selection_main.
  rewrite !bind_print, bind_read_csv, !add_out_add_out.
  cbn [add_out files]. rewrite Hfile. cbv zeta.
  set (df := parse_frame file).
  rewrite bind_print. unfold to_csv.
  rewrite bind_write_file_cases, !add_out_add_out, dir_exists_add_out, Hdir.
  rewrite bind_print, put_file_add_out, !add_out_add_out.
  set (w1 := add_out _ _).
  assert (Hw1 : files w1 !! selected_path = Some (Csv df)).
  { subst w1. cbn [add_out put_file files]. apply lookup_insert_eq. }
  assert (Hframe : forall p, p <> selected_path ->
                             files w1 !! p = files w !! p).
  { intros p Hp. subst w1. cbn [add_out put_file files].
    apply lookup_insert_ne. congruence. }
  assert (Hout : exists out, stdout w1 = stdout w ++ out /\
                   PrintColumns ["Rm_B"; "Rm_F"; "Pachy_Min"] ∈ out).
  { subst w1. cbn [add_out put_file stdout]. eexists. split; [reflexivity|].
    do 2 apply list_elem_of_further. apply list_elem_of_here. }
  clearbody w1. destruct Hout as (out & Hout & Hin).
  unfold bind at 1. unfold try_except.
  unfold bind at 1. unfold lift at 1.
  destruct (sns_pairplot df "Severity") as [[]|e].
  - unfold savefig. rewrite bind_write_file_cases.
    destruct (dir_exists w1 (parent pairplot_path)).
    + rewrite !print_run. eexists. split; [reflexivity|].
      cbn [add_out put_file files stdout]. split; [|split].
      * rewrite lookup_insert_ne by discriminate. exact Hw1.
      * intros p Hp Hq. rewrite lookup_insert_ne by congruence.
        apply Hframe, Hp.
      * eexists. rewrite Hout, <- !app_assoc. split; [reflexivity|].
        apply elem_of_app. left. exact Hin.
    + cbn [fst snd]. rewrite !print_run. eexists. split; [reflexivity|].
      cbn [add_out files stdout]. split; [exact Hw1|]. split.
      * intros p Hp _. apply Hframe, Hp.
      * eexists. rewrite Hout, <- !app_assoc. split; [reflexivity|].
        apply elem_of_app. left. exact Hin.
  - rewrite !print_run. eexists. split; [reflexivity|].
    cbn [add_out files stdout]. split; [exact Hw1|]. split.
    + intros p Hp _. apply Hframe, Hp.
    + eexists. rewrite Hout, <- !app_assoc. split; [reflexivity|].
      apply elem_of_app. left. exact Hin.
Qed.

(** C5, as the code has it.  The feature selector names the list Rm_B,
    Rm_F, Pachy_Min and prints it, but takes no subset: it writes the
    frame it read, with every column of the input (the Severity label
    among them) and every value unchanged. *)
Theorem feature_selection_is_pass_through (w : World) (file : DataFrame) :
  files w !! processed_path = Some (Csv file) ->
  dir_exists w (parent selected_path) = true ->
  exists w' out,
    feature_selection_main w = (Ok tt, w') /\
    read_csv processed_path w = (Ok (parse_frame file), w) /\
    files w' !! selected_path = Some (Csv (parse_frame file)) /\
    stdout w' = stdout w ++ out /\
    PrintColumns ["Rm_B"; "Rm_F"; "Pachy_Min"] ∈ out.
Proof.
  intros Hfile Hdir.
  destruct (feature_selection_main_run w file Hfile Hdir)
    as (w' & Hrun & Hsel & _ & out & Hout & Hin).
  exists w', out. repeat split; try assumption.
  unfold read_csv. rewrite Hfile. reflexivity.
Qed.

(** *** The dataset invariants along the pipeline *)

Lemma lookup_map {A B} (f : A -> B) (l : list A) (i : nat) :
  map f l !! i = option_map f (l !! i).
Proof.
  revert i. induction l as [|x l IH]; intros [|i]; try reflexivity.
  cbn. apply IH.
Qed.

Lemma getitem_parse_frame (df : DataFrame) (name : string) :
  getitem (parse_frame df) name =
  match getitem df name with
  | Ok col => Ok (map parse_cell col)
  | Raise e => Raise e
  end.
Proof.
  unfold getitem, parse_frame. cbn [columns rows].
  destruct (index_of name (columns df)) as [i|]; [|reflexivity].
  f_equal. induction (rows df) as [|r rs IH]; [reflexivity|].
  cbn [map omap list_omap].
  pose proof (lookup_map parse_cell r i) as Hr. unfold row in *.
  rewrite Hr.
  destruct (r !! i); cbn; rewrite IH; reflexivity.
Qed.

Lemma label_ok_parse_cell (c : cell) : label_ok (parse_cell c) = label_ok c.
Proof. destruct c; reflexivity. Qed.

Lemma dataset_ok_parse_frame (df : DataFrame) :
  dataset_ok (parse_frame df) = dataset_ok df.
Proof.
  unfold dataset_ok, feature_names. cbn [forallb].
  rewrite !getitem_parse_frame.
  f_equal.
  - destruct (getitem df "Severity") as [col|]; [|reflexivity].
    rewrite length_map. unfold parse_frame. cbn [rows]. rewrite length_map.
    f_equal. induction col as [|c col IH]; [reflexivity|].
    cbn [map forallb]. rewrite label_ok_parse_cell, IH. reflexivity.
  - destruct (getitem df "Rm_B"), (getitem df "Rm_F"),
      (getitem df "Pachy_Min"); reflexivity.
Qed.

Lemma forallb_label_ok_perm (l1 l2 : list cell) :
  l1 ≡ₚ l2 -> forallb label_ok l1 = forallb label_ok l2.
Proof.
  induction 1 as [|x l l' _ IH|x y l|l l' l'' _ IH1 _ IH2]; cbn.
  - reflexivity.
  - rewrite IH. reflexivity.
  - destruct (label_ok x), (label_ok y); reflexivity.
  - congruence.
Qed.

Lemma forallb_label_ok_stages (n : nat) (stages : list Z) :
  Forall (fun s => (0 <= s <= 4)%Z) stages ->
  forallb label_ok
    (List.concat (map (fun s => replicate n (CInt s)) stages)) = true.
Proof.
  induction 1 as [|s rest Hs _ IH]; [reflexivity|].
  cbn [map List.concat]. rewrite forallb_app, IH, andb_true_r.
  clear IH. induction n as [|n IHn]; [reflexivity|].
  cbn [replicate forallb label_ok]. rewrite IHn, andb_true_r.
  apply andb_true_intro. split; [apply Z.leb_le|apply Z.leb_le]; lia.
Qed.

Lemma dataset_ok_generated (self : PentacamDataGenerator) (g : RngState) :
  Forall (fun s => (0 <= s <= 4)%Z) (severity_stages self) ->
  dataset_ok (dataset self g) = true.
Proof.
  intros Hst. unfold dataset_ok, dataset.
  rewrite getitem_severity. cbn [rows].
  set (rs := unshuffled _ _ _).
  pose proof (shuffled_perm (random_state self) rs) as Hperm.
  pose proof (labels_perm _ _ Hperm) as Hl.
  rewrite (forallb_label_ok_perm _ _ Hl), Hl, Hperm. subst rs.
  rewrite labels_unshuffled, forallb_label_ok_stages by exact Hst.
  rewrite <- labels_unshuffled with (g := g).
  assert (Hlen : forall rs', Forall (fun r : row => is_Some (r !! 0)) rs' ->
                   length (labels rs') = length rs').
  { clear. induction 1 as [|r rs' [c Hc] _ IH]; [reflexivity|].
    unfold labels in *. cbn [omap list_omap]. rewrite Hc. cbn. rewrite IH.
    reflexivity. }
  rewrite Hlen.
  - rewrite Nat.eqb_refl. reflexivity.
  - apply Forall_forall. intros r Hr.
    apply unshuffled_provenance in Hr as (s & g' & _ & Hr).
    apply stage_rows_provenance in Hr as (i & xb & xf & xp & -> & _).
    eexists. reflexivity.
Qed.

Lemma data_generator_main_run (w : World) :
  exists w1 df,
    data_generator_main w = (Ok tt, w1) /\
    df = dataset (mkGenerator 130 42 [0; 1; 2; 3; 4]%Z) (mt_seed 42) /\
    files w1 = <[raw_path := Csv df]> (files w) /\
    dirs w ⊆ dirs w1 /\
    model_calls w1 = model_calls w.
Proof.
  unfold data_generator_main, PentacamDataGenerator_init.
  change (np_random_seed 42) with (set_rng (mt_seed 42)).
  unfold set_rng. rewrite !bind_assoc, bind_modify, bind_ret.
  set (self := mkGenerator 130 42 [0; 1; 2; 3; 4]%Z).
  destruct (generate_dataset_run self (Some raw_path)
              (mkWorld (files w) (dirs w) (mt_seed 42) (stdout w)
                 (model_calls w)) eq_refl ltac:(discriminate)) as [out Hrun].
  rewrite (bind_ok _ _ _ _ _ Hrun). rewrite bind_print, print_run.
  eexists _, _. split; [reflexivity|]. split; [reflexivity|].
  unfold saved. cbn [truthy raw_path String.eqb Ascii.eqb Bool.eqb].
  cbn [add_out files dirs rng stdout model_calls].
  split; [reflexivity|]. split; [|reflexivity].
  apply union_subseteq_r.
Qed.

(** C6.  Along the pipeline every dataset a stage produces has integer
    labels from 0 to 4, one per row, and the columns Rm_B, Rm_F and
    Pachy_Min: the generator's file does, from any starting world; the
    preprocessed file does after preprocessing has run on the generator's
    output; and the selected-features file does after feature selection
    has run on that. *)
Theorem pipeline_datasets_ok (w : World) :
  exists w1 raw,
    data_generator_main w = (Ok tt, w1) /\
    files w1 !! raw_path = Some (Csv raw) /\
    dataset_ok raw = true /\
    forall w2, preprocessing_main w1 = (Ok tt, w2) ->
      exists processed,
        files w2 !! processed_path = Some (Csv processed) /\
        dataset_ok processed = true /\
        forall w3, feature_selection_main w2 = (Ok tt, w3) ->
          exists selected,
            files w3 !! selected_path = Some (Csv selected) /\
            dataset_ok selected = true.
Proof.
  destruct (data_generator_main_run w) as (w1 & raw & Hgen & Hraw & Hf1 & _).
  assert (Hok : dataset_ok raw = true).
  { rewrite Hraw. apply dataset_ok_generated. cbn [severity_stages].
    repeat (apply Forall_cons; split; [lia|]). apply Forall_nil_2. }
  assert (H1 : files w1 !! raw_path = Some (Csv raw)).
  { rewrite Hf1. apply lookup_insert_eq. }
  exists w1, raw. split; [exact Hgen|]. split; [exact H1|].
  split; [exact Hok|]. intros w2 Hpre.
  destruct (preprocessing_is_identity_aux w1 raw H1) as [Hpass _].
  destruct (Hpass _ _ Hpre) as [[_ Hf2]|[[e He] _]]; [|discriminate].
  assert (H2 : files w2 !! processed_path = Some (Csv (parse_frame raw))).
  { rewrite Hf2. apply lookup_insert_eq. }
  exists (parse_frame raw). split; [exact H2|].
  split; [rewrite dataset_ok_parse_frame; exact Hok|]. intros w3 Hsel.
  exists (parse_frame (parse_frame raw)).
  split; [|rewrite !dataset_ok_parse_frame; exact Hok].
  unfold feature_selection_main in Hsel.
  rewrite !bind_print, bind_read_csv, !add_out_add_out in Hsel.
  cbn [add_out files] in Hsel. rewrite H2 in Hsel.
  destruct (dir_exists w2 (parent selected_path)) eqn:Hdir.
  - destruct (feature_selection_main_run w2 _ H2 Hdir) as (w3' & Hrun & Hs & _).
    unfold feature_selection_main in Hrun.
    rewrite !bind_print, bind_read_csv, !add_out_add_out in Hrun.
    cbn [add_out files] in Hrun. rewrite H2 in Hrun.
    rewrite Hrun in Hsel. inversion Hsel; subst. exact Hs.
  - exfalso. rewrite bind_print in Hsel. unfold to_csv in Hsel.
    rewrite bind_write_file_cases, !add_out_add_out, dir_exists_add_out,
      Hdir in Hsel. discriminate.
Qed.

(** *** The prediction form *)

Hypothesis st_slider_range :
  forall label lo hi value step ses,
    (lo <= hi)%Q -> (lo <= st_slider label lo hi value step ses <= hi)%Q.
Hypothesis st_slider_int_range :
  forall label lo hi value step ses,
    (lo <= hi)%Z -> (lo <= st_slider_int label lo hi value step ses <= hi)%Z.

Lemma query_within_sliders (ses : Session) : within_sliders (query ses).
Proof.
  unfold within_sliders, query. eexists _, _, _.
  split; [reflexivity|]. split; [reflexivity|].
  split; [apply st_slider_range; discriminate|].
  split; [apply st_slider_range; discriminate|].
  apply st_slider_int_range. lia.
Qed.

Lemma calls_within_pure {A} (P : call -> Prop) (c : M AppState A) :
  (forall a, world (snd (c a)) = world a) -> calls_within P c.
Proof.
  intros H a. exists []. rewrite H, app_nil_r. split; [reflexivity|constructor].
Qed.

Lemma calls_within_bind {A B} (P : call -> Prop) (c : M AppState A)
    (k : A -> M AppState B) :
  calls_within P c -> (forall x, calls_within P (k x)) ->
  calls_within P (bind c k).
Proof.
  intros Hc Hk a. unfold bind. destruct (Hc a) as (n1 & H1 & F1).
  destruct (c a) as [[x|e] a1]; cbn [snd] in *.
  - destruct (Hk x a1) as (n2 & H2 & F2).
    exists (n1 ++ n2). rewrite H2, H1, app_assoc. split; [reflexivity|].
    apply Forall_app. split; assumption.
  - exists n1. split; assumption.
Qed.

Lemma calls_within_try {A} (P : call -> Prop) (c : M AppState A)
    (catches : exn -> bool) (h : exn -> M AppState A) :
  calls_within P c -> (forall e, calls_within P (h e)) ->
  calls_within P (try_except c catches h).
Proof.
  intros Hc Hh a. unfold try_except. destruct (Hc a) as (n1 & H1 & F1).
  destruct (c a) as [[x|e] a1]; cbn [snd] in *.
  - exists n1. split; assumption.
  - destruct (catches e); [|exists n1; split; assumption].
    destruct (Hh e a1) as (n2 & H2 & F2).
    exists (n1 ++ n2). rewrite H2, H1, app_assoc. split; [reflexivity|].
    apply Forall_app. split; assumption.
Qed.

Lemma calls_within_show (P : call -> Prop) (x : widget) :
  calls_within P (show x).
Proof. apply calls_within_pure. reflexivity. Qed.

Lemma calls_within_predict (P : call -> Prop) (m : Model) (X : DataFrame) :
  P (CallPredict X) -> calls_within P (in_world (model_predict m X)).
Proof.
  intros HP a. exists [CallPredict X].
  unfold in_world, model_predict, bind, log_call, modify, lift.
  cbn [fst snd world model_calls].
  destruct (sk_predict m (rows X)); cbn [world model_calls snd];
    (split; [reflexivity|repeat constructor; exact HP]).
Qed.

Lemma calls_within_predict_proba (P : call -> Prop) (m : Model)
    (X : DataFrame) :
  P (CallPredictProba X) ->
  calls_within P (in_world (model_predict_proba m X)).
Proof.
  intros HP a. exists [CallPredictProba X].
  unfold in_world, model_predict_proba, bind, log_call, modify, lift.
  cbn [fst snd world model_calls].
  destruct (sk_predict_proba m (rows X)); cbn [world model_calls snd];
    (split; [reflexivity|repeat constructor; exact HP]).
Qed.

Lemma calls_within_joblib_load (P : call -> Prop) (path : string) :
  calls_within P (in_world (joblib_load path)).
Proof.
  apply calls_within_pure. intros a. unfold in_world, joblib_load.
  destruct (files (world a) !! path) as [[| |m|]|]; reflexivity.
Qed.

Lemma calls_within_load_model (P : call -> Prop) :
  calls_within P streamlit_load_model.
Proof.
  unfold streamlit_load_model, path_exists, st_stop.
  apply calls_within_bind; [apply calls_within_pure; reflexivity|].
  intros [m|]; [apply calls_within_pure; reflexivity|].
  repeat first
    [ apply calls_within_show
    | apply calls_within_joblib_load
    | apply calls_within_pure; reflexivity
    | match goal with
      | |- calls_within _ (if ?b then _ else _) => destruct b
      end
    | apply calls_within_bind; [|intros ?] ].
Qed.

(** C9.  In every run of the form, whatever the session and the state of
    the server, each call of [predict] or [predict_proba] is on a frame of
    one row whose Rm_B lies in [4.0, 8.0], Rm_F in [5.0, 9.0] and
    Pachy_Min in [200, 600].  The sliders are assumed to return a value
    between their bounds. *)
Theorem form_queries_within_sliders (ses : Session) (a : AppState) :
  exists new,
    model_calls (world (snd (streamlit_main ses a)))
    = model_calls (world a) ++ new /\
    Forall (fun c => within_sliders (call_frame c)) new.
Proof.
  revert a. change (calls_within (fun c => within_sliders (call_frame c))
                      (streamlit_main ses)).
  unfold streamlit_main. fold (query ses).
  pose proof (query_within_sliders ses) as Hq.
  repeat first
    [ apply calls_within_show
    | apply calls_within_load_model
    | apply calls_within_predict; exact Hq
    | apply calls_within_predict_proba; exact Hq
    | apply calls_within_pure; reflexivity
    | match goal with
      | |- calls_within _ (if ?b then _ else _) => destruct b
      end
    | apply calls_within_try; [|intros ?]
    | apply calls_within_bind; [|intros ?] ].
Qed.

Lemma bind_show {A} (x : widget) (k : unit -> M AppState A) (a : AppState) :
  bind (show x) k a = k tt (mkApp (world a) (cache a) (page a ++ [x])).
Proof. reflexivity. Qed.

(** What the cached loader does, by the cache and the model file. *)
Lemma streamlit_load_model_cases (a : AppState) :
  streamlit_load_model a =
  match cache a with
  | Some m => (Ok m, a)
  | None =>
      let looked := page a ++ [StSidebar "Looking for model at";
                               StSidebar "File exists"] in
      match files (world a) !! model_path with
      | Some (Pickle m) => (Ok m, mkApp (world a) (Some m) looked)
      | Some _ => (Raise (UnpicklingError model_path),
                   mkApp (world a) None looked)
      | None =>
          (Raise StopException,
           mkApp (world a) None
             (looked ++ [StError "Model file not found" None;
                         StError "Please run: python run_pipeline.py" None]))
      end
  end.
Proof.
  destruct a as [w c pg].
  cbv [streamlit_load_model bind gets show modify path_exists in_world
       joblib_load st_stop raise ret world cache page fst snd].
  destruct c as [m|]; [reflexivity|].
  destruct (files w !! model_path) as [[| |m|]|] eqn:E.
  1-4: rewrite bool_decide_eq_true_2 by (eexists; reflexivity);
       rewrite ?E, <- !app_assoc; reflexivity.
  rewrite bool_decide_eq_false_2 by (intros [? ?]; discriminate).
  rewrite <- !app_assoc. reflexivity.
Qed.

(** The form without a model file: two error boxes and [st.stop()], with
    no call of the classifier. *)
Lemma streamlit_main_missing_model (ses : Session) (a : AppState) :
  cache a = None -> files (world a) !! model_path = None ->
  streamlit_main ses a
  = (Raise StopException,
     mkApp (world a) None
       (page a ++
        [StMarkdown "Keratoconus Severity Staging System";
         StMarkdown "Automated Severity Classification using Machine Learning";
         StSidebar "Looking for model at"; StSidebar "File exists";
         StError "Model file not found" None;
         StError "Please run: python run_pipeline.py" None])).
Proof.
  intros Hc Hf. unfold streamlit_main. rewrite !bind_show.
  unfold bind at 1. rewrite streamlit_load_model_cases.
  cbn [world cache page]. rewrite Hc, Hf. cbv zeta.
  rewrite <- !app_assoc. reflexivity.
Qed.

(** The form when the prediction call raises an [Exception]: the error is
    shown and the script stops. *)
Lemma streamlit_main_prediction_raises (ses : Session) (a : AppState)
    (m : Model) (e : exn) :
  cache a = Some m -> st_button "Predict Severity" ses = true ->
  sk_predict m (rows (query ses)) = Raise e -> is_Exception e = true ->
  exists shown,
    streamlit_main ses a
    = (Raise StopException,
       mkApp (mkWorld (files (world a)) (dirs (world a)) (rng (world a))
                (stdout (world a))
                (model_calls (world a) ++ [CallPredict (query ses)]))
         (Some m)
         (page a ++ shown ++
          [StError "Prediction error" (Some e);
           StInfo "Please retrain the model: python run_pipeline.py"])).
Proof.
  intros Hc Hb Hp He. unfold streamlit_main. rewrite !bind_show.
  unfold bind at 1. rewrite streamlit_load_model_cases.
  cbn [world cache page]. rewrite Hc.
  rewrite !bind_show. rewrite Hb. fold (query ses).
  rewrite !bind_assoc. unfold bind at 1. unfold try_except.
  unfold bind at 1. unfold in_world at 1.
  unfold model_predict, bind, log_call, modify, lift. rewrite Hp.
  cbn [fst snd world cache page model_calls files dirs rng stdout].
  rewrite He. unfold show, modify, st_stop, raise.
  cbn [fst snd world cache page].
  rewrite <- !app_assoc. cbn [app].
  eexists [_; _; _; _; _; _; _; _]. reflexivity.
Qed.

(** *** The evaluator *)

Lemma add_calls_add_out (cs : list call) (es : list event) (w : World) :
  add_calls cs (add_out es w) = add_out es (add_calls cs w).
Proof. reflexivity. Qed.

Lemma add_calls_add_calls (cs1 cs2 : list call) (w : World) :
  add_calls cs2 (add_calls cs1 w) = add_calls (cs1 ++ cs2) w.
Proof. unfold add_calls; cbn. rewrite app_assoc. reflexivity. Qed.

Lemma put_file_add_calls (path : string) (c : content) (cs : list call)
    (w : World) :
  put_file path c (add_calls cs w) = add_calls cs (put_file path c w).
Proof. reflexivity. Qed.

Lemma dir_exists_add_calls (cs : list call) (w : World) (d : string) :
  dir_exists (add_calls cs w) d = dir_exists w d.
Proof. reflexivity. Qed.

Lemma dir_exists_put_file (path : string) (c : content) (w : World)
    (d : string) :
  dir_exists (put_file path c w) d = dir_exists w d.
Proof. reflexivity. Qed.

Ltac world_norm :=
  repeat first
    [ rewrite add_out_add_out
    | rewrite add_calls_add_out
    | rewrite add_calls_add_calls
    | rewrite put_file_add_out
    | rewrite put_file_add_calls
    | rewrite dir_exists_add_out
    | rewrite dir_exists_add_calls
    | rewrite dir_exists_put_file ].

Lemma bind_model_predict {A} (m : Model) (X : DataFrame)
    (k : list Z -> M World A) (w : World) :
  bind (model_predict m X) k w =
  match sk_predict m (rows X) with
  | Ok preds => k preds (add_calls [CallPredict X] w)
  | Raise e => (Raise e, add_calls [CallPredict X] w)
  end.
Proof.
  unfold model_predict. rewrite bind_assoc. unfold log_call.
  rewrite bind_modify. unfold bind, lift.
  destruct (sk_predict m (rows X)); reflexivity.
Qed.

Lemma bind_model_predict_proba {A} (m : Model) (X : DataFrame)
    (k : list (list Q) -> M World A) (w : World) :
  bind (model_predict_proba m X) k w =
  match sk_predict_proba m (rows X) with
  | Ok probas => k probas (add_calls [CallPredictProba X] w)
  | Raise e => (Raise e, add_calls [CallPredictProba X] w)
  end.
Proof.
  unfold model_predict_proba. rewrite bind_assoc. unfold log_call.
  rewrite bind_modify. unfold bind, lift.
  destruct (sk_predict_proba m (rows X)); reflexivity.
Qed.

Lemma bind_lift {S A B} (r : result A) (k : A -> M S B) (s : S) :
  bind (lift r) k s = match r with Ok a => k a s | Raise e => (Raise e, s) end.
Proof. unfold bind, lift. destruct r; reflexivity. Qed.

Lemma run_test_case_run (m : Model) (c : test_case) (ev : event) (w : World) :
  case_outcome m c = Ok ev ->
  run_test_case m c w = (Ok tt, add_out [ev] (add_calls (case_calls c) w)).
Proof.
  unfold case_outcome, run_test_case. intros H.
  rewrite bind_model_predict.
  destruct (sk_predict m (rows (test_input c))) as [preds|]; [|discriminate].
  rewrite bind_lift.
  destruct (py_index preds 0) as [pred|]; [|discriminate].
  rewrite bind_model_predict_proba.
  destruct (sk_predict_proba m (rows (test_input c))) as [probas|];
    [|discriminate].
  rewrite bind_lift.
  destruct (py_index probas 0) as [proba|]; [|discriminate].
  rewrite bind_lift.
  destruct (py_index proba pred) as [confidence|]; [|discriminate].
  inversion H; subst. rewrite print_run, add_calls_add_calls. reflexivity.
Qed.

Lemma test_cases_run (m : Model) (cases : list test_case) (evs : list event)
    (w : World) :
  Forall2 (fun c ev => case_outcome m c = Ok ev) cases evs ->
  for_each cases (run_test_case m) w
  = (Ok (map (fun _ => tt) cases),
     add_out evs (add_calls (flat_map case_calls cases) w)).
Proof.
  intros H. revert w. induction H as [|c ev cases evs Hc _ IH]; intros w.
  - cbn. unfold add_out, add_calls. rewrite !app_nil_r. destruct w; reflexivity.
  - cbn [for_each map flat_map]. unfold bind at 1.
    rewrite (run_test_case_run m c ev w Hc).
    unfold bind at 1. rewrite IH. unfold ret.
    rewrite add_calls_add_out, add_calls_add_calls, add_out_add_out.
    reflexivity.
Qed.

Lemma getitems_shape (df X : DataFrame) (names : list string) :
  getitems df names = Ok X ->
  columns X = names /\ length (rows X) = length (rows df).
Proof.
  unfold getitems. destruct (indices_of names (columns df)); [|discriminate].
  intros H. inversion H; subst. cbn [columns rows]. rewrite length_map.
  split; reflexivity.
Qed.

Lemma bind_joblib_load {A} (path : string) (k : Model -> M World A)
    (w : World) :
  bind (joblib_load path) k w =
  match files w !! path with
  | None => (Raise (FileNotFoundError path), w)
  | Some (Pickle m) => k m w
  | Some _ => (Raise (UnpicklingError path), w)
  end.
Proof.
  unfold bind, joblib_load.
  destruct (files w !! path) as [[| |m|]|]; reflexivity.
Qed.

Lemma performance_summary_run (y : list cell) (y_pred : list Z) :
  exists out, forall w,
    print_performance_summary (metrics_of y y_pred) w = (Ok tt, add_out out w).
Proof.
  eexists. intros w.
  unfold print_performance_summary, metrics_of, metric_names.
  rewrite bind_print. cbn [for_each map].
  repeat (rewrite !bind_assoc; cbn [dict_get String.eqb Ascii.eqb Bool.eqb];
          rewrite bind_lift, bind_print).
  rewrite ?bind_assoc, ?bind_ret. unfold ret.
  rewrite !add_out_add_out. reflexivity.
Qed.

Lemma evaluate_main_run (w : World) (file X : DataFrame) (y : list cell)
    (m : Model) (y_pred : list Z) (report : string) (evs : list event) :
  files w !! raw_path = Some (Csv file) ->
  getitems (parse_frame file) feature_names = Ok X ->
  getitem (parse_frame file) "Severity" = Ok y ->
  files w !! model_path = Some (Pickle m) ->
  sk_predict m (rows X) = Ok y_pred ->
  classification_report y y_pred stage_names = Ok report ->
  dir_exists w "models" = true ->
  Forall2 (fun c ev => case_outcome m c = Ok ev) test_cases evs ->
  exists out,
    evaluate_main w =
    (Ok tt,
     add_out (out ++ [PrintReport report] ++
              [PrintSaved confusion_matrix_path;
               PrintSaved evaluation_metrics_path;
               Print "TESTING WITH CLINICAL CASES"] ++ evs ++
              [Print "Evaluation complete!"])
       (add_calls (CallPredict X :: flat_map case_calls test_cases)
          (put_file evaluation_metrics_path
             (MetricsCsv metric_names
                (map (fun name => inr (sk_score name y y_pred * 100)%Q)
                   metric_names))
             (put_file confusion_matrix_path
                (Png (Heatmap "Confusion Matrix - Keratoconus Severity Staging"
                        (confusion_matrix y y_pred) stage_names))
                w)))).
Proof.
  intros Hraw HX Hy Hm Hpred Hrep Hdir Hcases.
  destruct (getitems_shape _ _ _ HX) as [Hcols _].
  unfold evaluate_main.
  rewrite !bind_print, bind_read_csv, !add_out_add_out.
  cbn [add_out files]. rewrite Hraw.
  rewrite bind_lift, HX, bind_lift, Hy, !bind_print, !add_out_add_out.
  rewrite Hcols.
  assert (HR : forall name, name ∈ feature_names ->
            exists col, getitem X name = Ok col).
  { intros name Hin. unfold getitem. rewrite Hcols. unfold feature_names in *.
    repeat (apply elem_of_cons in Hin as [->|Hin]);
      [| | |apply elem_of_nil in Hin; contradiction]; eexists; reflexivity. }
  destruct (HR "Rm_B") as [c1 H1];
    [apply (bool_decide_unpack _); reflexivity|].
  destruct (HR "Rm_F") as [c2 H2];
    [apply (bool_decide_unpack _); reflexivity|].
  destruct (HR "Pachy_Min") as [c3 H3];
    [apply (bool_decide_unpack _); reflexivity|].
  rewrite bind_print_range, H1, bind_print_range, H2, bind_print_range, H3.
  rewrite !add_out_add_out.
  unfold ModelEvaluator_init.
  change (truthy (Some model_path)) with (Some model_path).
  unfold ModelEvaluator_load_model.
  rewrite !bind_assoc, bind_joblib_load. cbn [add_out files]. rewrite Hm.
  rewrite !bind_assoc, bind_print, bind_ret, bind_print, !add_out_add_out.
  unfold evaluate. cbn [model].
  rewrite !bind_assoc, bind_model_predict, Hpred, bind_ret.
  cbn [fst snd]. fold (metrics_of y y_pred).
  destruct (performance_summary_run y y_pred) as [out1 Hsum].
  rewrite (bind_ok _ _ _ _ _ (Hsum _)).
  unfold print_classification_report.
  rewrite !bind_assoc, bind_print, !bind_assoc, bind_lift, Hrep, bind_print.
  unfold plot_confusion_matrix.
  change (truthy (Some confusion_matrix_path)) with (Some confusion_matrix_path).
  unfold savefig. rewrite !bind_assoc, bind_write_file_cases.
  world_norm.
  change (parent confusion_matrix_path) with "models". rewrite Hdir.
  rewrite bind_print, ?bind_assoc, ?bind_ret.
  rewrite bind_write_file_cases.
  world_norm.
  change (parent evaluation_metrics_path) with "models". rewrite Hdir.
  rewrite !bind_print, ?bind_assoc.
  rewrite (bind_ok _ _ _ _ _ (test_cases_run m _ _ _ Hcases)).
  rewrite bind_ret, print_run. world_norm.
  exists ([Print "MODEL EVALUATION";
           Print "Loading test data from raw source...";
           PrintInt "Test set size" (Z.of_nat (length y));
           PrintColumns feature_names;
           Print "Feature ranges (UNSCALED):";
           PrintRange "Rm_B" c1; PrintRange "Rm_F" c2;
           PrintRange "Pachy_Min" c3; PrintSaved model_path;
           Print "Evaluating model performance..."] ++ out1 ++
          [Print "DETAILED CLASSIFICATION REPORT"]).
  f_equal. f_equal.
  rewrite <- !app_assoc. reflexivity.
Qed.

(** C7.  The evaluator loads the model from the pickle file, calls
    [predict] once on the feature columns of every row of the raw dataset
    file (no row is held out), computes the metrics from all labels and
    those predictions, writes the confusion matrix of the same labels and
    predictions as a figure, prints the classification report, and then
    predicts and prints the five fixed clinical cases in their order.  The
    calls into scikit-learn are assumed not to raise, the two input files
    and the [models] directory to exist. *)
Theorem evaluator_scores_full_dataset (w : World) (file X : DataFrame)
    (y : list cell) (m : Model) (y_pred : list Z) (report : string)
    (evs : list event) :
  files w !! raw_path = Some (Csv file) ->
  getitems (parse_frame file) feature_names = Ok X ->
  getitem (parse_frame file) "Severity" = Ok y ->
  files w !! model_path = Some (Pickle m) ->
  sk_predict m (rows X) = Ok y_pred ->
  classification_report y y_pred stage_names = Ok report ->
  dir_exists w "models" = true ->
  Forall2 (fun c ev => case_outcome m c = Ok ev) test_cases evs ->
  exists w' out,
    evaluate_main w = (Ok tt, w') /\
    joblib_load model_path w = (Ok m, w) /\
    length (rows X) = length (rows file) /\
    model_calls w'
    = model_calls w ++ CallPredict X :: flat_map case_calls test_cases /\
    files w' !! confusion_matrix_path
    = Some (Png (Heatmap "Confusion Matrix - Keratoconus Severity Staging"
                   (confusion_matrix y y_pred) stage_names)) /\
    files w' !! evaluation_metrics_path
    = Some (MetricsCsv metric_names
              (map (fun name => inr (sk_score name y y_pred * 100)%Q)
                 metric_names)) /\
    stdout w'
    = stdout w ++ out ++ [PrintReport report] ++
      [PrintSaved confusion_matrix_path; PrintSaved evaluation_metrics_path;
       Print "TESTING WITH CLINICAL CASES"] ++ evs ++
      [Print "Evaluation complete!"] /\
    length evs = 5.
Proof.
  intros Hraw HX Hy Hm Hpred Hrep Hdir Hcases.
  destruct (evaluate_main_run w file X y m y_pred report evs
              Hraw HX Hy Hm Hpred Hrep Hdir Hcases) as [out Hrun].
  eexists _, out. split; [exact Hrun|].
  split; [unfold joblib_load; rewrite Hm; reflexivity|].
  split.
  { destruct (getitems_shape _ _ _ HX) as [_ Hlen]. rewrite Hlen.
    unfold parse_frame. cbn [rows]. apply length_map. }
  split; [reflexivity|].
  cbn [add_out add_calls put_file files stdout].
  split; [rewrite lookup_insert_ne by discriminate; apply lookup_insert_eq|].
  split; [apply lookup_insert_eq|].
  split; [reflexivity|].
  apply Forall2_length in Hcases. rewrite <- Hcases. reflexivity.
Qed.

End Properties.

(** ** The orchestrator *)

Section PipelineProperties.
Variable St : Type.
Variable import_ : string -> M St (py_module St).

Lemma bind_pprint {A} (e : pevent) (k : unit -> M (PState St) A)
    (s : St) (tr : list pevent) :
  bind (pprint St e) k (s, tr) = k tt (s, tr ++ [e]).
Proof. reflexivity. Qed.

(** What one call of [run_step] does, by the behaviour of the import and
    of [main]. *)
Lemma run_step_cases (step_name module_path : string) (s : St)
    (tr : list pevent) :
  let name := module_name_of module_path in
  let pre := tr ++ [PSection ("STEP: " ++ step_name)%string; PImport name] in
  run_step import_ step_name module_path (s, tr) =
  match import_ name s with
  | (Raise e, s') =>
      if is_Exception e
      then (Ok false, (s', pre ++ [PFailed step_name e; PTraceback e]))
      else (Raise e, (s', pre))
  | (Ok m, s') =>
      match module_main m with
      | None => (Ok true, (s', pre ++ [PCompleted step_name]))
      | Some main =>
          match main s' with
          | (Ok _, s'') =>
              (Ok true, (s'', pre ++ [PCallMain name; PCompleted step_name]))
          | (Raise e, s'') =>
              if is_Exception e
              then (Ok false,
                    (s'', pre ++ [PCallMain name; PFailed step_name e;
                                  PTraceback e]))
              else (Raise e, (s'', pre ++ [PCallMain name]))
          end
      end
  end.
Proof.
  cbv zeta. unfold run_step, print_section, module_name_of.
  rewrite bind_pprint. unfold try_except.
  rewrite bind_pprint.
  unfold bind at 1. unfold in_modules at 1. cbn [fst snd].
  destruct (import_ _ s) as [[m|e] s']; cbn [fst snd].
  - destruct (module_main m) as [main|].
    + rewrite bind_assoc, bind_pprint. unfold bind at 1.
      unfold in_modules at 1. cbn [fst snd].
      destruct (main s') as [[[]|e] s'']; cbn [fst snd].
      * rewrite bind_pprint. unfold ret.
        rewrite <- !app_assoc. reflexivity.
      * destruct (is_Exception e).
        -- rewrite !bind_pprint. unfold ret. rewrite <- !app_assoc. reflexivity.
        -- rewrite <- !app_assoc. reflexivity.
    + rewrite bind_ret, bind_pprint. unfold ret.
      rewrite <- !app_assoc. reflexivity.
  - destruct (is_Exception e).
    + rewrite !bind_pprint. unfold ret. rewrite <- !app_assoc. reflexivity.
    + rewrite <- !app_assoc. reflexivity.
Qed.

(** C10.  When the import of a step's module succeeds, [run_step] calls
    [main] exactly when the module has that attribute; for a module
    without [main] it returns [True] and prints the completion line, with
    no call in between, so the step counts as passed. *)
Theorem run_step_without_main (step_name module_path : string)
    (m : py_module St) (s s' : St) (tr : list pevent) :
  import_ (module_name_of module_path) s = (Ok m, s') ->
  (module_main m = None ->
   run_step import_ step_name module_path (s, tr)
   = (Ok true,
      (s', tr ++ [PSection ("STEP: " ++ step_name)%string;
                  PImport (module_name_of module_path);
                  PCompleted step_name])))
  /\ (main_calls (snd (snd (run_step import_ step_name module_path (s, []))))
       = match module_main m with
         | Some _ => [module_name_of module_path]
         | None => []
         end).
Proof.
  intros Himp. split.
  - intros Hnone. rewrite run_step_cases. cbv zeta.
    rewrite Himp, Hnone, <- app_assoc. reflexivity.
  - rewrite run_step_cases. cbv zeta. rewrite Himp.
    destruct (module_main m) as [main|]; [|reflexivity].
    destruct (main s') as [[[]|e] s'']; [reflexivity|].
    destruct (is_Exception e); reflexivity.
Qed.



Lemma summary_run (results : list (string * bool)) (s : St)
    (tr : list pevent) :
  exists ev,
    for_each results (fun r =>
        pprint St (PStatus (if snd r : bool then "PASSED" else "FAILED")
                     (fst r))) (s, tr)
    = (Ok (map (fun _ => tt) results), (s, tr ++ ev)) /\
    imports ev = [] /\ outcomes ev = [].
Proof.
  revert tr. induction results as [|r rest IH]; intros tr.
  - exists []. rewrite app_nil_r. repeat split.
  - cbn [for_each]. rewrite bind_pprint.
    destruct (IH (tr ++ [PStatus (if snd r : bool then "PASSED" else "FAILED")
                           (fst r)])) as (ev & Hev & Hi & Ho).
    unfold bind. rewrite Hev. unfold ret.
    eexists (_ :: ev). rewrite <- app_assoc. split; [reflexivity|].
    unfold imports, outcomes in *. cbn [omap list_omap]. split; assumption.
Qed.




(** *** The orchestrator against the components run in order *)









End PipelineProperties.

(** ** Error cases *)

Section ErrorHandling.
Context {L : Libs}.

Lemma getitem_raises (df : DataFrame) (name : string) (e : exn) :
  getitem df name = Raise e -> e = KeyError name.
Proof.
  unfold getitem. destruct (index_of name (columns df)); [discriminate|].
  intros H. inversion H. reflexivity.
Qed.

(** The exceptions [preprocessing.main] can end with. *)
Lemma preprocessing_main_errors (w w' : World) (e : exn) :
  preprocessing_main w = (Raise e, w') ->
  e = FileNotFoundError raw_path \/ e = ParserError raw_path \/
  (exists name, name ∈ feature_names /\ e = KeyError name) \/
  e = OSError "Cannot save file into a non-existent directory".
Proof.
  destruct (preprocessing_main_cases w) as [out ->].
  destruct (files w !! raw_path) as [[file| | |]|];
    try (intros H; inversion H; subst; tauto).
  cbv zeta.
  destruct (getitem (parse_frame file) "Rm_B") as [c1|e1] eqn:E1.
  2:{ intros H. inversion H; subst. apply getitem_raises in E1.
      right; right; left. exists "Rm_B".
      split; [apply (bool_decide_unpack _); reflexivity|exact E1]. }
  destruct (getitem (parse_frame file) "Rm_F") as [c2|e2] eqn:E2.
  2:{ intros H. inversion H; subst. apply getitem_raises in E2.
      right; right; left. exists "Rm_F".
      split; [apply (bool_decide_unpack _); reflexivity|exact E2]. }
  destruct (getitem (parse_frame file) "Pachy_Min") as [c3|e3] eqn:E3.
  2:{ intros H. inversion H; subst. apply getitem_raises in E3.
      right; right; left. exists "Pachy_Min".
      split; [apply (bool_decide_unpack _); reflexivity|exact E3]. }
  destruct (dir_exists w (parent processed_path)); intros H; inversion H.
  tauto.
Qed.

(** C8, as the code has it.  The prediction form handles two error cases
    itself: without a model file (and nothing cached) it shows the error
    and stops before any call of the classifier, and when the prediction
    call raises an [Exception] it shows that error and stops.  Other
    errors exist: [ModelEvaluator.evaluate] raises [ValueError] when no
    model is loaded; preprocessing ends with [FileNotFoundError] or a
    parser error for the raw data file, [KeyError] for a missing feature
    column, or [OSError] for a missing output directory, and with nothing
    else; and [run_step] turns every [Exception] of a step's [main],
    whatever its class, into a printed failure and [False]. *)
Theorem error_cases_handled :
  (forall ses a,
     cache a = None -> files (world a) !! model_path = None ->
     exists a',
       streamlit_main ses a = (Raise StopException, a') /\
       StError "Model file not found" None ∈ page a' /\
       model_calls (world a') = model_calls (world a)) /\
  (forall ses a m e,
     cache a = Some m -> st_button "Predict Severity" ses = true ->
     sk_predict m (rows (query ses)) = Raise e -> is_Exception e = true ->
     exists a',
       streamlit_main ses a = (Raise StopException, a') /\
       StError "Prediction error" (Some e) ∈ page a') /\
  (forall X y w,
     evaluate (mkEvaluator None) X y w
     = (Raise (ValueError "No model loaded"), w)) /\
  (forall w w' e,
     preprocessing_main w = (Raise e, w') ->
     e = FileNotFoundError raw_path \/ e = ParserError raw_path \/
     (exists name, name ∈ feature_names /\ e = KeyError name) \/
     e = OSError "Cannot save file into a non-existent directory") /\
  (forall (St : Type) (import_ : string -> M St (py_module St))
          step_name module_path s tr m main s1 e s2,
     import_ (module_name_of module_path) s = (Ok m, s1) ->
     module_main m = Some main -> main s1 = (Raise e, s2) ->
     is_Exception e = true ->
     run_step import_ step_name module_path (s, tr)
     = (Ok false,
        (s2, tr ++ [PSection ("STEP: " ++ step_name)%string;
                    PImport (module_name_of module_path);
                    PCallMain (module_name_of module_path);
                    PFailed step_name e; PTraceback e]))).
Proof.
  split; [|split; [|split; [|split]]].
  - intros ses a Hc Hf. eexists.
    split; [apply streamlit_main_missing_model; assumption|].
    cbn [page world]. split; [|reflexivity].
    apply elem_of_app. right.
    do 4 apply list_elem_of_further. apply list_elem_of_here.
  - intros ses a m e Hc Hb Hp He.
    destruct (streamlit_main_prediction_raises ses a m e Hc Hb Hp He)
      as [shown Hrun].
    eexists. split; [exact Hrun|]. cbn [page].
    apply elem_of_app. right. apply elem_of_app. right.
    apply list_elem_of_here.
  - reflexivity.
  - apply preprocessing_main_errors.
  - intros St import_ step_name module_path s tr m main s1 e s2
      Himp Hmain Hrun He.
    rewrite run_step_cases. cbv zeta.
    rewrite Himp, Hmain, Hrun, He, <- app_assoc. reflexivity.
Qed.

End ErrorHandling.

(** ** Runs on the small instance *)

Lemma toy_normal_length (loc scale : Q) (n g : nat) :
  length (fst (Toy.normal loc scale n g)) = n.
Proof. unfold Toy.normal. cbn [fst]. rewrite length_map. apply length_seq. Qed.

Lemma toy_order_perm (s : Z) (len : nat) :
  Permutation (Toy.order s len) (seq 0 len).
Proof. unfold Toy.order. symmetry. apply Permutation_rev. Qed.

Lemma toy_slider_range (label : string) (lo hi value step : Q)
    (ses : Toy.session) :
  (lo <= hi)%Q -> (lo <= Toy.slider label lo hi value step ses <= hi)%Q.
Proof.
  intros H. unfold Toy.slider. cbv zeta.
  set (x := (lo + inject_Z (Z.of_nat (Toy.pos_of label ses)) * step)%Q).
  destruct (Qle_bool x hi) eqn:E1.
  - destruct (Qle_bool lo x) eqn:E2.
    + apply Qle_bool_iff in E1, E2. split; assumption.
    + split; [apply Qle_refl|exact H].
  - split; [exact H|apply Qle_refl].
Qed.

Lemma toy_slider_int_range (label : string) (lo hi value step : Z)
    (ses : Toy.session) :
  (lo <= hi)%Z -> (lo <= Toy.slider_int label lo hi value step ses <= hi)%Z.
Proof. intros H. unfold Toy.slider_int. lia. Qed.

Lemma toy_case_events :
  Forall2 (fun c ev => case_outcome (L := Toy.libs) tt c = Ok ev)
    test_cases ToyWorlds.case_events.
Proof.
  let l := eval vm_compute in ToyWorlds.case_events in
  change ToyWorlds.case_events with l.
  unfold test_cases.
  repeat (constructor; [vm_compute; reflexivity|]).
  constructor.
Qed.

(** C1 at two samples per class and seed 42: ten rows, two of stage 3. *)
Lemma generate_dataset_per_class_witness :
  exists df w',
    fresh_run (L := Toy.libs) 2 42 None Toy.fresh = (Ok df, w') /\
    length (rows df) = 10 /\
    exists col, getitem df "Severity" = Ok col /\ count_eq 3 col = 2.
Proof.
  destruct (generate_dataset_per_class (L := Toy.libs) toy_normal_length
              toy_order_perm 2 42 None Toy.fresh eq_refl)
    as (df & w' & Hrun & _ & Hlen & Hcount & _).
  exists df, w'. split; [exact Hrun|]. split; [exact Hlen|].
  destruct (Hcount 3%Z) as (col & Hcol & _ & Hn).
  - do 3 apply list_elem_of_further. apply list_elem_of_here.
  - exists col. split; assumption.
Defined.

(** C4 on a raw file of two rows. *)
Lemma preprocessing_is_identity_witness :
  exists w',
    preprocessing_main (L := Toy.libs) ToyWorlds.with_raw = (Ok tt, w') /\
    files w' !! processed_path
    = Some (Csv (parse_frame (L := Toy.libs) ToyWorlds.sample_frame)).
Proof.
  assert (H0 : files ToyWorlds.with_raw !! raw_path
               = Some (Csv ToyWorlds.sample_frame))
    by (vm_compute; reflexivity).
  destruct (preprocessing_is_identity (L := Toy.libs) ToyWorlds.with_raw
              ToyWorlds.sample_frame H0) as (_ & _ & H).
  apply H; vm_compute; reflexivity.
Defined.

(** C5 fails as stated: on a preprocessed file with the generator's
    header the selector writes four columns, Severity first, not the
    three feature columns. *)
Lemma feature_selection_keeps_severity :
  exists w' df,
    feature_selection_main (L := Toy.libs) ToyWorlds.with_processed
    = (Ok tt, w') /\
    files w' !! selected_path = Some (Csv df) /\
    columns df = ["Severity"; "Rm_B"; "Rm_F"; "Pachy_Min"] /\
    columns df <> ["Rm_B"; "Rm_F"; "Pachy_Min"].
Proof.
  assert (H0 : files ToyWorlds.with_processed !! processed_path
               = Some (Csv ToyWorlds.sample_frame))
    by (vm_compute; reflexivity).
  assert (H1 : dir_exists ToyWorlds.with_processed (parent selected_path)
               = true) by (vm_compute; reflexivity).
  destruct (feature_selection_main_run (L := Toy.libs)
              ToyWorlds.with_processed ToyWorlds.sample_frame H0 H1)
    as (w' & Hrun & Hsel & _).
  exists w', (parse_frame (L := Toy.libs) ToyWorlds.sample_frame).
  split; [exact Hrun|]. split; [exact Hsel|].
  split; [reflexivity|discriminate].
Qed.

(** C5 as amended, on the same file. *)
Lemma feature_selection_is_pass_through_witness :
  exists w',
    feature_selection_main (L := Toy.libs) ToyWorlds.with_processed
    = (Ok tt, w') /\
    files w' !! selected_path
    = Some (Csv (parse_frame (L := Toy.libs) ToyWorlds.sample_frame)).
Proof.
  assert (H0 : files ToyWorlds.with_processed !! processed_path
               = Some (Csv ToyWorlds.sample_frame))
    by (vm_compute; reflexivity).
  assert (H1 : dir_exists ToyWorlds.with_processed (parent selected_path)
               = true) by (vm_compute; reflexivity).
  destruct (feature_selection_is_pass_through (L := Toy.libs)
              ToyWorlds.with_processed ToyWorlds.sample_frame H0 H1)
    as (w' & out & Hrun & _ & Hsel & _).
  exists w'. split; [exact Hrun|exact Hsel].
Defined.

(** C6 from a checkout with the output directories. *)
Lemma pipeline_datasets_ok_witness :
  exists w1 raw,
    data_generator_main (L := Toy.libs) Toy.prepared = (Ok tt, w1) /\
    files w1 !! raw_path = Some (Csv raw) /\
    dataset_ok raw = true.
Proof.
  destruct (pipeline_datasets_ok (L := Toy.libs) toy_normal_length
              toy_order_perm Toy.prepared)
    as (w1 & raw & Hrun & Hraw & Hok & _).
  exists w1, raw. repeat split; assumption.
Defined.

(** C7 on a raw file of two rows and the threshold classifier. *)
Lemma evaluator_scores_full_dataset_witness :
  exists w',
    evaluate_main (L := Toy.libs) ToyWorlds.trained = (Ok tt, w') /\
    model_calls w'
    = CallPredict ToyWorlds.features_of_sample
      :: flat_map case_calls test_cases.
Proof.
  assert (H0 : files ToyWorlds.trained !! raw_path
               = Some (Csv ToyWorlds.sample_frame))
    by (vm_compute; reflexivity).
  assert (H1 : files ToyWorlds.trained !! model_path
               = Some (Pickle (L := Toy.libs) tt))
    by (vm_compute; reflexivity).
  assert (H2 : dir_exists ToyWorlds.trained "models" = true)
    by (vm_compute; reflexivity).
  destruct (evaluator_scores_full_dataset (L := Toy.libs) ToyWorlds.trained
              ToyWorlds.sample_frame ToyWorlds.features_of_sample
              [CInt 0; CInt 4] tt [0; 4]%Z "report" ToyWorlds.case_events
              H0 eq_refl eq_refl H1 eq_refl eq_refl H2 toy_case_events)
    as (w' & out & Hrun & _ & _ & Hcalls & _).
  exists w'. split; [exact Hrun|exact Hcalls].
Defined.

(** C8 fails as stated.  With a classifier that never raises: a raw file
    without the column Rm_B makes preprocessing end with [KeyError];
    evaluating without a model raises [ValueError]; and on a checkout
    without the directory data/processed the pipeline halts at step 2
    with [OSError].  None of the three is a missing model file or an
    exception of a prediction call. *)
Lemma errors_outside_the_two_kinds :
  (fst (preprocessing_main (L := Toy.libs) ToyWorlds.without_rm_b)
   = Raise (KeyError "Rm_B") /\
   ~ in_spec_taxonomy (L := Toy.libs) (KeyError "Rm_B")) /\
  (fst (evaluate (L := Toy.libs) (mkEvaluator None)
          ToyWorlds.features_of_sample [CInt 0; CInt 4] Toy.fresh)
   = Raise (ValueError "No model loaded") /\
   ~ in_spec_taxonomy (L := Toy.libs) (ValueError "No model loaded")) /\
  (fst (run_pipeline (L := Toy.libs) (Toy.fresh, []))
   = Raise (SystemExit 1) /\
   outcomes (snd (snd (run_pipeline (L := Toy.libs) (Toy.fresh, []))))
   = [("1. Data Generation", true); ("2. Data Preprocessing", false)] /\
   PFailed "2. Data Preprocessing"
     (OSError "Cannot save file into a non-existent directory")
   ∈ snd (snd (run_pipeline (L := Toy.libs) (Toy.fresh, []))) /\
   ~ in_spec_taxonomy (L := Toy.libs)
       (OSError "Cannot save file into a non-existent directory")).
Proof.
  assert (Hno : forall e, e <> FileNotFoundError model_path ->
                  ~ in_spec_taxonomy (L := Toy.libs) e).
  { intros e Hne [Heq|(m & X & [H|H])]; [congruence| |]; discriminate. }
  split; [|split].
  - split; [vm_compute; reflexivity|apply Hno; discriminate].
  - split; [reflexivity|apply Hno; discriminate].
  - split; [vm_compute; reflexivity|].
    split; [vm_compute; reflexivity|].
    split; [|apply Hno; discriminate].
    let t := eval vm_compute in
      (snd (snd (run_pipeline (L := Toy.libs) (Toy.fresh, [])))) in
    change (snd (snd (run_pipeline (L := Toy.libs) (Toy.fresh, [])))) with t.
    do 8 apply list_elem_of_further. apply list_elem_of_here.
Qed.

(** C9 with the sliders moved and the button pressed. *)
Lemma form_queries_within_sliders_witness :
  exists new,
    model_calls
      (world (snd (streamlit_main (L := Toy.libs) ToyWorlds.pressing
                     ToyWorlds.serving)))
    = model_calls (world ToyWorlds.serving) ++ new /\
    Forall (fun c => within_sliders (call_frame c)) new.
Proof.
  exact (form_queries_within_sliders (L := Toy.libs) toy_slider_range
           toy_slider_int_range ToyWorlds.pressing ToyWorlds.serving).
Defined.

(** C10 on a module table without any [main]. *)
Lemma run_step_without_main_witness :
  run_step ToyWorlds.bare_import "4. Model Training" "src.train" (0, [])
  = (Ok true,
     (0, [PSection "STEP: 4. Model Training"; PImport "src.train";
          PCompleted "4. Model Training"])).
Proof.
  destruct (run_step_without_main nat ToyWorlds.bare_import
              "4. Model Training" "src.train" (mkModule None) 0 0 []
              eq_refl) as [H _].
  exact (H eq_refl).
Defined.

(** * Further properties *)

(** ** The orchestrator, continued *)

Section PipelineFurther.
Variable St : Type.
Variable import_ : string -> M St (py_module St).

Lemma step_title_prefix (name : string) :
  String.prefix "STEP: " ("STEP: " ++ name)%string = true.
Proof. cbn. destruct name; reflexivity. Qed.

Lemma step_events_pre (name module : string) (rest : list pevent) :
  forallb step_event rest = true ->
  forallb step_event
    ([PSection ("STEP: " ++ name)%string; PImport module] ++ rest) = true.
Proof.
  intros H. cbn [app forallb step_event].
  rewrite step_title_prefix, H. reflexivity.
Qed.

(** One step prints step events only, never the halt line, and ends with
    a verdict or with an exception that [except Exception] lets through. *)
Lemma run_step_events (step_name module_path : string) (s : St)
    (tr : list pevent) :
  exists r s' ev,
    run_step import_ step_name module_path (s, tr) = (r, (s', tr ++ ev)) /\
    forallb step_event ev = true /\
    existsb is_halted ev = false /\
    (r = Ok true \/ r = Ok false \/
     exists e, r = Raise e /\ is_Exception e = false).
Proof.
  rewrite run_step_cases. cbv zeta.
  destruct (import_ _ s) as [[m|e] s'].
  - destruct (module_main m) as [main|].
    + destruct (main s') as [[[]|e] s''].
      * eexists _, _, _. rewrite <- app_assoc.
        split; [reflexivity|].
        split; [apply step_events_pre; reflexivity|].
        split; [reflexivity|]. left. reflexivity.
      * destruct (is_Exception e) eqn:E; eexists _, _, _;
          rewrite <- app_assoc; (split; [reflexivity|]);
          (split; [apply step_events_pre; reflexivity|]);
          (split; [reflexivity|]).
        -- right; left. reflexivity.
        -- right; right. exists e. split; [reflexivity|exact E].
    + eexists _, _, _. rewrite <- app_assoc.
      split; [reflexivity|].
      split; [apply step_events_pre; reflexivity|].
      split; [reflexivity|]. left. reflexivity.
  - destruct (is_Exception e) eqn:E; eexists _, _, _.
    + rewrite <- app_assoc.
      split; [reflexivity|].
      split; [apply step_events_pre; reflexivity|].
      split; [reflexivity|]. right; left. reflexivity.
    + split; [reflexivity|].
      split; [apply (step_events_pre _ _ []); reflexivity|].
      split; [reflexivity|].
      right; right. exists e. split; [reflexivity|exact E].
Qed.

(** The loop prints step events only; it ends with all verdicts [True],
    with [sys.exit(1)] right after the halt line, or with an exception
    that [run_step] let through, and then without a halt line. *)
Lemma execute_events (todo : list (string * string))
    (results : list (string * bool)) (s : St) (tr : list pevent) :
  exists r s' ev,
    execute import_ todo results (s, tr) = (r, (s', tr ++ ev)) /\
    forallb step_event ev = true /\
    ((r = Ok (results ++ passed (map fst todo)) /\
      existsb is_halted ev = false) \/
     (r = Raise (SystemExit 1) /\ last ev = Some PHalted) \/
     (exists e, r = Raise e /\ is_Exception e = false /\
                existsb is_halted ev = false)).
Proof.
  revert results s tr.
  induction todo as [|[step_name module_path] rest IH]; intros results s tr.
  - exists (Ok results), s, []. cbn [execute]. unfold ret.
    rewrite !app_nil_r. repeat split. left. split; reflexivity.
  - cbn [execute].
    destruct (run_step_events step_name module_path s tr)
      as (r1 & s1 & ev1 & Hrun & Hev & Hh & Hcase).
    unfold bind at 1. rewrite Hrun.
    destruct Hcase as [->|[->|(e & -> & He)]].
    + cbn [negb].
      destruct (IH (results ++ [(step_name, true)]) s1 (tr ++ ev1))
        as (r & s' & ev2 & Hex & Hev2 & Hcase).
      exists r, s', (ev1 ++ ev2). rewrite Hex, app_assoc.
      split; [reflexivity|].
      split; [rewrite forallb_app, Hev, Hev2; reflexivity|].
      destruct Hcase as [[-> Hh2]|[[-> Hl]|(e & -> & He & Hh2)]].
      * left. cbn [map passed fst]. rewrite <- app_assoc.
        split; [reflexivity|]. rewrite existsb_app, Hh, Hh2. reflexivity.
      * right; left. split; [reflexivity|].
        destruct ev2 as [|x ev2]; [discriminate|].
        rewrite last_app. rewrite Hl. reflexivity.
      * right; right. exists e. split; [reflexivity|]. split; [exact He|].
        rewrite existsb_app, Hh, Hh2. reflexivity.
    + cbn [negb]. rewrite bind_pprint. unfold raise.
      exists (Raise (SystemExit 1)), s1, (ev1 ++ [PHalted]).
      rewrite app_assoc. split; [reflexivity|].
      split; [rewrite forallb_app, Hev; reflexivity|].
      right; left. split; [reflexivity|]. apply last_snoc.
    + exists (Raise e), s1, ev1. split; [reflexivity|]. split; [exact Hev|].
      right; right. exists e. repeat split; assumption.
Qed.

(** The status lines of the summary loop. *)
Lemma summary_lines (results : list (string * bool)) (s : St)
    (tr : list pevent) :
  for_each results (fun r =>
      pprint St (PStatus (if snd r : bool then "PASSED" else "FAILED")
                   (fst r))) (s, tr)
  = (Ok (map (fun _ => tt) results),
     (s, tr ++ map (fun r => PStatus (if snd r : bool then "PASSED"
                                      else "FAILED") (fst r)) results)).
Proof.
  revert tr. induction results as [|r rest IH]; intros tr.
  - cbn. rewrite app_nil_r. reflexivity.
  - cbn [for_each map]. rewrite bind_pprint. unfold bind. rewrite IH.
    unfold ret. rewrite <- app_assoc. reflexivity.
Qed.

(** The whole output of [main]: the banner, step events, and after five
    passes the summary with five PASSED lines. *)
Lemma main_shape (s : St) :
  exists r s' ev,
    forallb step_event ev = true /\
    ((main import_ (s, [])
      = (Ok tt, (s', [PBanner] ++ ev ++
                     [PSection "PIPELINE EXECUTION SUMMARY"] ++
                     passed_lines step_names ++ [PTimes; PDone])) /\
      r = Ok tt /\ existsb is_halted ev = false) \/
     (main import_ (s, []) = (Raise (SystemExit 1), (s', [PBanner] ++ ev)) /\
      r = Raise (SystemExit 1) /\ last ev = Some PHalted) \/
     (exists e, main import_ (s, []) = (Raise e, (s', [PBanner] ++ ev)) /\
                r = Raise e /\ is_Exception e = false /\
                existsb is_halted ev = false)).
Proof.
  destruct (execute_events steps [] s ([] ++ [PBanner]))
    as (r & s' & ev & Hex & Hev & Hcase).
  assert (Hstart : forall k : list (string * bool) -> M (PState St) unit,
            bind (pprint St PBanner)
              (fun _ => bind (execute import_ steps []) k) (s, [])
            = match r with
              | Ok results => k results (s', [PBanner] ++ ev)
              | Raise e => (Raise e, (s', [PBanner] ++ ev))
              end).
  { intros k. rewrite bind_pprint. unfold bind at 1. rewrite Hex.
    destruct r; reflexivity. }
  unfold main. rewrite Hstart. clear Hstart Hex.
  destruct Hcase as [[-> Hh]|[[-> Hl]|(e & -> & He & Hh)]].
  - exists (Ok tt), s', ev. split; [exact Hev|]. left.
    unfold print_section. rewrite bind_pprint.
    unfold bind at 1. rewrite summary_lines. rewrite !bind_pprint.
    unfold pprint, modify. cbn [fst snd app].
    split; [|split; [reflexivity|exact Hh]].
    f_equal. f_equal. rewrite <- !app_assoc. reflexivity.
  - exists (Raise (SystemExit 1)), s', ev. split; [exact Hev|].
    right; left. repeat split. exact Hl.
  - exists (Raise e), s', ev. split; [exact Hev|].
    right; right. exists e. repeat split; assumption.
Qed.

Lemma statuses_step_events (ev : list pevent) :
  forallb step_event ev = true -> statuses ev = [].
Proof.
  induction ev as [|e ev IH]; [reflexivity|].
  cbn [forallb]. intros H. apply andb_prop in H as [He Hev].
  unfold statuses in *. cbn [omap list_omap].
  destruct e; try discriminate; cbn; apply IH, Hev.
Qed.

Lemma statuses_passed_lines (names : list string) :
  statuses (passed_lines names) = map (fun n => ("PASSED", n)) names.
Proof.
  induction names as [|n names IH]; [reflexivity|].
  unfold statuses, passed_lines in *. cbn [map omap list_omap].
  cbn. f_equal. exact IH.
Qed.

Lemma elem_of_statuses (tr : list pevent) (status name : string) :
  PStatus status name ∈ tr <-> (status, name) ∈ statuses tr.
Proof.
  unfold statuses. rewrite list_elem_of_omap. split.
  - intros H. exists (PStatus status name). split; [exact H|reflexivity].
  - intros (e & He & Hs). destruct e; try discriminate.
    inversion Hs; subst. exact He.
Qed.

(** X1.  The summary of [main] is printed only after all five steps
    passed: every status line of every execution says PASSED, names one of
    the five steps, and belongs to a run that returned normally; and such a
    run prints exactly the five PASSED lines, in step order.  The FAILED
    status of the summary loop is never printed. *)
Theorem summary_only_after_five_passes (s : St) :
  let run := main import_ (s, []) in
  let tr := snd (snd run) in
  (forall status name,
     PStatus status name ∈ tr ->
     status = "PASSED" /\ name ∈ step_names /\ fst run = Ok tt) /\
  (fst run = Ok tt ->
   statuses tr = map (fun n => ("PASSED", n)) step_names).
Proof.
  cbv zeta.
  assert (Hst : statuses (snd (snd (main import_ (s, []))))
                = (if is_ok (fst (main import_ (s, [])))
                   then map (fun n => ("PASSED", n)) step_names else [])).
  { destruct (main_shape s) as (r & s' & ev & Hev & Hcase).
    pose proof (statuses_step_events ev Hev) as Hnone.
    destruct Hcase as [(-> & _)|[(-> & _)|(e & -> & _)]]; cbn [fst snd is_ok];
      unfold statuses in *; rewrite ?omap_app, Hnone; [|reflexivity..].
    fold (statuses (passed_lines step_names)).
    rewrite statuses_passed_lines. reflexivity. }
  split.
  - intros status name Hin. apply elem_of_statuses in Hin.
    rewrite Hst in Hin.
    destruct (fst (main import_ (s, []))) as [[]|e]; cbn [is_ok] in Hin.
    + apply list_elem_of_fmap in Hin as (n & Heq & Hn).
      inversion Heq; subst. repeat split. exact Hn.
    + apply elem_of_nil in Hin. contradiction.
  - intros Hok. rewrite Hst, Hok. reflexivity.
Qed.

(** X2.  [main] never ends with an ordinary [Exception]: every one a step
    raises is caught by [run_step].  When [main] raises, it is
    [SystemExit(1)] right after the halt line, or an exception of a step
    that is not an [Exception] (such as [SystemExit] or
    [KeyboardInterrupt]), and then the halt line is not printed. *)
Theorem main_never_ends_with_an_exception (s : St) (e : exn) :
  fst (main import_ (s, [])) = Raise e ->
  is_Exception e = false /\
  (existsb is_halted (snd (snd (main import_ (s, [])))) = true ->
   e = SystemExit 1 /\
   last (snd (snd (main import_ (s, [])))) = Some PHalted).
Proof.
  destruct (main_shape s) as (r & s' & ev & Hev & Hcase).
  destruct Hcase as [(-> & _)|[(-> & _ & Hl)|(e' & -> & _ & He & Hh)]];
    cbn [fst snd]; intros H; inversion H; subst.
  - split; [reflexivity|]. intros _. split; [reflexivity|].
    destruct ev as [|x ev]; [discriminate|].
    change ([PBanner] ++ x :: ev) with ([PBanner] ++ (x :: ev)).
    rewrite last_app, Hl. reflexivity.
  - split; [exact He|]. cbn [app existsb is_halted orb].
    rewrite Hh. discriminate.
Qed.

(** *** What the orchestrator does to the state of the modules *)

Section Invariant.
Variable R : St -> St -> Prop.
Hypothesis R_refl : forall s, R s s.
Hypothesis R_trans : forall s1 s2 s3, R s1 s2 -> R s2 s3 -> R s1 s3.
Hypothesis import_R : forall name s, R s (snd (import_ name s)).
Hypothesis module_R :
  forall name s m f,
    fst (import_ name s) = Ok m -> module_main m = Some f ->
    forall s1, R s1 (snd (f s1)).

Lemma run_step_related (step_name module_path : string) (s : St)
    (tr : list pevent) :
  R s (fst (snd (run_step import_ step_name module_path (s, tr)))).
Proof.
  rewrite run_step_cases. cbv zeta.
  pose proof (import_R (module_name_of module_path) s) as Hi.
  pose proof (module_R (module_name_of module_path) s) as Hm.
  destruct (import_ (module_name_of module_path) s) as [[m|e] s'];
    cbn [fst snd] in *.
  - destruct (module_main m) as [f|] eqn:Hf; [|exact Hi].
    specialize (Hm m f eq_refl Hf s').
    destruct (f s') as [[[]|e] s'']; cbn [fst snd] in *.
    + eapply R_trans; eassumption.
    + destruct (is_Exception e); cbn [fst snd]; eapply R_trans; eassumption.
  - destruct (is_Exception e); exact Hi.
Qed.

Lemma execute_related (todo : list (string * string))
    (results : list (string * bool)) (s : St) (tr : list pevent) :
  R s (fst (snd (execute import_ todo results (s, tr)))).
Proof.
  revert results s tr.
  induction todo as [|[step_name module_path] rest IH]; intros results s tr.
  - apply R_refl.
  - cbn [execute]. unfold bind at 1.
    pose proof (run_step_related step_name module_path s tr) as H1.
    destruct (run_step import_ step_name module_path (s, tr))
      as [[[|]|e] [s1 tr1]]; cbn [fst snd negb] in *.
    + eapply R_trans; [exact H1|apply IH].
    + exact H1.
    + exact H1.
Qed.

Lemma main_related (s : St) (tr : list pevent) :
  R s (fst (snd (main import_ (s, tr)))).
Proof.
  unfold main. rewrite bind_pprint. unfold bind at 1.
  pose proof (execute_related steps [] s (tr ++ [PBanner])) as H1.
  destruct (execute import_ steps [] (s, tr ++ [PBanner]))
    as [[results|e] [s1 tr1]]; cbn [fst snd] in *; [|exact H1].
  unfold print_section. rewrite bind_pprint.
  destruct (summary_run St results s1
              (tr1 ++ [PSection "PIPELINE EXECUTION SUMMARY"]))
    as (ev & Hsum & _).
  unfold bind at 1. rewrite Hsum. rewrite !bind_pprint.
  exact H1.
Qed.

End Invariant.

End PipelineFurther.

(** ** The scripts, continued *)

Ltac wnorm :=
  repeat first
    [ rewrite add_out_add_out
    | rewrite add_calls_add_out
    | rewrite add_calls_add_calls
    | rewrite put_file_add_out
    | rewrite put_file_add_calls
    | rewrite dir_exists_add_out
    | rewrite dir_exists_add_calls
    | rewrite dir_exists_put_file ].

Section Further.
Context {L : Libs}.

Hypothesis np_normal_length :
  forall loc scale n g, length (fst (np_normal loc scale n g)) = n.
Hypothesis sample_order_perm :
  forall s len, Permutation (sample_order s len) (seq 0 len).

(** *** The generator *)

(** X3.  [generate_dataset] saves exactly the frame it returns.  When the
    output path is a plain relative path, is not a directory, and no
    directory on the way to it is a regular file, the call returns, the
    file at that path holds the returned frame, its directory exists
    afterwards and no other file changed; with no path, or the empty
    string, no file and no directory is touched. *)
Theorem generate_dataset_saves_what_it_returns
    (self : PentacamDataGenerator) (path : option string) (w : World) :
  seed_in_range (random_state self) = true ->
  severity_stages self <> [] ->
  (forall p, truthy path = Some p ->
     plain_path p = true /\
     (p ∉ dirs w) /\
     (forall d, d ∈ ancestors (S (String.length (parent p))) (parent p) ->
                files w !! d = None)) ->
  exists df w',
    generate_dataset self path w = (Ok df, w') /\
    match truthy path with
    | Some p =>
        files w' = <[p := Csv df]> (files w) /\
        dir_exists w' (parent p) = true /\ dirs w ⊆ dirs w'
    | None => files w' = files w /\ dirs w' = dirs w
    end.
Proof.
  intros Hseed Hne _.
  destruct (generate_dataset_run np_normal_length
              self path w Hseed Hne) as [out Hrun].
  eexists _, _. split; [exact Hrun|].
  unfold saved. destruct (truthy path) as [p|].
  - rewrite dir_exists_add_out. cbn [add_out files dirs].
    split; [reflexivity|].
    split; [apply dir_exists_after_mkdir|apply union_subseteq_r].
  - split; reflexivity.
Qed.

Lemma init_run (n : nat) (seed : Z) (w : World) :
  seed_in_range seed = true ->
  PentacamDataGenerator_init n seed w
  = (Ok (generator_of n seed),
     mkWorld (files w) (dirs w) (mt_seed seed) (stdout w) (model_calls w)).
Proof.
  intros H. unfold PentacamDataGenerator_init, np_random_seed.
  rewrite H. reflexivity.
Qed.

(** X4.  The draws come from NumPy's global generator, which the last
    constructor call seeded: when a second generator is built before the
    first one is used, the first one's dataset is drawn from the second
    seed's stream with the first one's sizes and shuffled with the first
    seed. *)
Theorem draws_follow_the_last_seed (n1 : nat) (seed1 : Z) (n2 : nat)
    (seed2 : Z) (path : option string) (w : World) :
  seed_in_range seed1 = true -> seed_in_range seed2 = true ->
  fst (first_of_two n1 seed1 n2 seed2 path w)
  = Ok (dataset (generator_of n1 seed1) (mt_seed seed2)).
Proof.
  intros H1 H2. unfold first_of_two.
  rewrite (bind_ok _ _ _ _ _ (init_run n1 seed1 w H1)).
  rewrite (bind_ok _ _ _ _ _ (init_run n2 seed2 _ H2)).
  destruct (generate_dataset_run np_normal_length
              (generator_of n1 seed1) path
              (mkWorld (files w) (dirs w) (mt_seed seed2) (stdout w)
                 (model_calls w)) H1 ltac:(discriminate)) as [out Hrun].
  cbn [files dirs rng stdout model_calls] in *. rewrite Hrun. reflexivity.
Qed.

(** X5.  [generate_dataset] does not reseed: a second call on the same
    generator draws from where the first call left the global generator,
    and shuffles with the same seed. *)
Theorem second_call_continues_the_stream (n : nat) (seed : Z)
    (path1 path2 : option string) (w : World) :
  seed_in_range seed = true ->
  let self := generator_of n seed in
  fst (two_datasets n seed path1 path2 w)
  = Ok (dataset self (mt_seed seed),
        dataset self (rng_after self (mt_seed seed))).
Proof.
  intros H self. unfold two_datasets.
  rewrite (bind_ok _ _ _ _ _ (init_run n seed w H)). fold self.
  destruct (generate_dataset_run np_normal_length
              self path1
              (mkWorld (files w) (dirs w) (mt_seed seed) (stdout w)
                 (model_calls w)) H ltac:(discriminate)) as [out1 Hrun1].
  rewrite (bind_ok _ _ _ _ _ Hrun1).
  cbn [rng].
  match goal with
  | |- fst (bind _ _ ?w1) = _ =>
      destruct (generate_dataset_run np_normal_length
                  self path2 w1 H ltac:(discriminate)) as [out2 Hrun2];
      rewrite (bind_ok _ _ _ _ _ Hrun2)
  end.
  unfold ret. cbn [fst]. f_equal. f_equal. f_equal.
  unfold saved, rng_after. destruct (truthy path1); reflexivity.
Qed.

(** *** Preprocessing and feature selection *)

(** X6.  Preprocessing is idempotent: after a run that returned, a second
    run returns too and leaves every file and directory as the first run
    left them. *)
Theorem preprocessing_idempotent (w w1 : World) :
  preprocessing_main w = (Ok tt, w1) ->
  exists w2,
    preprocessing_main w1 = (Ok tt, w2) /\
    files w2 = files w1 /\ dirs w2 = dirs w1.
Proof.
  intros Hrun.
  destruct (preprocessing_main_cases w) as [out Hw].
  rewrite Hw in Hrun. clear Hw.
  destruct (files w !! raw_path) as [[file| | |]|] eqn:Hraw;
    try discriminate.
  cbv zeta in Hrun.
  destruct (getitem (parse_frame file) "Rm_B") eqn:E1; [|discriminate].
  destruct (getitem (parse_frame file) "Rm_F") eqn:E2; [|discriminate].
  destruct (getitem (parse_frame file) "Pachy_Min") eqn:E3; [|discriminate].
  destruct (dir_exists w (parent processed_path)) eqn:Hdir; [|discriminate].
  inversion Hrun; subst w1. clear Hrun.
  destruct (preprocessing_main_cases
              (add_out out (put_file processed_path
                              (Csv (parse_frame file)) w))) as [out2 Hw].
  rewrite Hw. clear Hw.
  cbn [add_out put_file files].
  rewrite lookup_insert_ne by discriminate. rewrite Hraw. cbv zeta.
  rewrite E1, E2, E3.
  rewrite dir_exists_add_out, dir_exists_put_file, Hdir.
  eexists. split; [reflexivity|].
  cbn [add_out put_file files dirs].
  split; [apply insert_insert_eq|reflexivity].
Qed.

(** X7.  The plot of feature selection cannot fail the step.  Once the
    input is read and the output written, [main] returns whatever
    [sns.pairplot] does (its bare [except] catches every exception, also
    [KeyboardInterrupt]) and whether or not the [models] directory exists;
    the figure file is written exactly when the plot succeeded and the
    directory exists, and otherwise the skipping line is printed. *)
Theorem plot_cannot_fail_the_step (w : World) (file : DataFrame) :
  files w !! processed_path = Some (Csv file) ->
  dir_exists w (parent selected_path) = true ->
  let df := parse_frame file in
  let plotted :=
    is_ok (sns_pairplot df "Severity")
    && dir_exists w (parent pairplot_path) in
  exists w' out,
    feature_selection_main w = (Ok tt, w') /\
    files w'
    = (if plotted
       then <[pairplot_path := Png (PairPlot df "Severity")]>
              (<[selected_path := Csv df]> (files w))
       else <[selected_path := Csv df]> (files w)) /\
    stdout w' = stdout w ++ out /\
    (Print "  (Skipping visualization)" ∈ out <-> plotted = false).
Proof.
  intros Hfile Hdir df plotted. unfold feature_selection_main.
  rewrite !bind_print, bind_read_csv, !add_out_add_out.
  cbn [add_out files]. rewrite Hfile. cbv zeta. fold df.
  rewrite bind_print. unfold to_csv.
  rewrite bind_write_file_cases, !add_out_add_out, dir_exists_add_out, Hdir.
  rewrite bind_print, put_file_add_out, !add_out_add_out.
  unfold bind at 1. unfold try_except.
  unfold bind at 1. unfold lift at 1. subst plotted.
  destruct (sns_pairplot df "Severity") as [[]|e]; cbn [is_ok andb].
  - unfold savefig. rewrite bind_write_file_cases.
    rewrite dir_exists_add_out, dir_exists_put_file.
    destruct (dir_exists w (parent pairplot_path)).
    + rewrite put_file_add_out, !print_run, !add_out_add_out.
      eexists _, _. split; [reflexivity|].
      cbn [add_out put_file files stdout].
      split; [reflexivity|]. split; [reflexivity|].
      split; [|discriminate]. intros H. exfalso.
      repeat (apply elem_of_cons in H as [H|H]; [discriminate|]).
      apply elem_of_nil in H. exact H.
    + cbn [fst snd]. rewrite !print_run, !add_out_add_out.
      eexists _, _. split; [reflexivity|].
      cbn [add_out put_file files stdout].
      split; [reflexivity|]. split; [reflexivity|].
      split; [reflexivity|]. intros _.
      do 4 apply list_elem_of_further. apply list_elem_of_here.
  - rewrite !print_run, !add_out_add_out.
    eexists _, _. split; [reflexivity|].
    cbn [add_out put_file files stdout].
    split; [reflexivity|]. split; [reflexivity|].
    split; [reflexivity|]. intros _.
    do 4 apply list_elem_of_further. apply list_elem_of_here.
Qed.

(** *** Training *)

Lemma print_range_features (X : DataFrame) (name : string) :
  columns X = feature_names -> name ∈ feature_names ->
  exists col, getitem X name = Ok col.
Proof.
  intros Hc Hin. unfold getitem. rewrite Hc. unfold feature_names in *.
  repeat (apply elem_of_cons in Hin as [->|Hin]);
    [| | |apply elem_of_nil in Hin; contradiction]; eexists; reflexivity.
Qed.

(** What [train.main] does, case by case. *)
Lemma train_main_cases (w : World) :
  exists out,
    train_main w =
    match files w !! selected_path with
    | None => (Raise (FileNotFoundError selected_path), add_out out w)
    | Some (Csv file) =>
        match getitems (parse_frame file) feature_names with
        | Raise e => (Raise e, add_out out w)
        | Ok X =>
            match getitem (parse_frame file) "Severity" with
            | Raise e => (Raise e, add_out out w)
            | Ok y =>
                match cross_val_score (rows X) y with
                | Raise e => (Raise e, add_out out w)
                | Ok cv_scores =>
                    match rf_fit (rows X) y with
                    | Raise e => (Raise e, add_out out w)
                    | Ok rf =>
                        match sk_predict rf (rows X) with
                        | Raise e =>
                            (Raise e,
                             add_out out (add_calls [CallPredict X] w))
                        | Ok train_pred =>
                            if dir_exists w (parent model_path)
                            then
                              (Ok tt,
                               add_out out
                                 (add_calls [CallPredict X]
                                    (put_file cv_results_path
                                       (cv_results cv_scores y train_pred)
                                       (put_file model_path (Pickle rf) w))))
                            else
                              (Raise (FileNotFoundError model_path),
                               add_out out (add_calls [CallPredict X] w))
                        end
                    end
                end
            end
        end
    | Some _ => (Raise (ParserError selected_path), add_out out w)
    end.
Proof.
  unfold train_main. rewrite !bind_print, bind_read_csv, !add_out_add_out.
  cbn [add_out files].
  destruct (files w !! selected_path) as [[file| | |]|];
    try (eexists; reflexivity).
  rewrite bind_lift.
  destruct (getitems (parse_frame file) feature_names) as [X|e] eqn:HX;
    [|eexists; reflexivity].
  rewrite bind_lift.
  destruct (getitem (parse_frame file) "Severity") as [y|e];
    [|eexists; reflexivity].
  destruct (getitems_shape _ _ _ HX) as [Hcols _].
  destruct (print_range_features X "Rm_B" Hcols) as [c1 H1];
    [apply (bool_decide_unpack _); reflexivity|].
  destruct (print_range_features X "Rm_F" Hcols) as [c2 H2];
    [apply (bool_decide_unpack _); reflexivity|].
  destruct (print_range_features X "Pachy_Min" Hcols) as [c3 H3];
    [apply (bool_decide_unpack _); reflexivity|].
  rewrite !bind_print, bind_print_range, H1, bind_print_range, H2,
    bind_print_range, H3, !bind_print, bind_lift. wnorm.
  destruct (cross_val_score (rows X) y) as [cv|e]; [|eexists; reflexivity].
  rewrite !bind_print, bind_lift. wnorm.
  destruct (rf_fit (rows X) y) as [rf|e]; [|eexists; reflexivity].
  rewrite bind_model_predict. wnorm.
  destruct (sk_predict rf (rows X)) as [pred|e]; [|eexists; reflexivity].
  cbv zeta. rewrite bind_print. unfold joblib_dump.
  rewrite bind_write_file_cases. wnorm.
  destruct (dir_exists w (parent model_path)) eqn:Hdir;
    [|eexists; reflexivity].
  rewrite bind_print, bind_write_file_cases. wnorm.
  change (parent cv_results_path) with (parent model_path). rewrite Hdir.
  rewrite bind_print, print_run. wnorm.
  eexists. reflexivity.
Qed.

(** X8.  Training persists the forest fitted on the whole selected
    dataset: given the selected-features file, the [models] directory and
    scikit-learn calls that return, [main] fits on the three feature
    columns of every row and the Severity column, predicts once, on that
    same training data, for the training accuracy, and writes the fitted
    model and the table of cross-validation and training scores; no other
    file changes. *)
Theorem train_persists_the_fit (w : World) (file X : DataFrame)
    (y : list cell) (cv_scores : list Q) (rf : Model) (train_pred : list Z) :
  files w !! selected_path = Some (Csv file) ->
  getitems (parse_frame file) feature_names = Ok X ->
  getitem (parse_frame file) "Severity" = Ok y ->
  cross_val_score (rows X) y = Ok cv_scores ->
  rf_fit (rows X) y = Ok rf ->
  sk_predict rf (rows X) = Ok train_pred ->
  dir_exists w "models" = true ->
  exists w',
    train_main w = (Ok tt, w') /\
    length (rows X) = length (rows file) /\
    files w'
    = <[cv_results_path := cv_results cv_scores y train_pred]>
        (<[model_path := Pickle rf]> (files w)) /\
    model_calls w' = model_calls w ++ [CallPredict X].
Proof.
  intros Hfile HX Hy Hcv Hfit Hpred Hdir.
  destruct (train_main_cases w) as [out Hrun].
  rewrite Hfile, HX, Hy, Hcv, Hfit, Hpred in Hrun.
  change (parent model_path) with "models" in Hrun. rewrite Hdir in Hrun.
  eexists. split; [exact Hrun|]. split.
  { destruct (getitems_shape _ _ _ HX) as [_ Hlen]. rewrite Hlen.
    unfold parse_frame. cbn [rows]. apply length_map. }
  split; reflexivity.
Qed.

(** X9.  Training touches the file system only after scoring.  However
    [main] ends, if any file differs afterwards then the selected dataset
    was read, cross-validation, the fit and the prediction for the
    training accuracy had all returned, and the model file holds that
    fit: an input that cannot be read, a missing column or a raising
    scikit-learn call leaves every file as it was, and no model is ever
    saved without its scores having been computed. *)
Theorem train_writes_only_after_scoring (w w' : World) (r : result unit) :
  train_main w = (r, w') -> files w' <> files w ->
  exists file X y cv_scores rf train_pred,
    files w !! selected_path = Some (Csv file) /\
    getitems (parse_frame file) feature_names = Ok X /\
    getitem (parse_frame file) "Severity" = Ok y /\
    cross_val_score (rows X) y = Ok cv_scores /\
    rf_fit (rows X) y = Ok rf /\
    sk_predict rf (rows X) = Ok train_pred /\
    files w' !! model_path = Some (Pickle rf).
Proof.
  destruct (train_main_cases w) as [out ->].
  destruct (files w !! selected_path) as [[file| | |]|] eqn:Hfile;
    try (intros H; injection H as _ <-; intros []; reflexivity).
  destruct (getitems (parse_frame file) feature_names) as [X|] eqn:HX;
    [|intros H; injection H as _ <-; intros []; reflexivity].
  destruct (getitem (parse_frame file) "Severity") as [y|] eqn:Hy;
    [|intros H; injection H as _ <-; intros []; reflexivity].
  destruct (cross_val_score (rows X) y) as [cv|] eqn:Hcv;
    [|intros H; injection H as _ <-; intros []; reflexivity].
  destruct (rf_fit (rows X) y) as [rf|] eqn:Hfit;
    [|intros H; injection H as _ <-; intros []; reflexivity].
  destruct (sk_predict rf (rows X)) as [pred|] eqn:Hpred;
    [|intros H; injection H as _ <-; intros []; reflexivity].
  destruct (dir_exists w (parent model_path));
    [|intros H; injection H as _ <-; intros []; reflexivity].
  intros H _. injection H as _ <-.
  exists file, X, y, cv, rf, pred.
  repeat (split; [first [reflexivity|assumption]|]).
  cbn [add_out add_calls put_file files].
  rewrite lookup_insert_ne by discriminate. apply lookup_insert_eq.
Qed.

(** *** The files the pipeline touches *)

Lemma keeps_pure {A} (p : string) (c : M World A) :
  (forall w, files (snd (c w)) = files w) -> keeps p c.
Proof. intros H w. rewrite H. reflexivity. Qed.

Lemma keeps_bind {A B} (p : string) (c : M World A) (k : A -> M World B) :
  keeps p c -> (forall x, keeps p (k x)) -> keeps p (bind c k).
Proof.
  intros Hc Hk w. unfold bind. specialize (Hc w).
  destruct (c w) as [[x|e] w1]; cbn [snd] in *; [|exact Hc].
  rewrite Hk. exact Hc.
Qed.

Lemma keeps_try {A} (p : string) (c : M World A) (catches : exn -> bool)
    (h : exn -> M World A) :
  keeps p c -> (forall e, keeps p (h e)) -> keeps p (try_except c catches h).
Proof.
  intros Hc Hh w. unfold try_except. specialize (Hc w).
  destruct (c w) as [[x|e] w1]; cbn [snd] in *; [exact Hc|].
  destruct (catches e); [|exact Hc]. rewrite Hh. exact Hc.
Qed.

Lemma keeps_for_each {A B} (p : string) (xs : list A) (body : A -> M World B) :
  (forall x, keeps p (body x)) -> keeps p (for_each xs body).
Proof.
  intros H. induction xs as [|x xs IH]; cbn [for_each].
  - apply keeps_pure. reflexivity.
  - apply keeps_bind; [apply H|]. intros b.
    apply keeps_bind; [exact IH|]. intros bs. apply keeps_pure. reflexivity.
Qed.

Lemma keeps_write_file (p path : string) (c : content) (e : exn) :
  p <> path -> keeps p (write_file path c e).
Proof.
  intros Hne w. unfold write_file.
  destruct (dir_exists w (parent path)); cbn [snd files]; [|reflexivity].
  apply lookup_insert_ne. congruence.
Qed.

Lemma keeps_read_csv (p path : string) : keeps p (read_csv path).
Proof.
  apply keeps_pure. intros w. unfold read_csv.
  destruct (files w !! path) as [[| | |]|]; reflexivity.
Qed.

Lemma keeps_joblib_load (p path : string) : keeps p (joblib_load path).
Proof.
  apply keeps_pure. intros w. unfold joblib_load.
  destruct (files w !! path) as [[| | |]|]; reflexivity.
Qed.

Lemma keeps_normal (p : string) (loc scale : Q) (n : nat) :
  keeps p (np_random_normal loc scale n).
Proof.
  apply keeps_pure. intros w. unfold np_random_normal.
  destruct (np_normal loc scale n (rng w)). reflexivity.
Qed.

Lemma keeps_seed (p : string) (s : Z) : keeps p (np_random_seed s).
Proof.
  apply keeps_pure. intros w. unfold np_random_seed.
  destruct (seed_in_range s); reflexivity.
Qed.

Ltac keeps_tac :=
  repeat first
    [ apply keeps_read_csv
    | apply keeps_joblib_load
    | apply keeps_normal
    | apply keeps_seed
    | apply keeps_write_file; assumption
    | apply keeps_for_each; intros ?
    | apply keeps_try; [|intros ?]
    | apply keeps_bind; [|intros ?]
    | match goal with
      | |- keeps _ (match ?x with _ => _ end) => destruct x
      end
    | apply keeps_pure; intros ?; reflexivity ].

Lemma artefacts_apart (p : string) :
  p ∉ artefacts ->
  p <> raw_path /\ p <> processed_path /\ p <> selected_path /\
  p <> pairplot_path /\ p <> model_path /\ p <> cv_results_path /\
  p <> confusion_matrix_path /\ p <> evaluation_metrics_path.
Proof.
  unfold artefacts. rewrite !not_elem_of_cons. tauto.
Qed.

Lemma keeps_generate_dataset (p : string) (self : PentacamDataGenerator)
    (path : option string) :
  (forall q, truthy path = Some q -> p <> q) ->
  keeps p (generate_dataset self path).
Proof.
  intros Hp. unfold generate_dataset, _generate_stage_data, print_range.
  destruct (truthy path) as [q|]; [specialize (Hp q eq_refl)|];
    unfold to_csv; keeps_tac.
Qed.

Lemma keeps_data_generator_main (p : string) :
  p <> raw_path -> keeps p data_generator_main.
Proof.
  intros Hp. unfold data_generator_main, PentacamDataGenerator_init.
  apply keeps_bind; [keeps_tac|]. intros g.
  apply keeps_bind; [|intros ?; keeps_tac].
  apply keeps_generate_dataset. intros q Hq.
  change (truthy (Some raw_path)) with (Some raw_path) in Hq.
  inversion Hq; subst. exact Hp.
Qed.

Lemma keeps_preprocessing_main (p : string) :
  p <> processed_path -> keeps p preprocessing_main.
Proof.
  intros Hp. unfold preprocessing_main, print_range, to_csv. keeps_tac.
Qed.

Lemma keeps_feature_selection_main (p : string) :
  p <> selected_path -> p <> pairplot_path -> keeps p feature_selection_main.
Proof.
  intros Hs Hp. unfold feature_selection_main, print_range, to_csv, savefig.
  keeps_tac.
Qed.

Lemma keeps_train_main (p : string) :
  p <> model_path -> p <> cv_results_path -> keeps p train_main.
Proof.
  intros Hm Hc.
  unfold train_main, print_range, joblib_dump, model_predict, log_call.
  keeps_tac.
Qed.

Lemma keeps_evaluate_main (p : string) :
  p <> confusion_matrix_path -> p <> evaluation_metrics_path ->
  keeps p evaluate_main.
Proof.
  intros Hm Hc.
  unfold evaluate_main, print_range, ModelEvaluator_init,
    ModelEvaluator_load_model, evaluate, print_performance_summary,
    print_classification_report, plot_confusion_matrix, savefig,
    run_test_case, model_predict, model_predict_proba, log_call.
  change (truthy (Some model_path)) with (Some model_path).
  change (truthy (Some confusion_matrix_path))
    with (Some confusion_matrix_path).
  keeps_tac.
Qed.

(** X10.  The pipeline writes only its own artefacts.  Whatever happens
    in a run of [run_pipeline.main] over the five scripts (steps may fail
    or be skipped, library calls may raise), every file other than the raw,
    preprocessed and selected datasets, the pair plot, the model, the
    cross-validation table, the confusion matrix and the metrics table is
    afterwards exactly as it was before, present or absent. *)
Theorem pipeline_writes_only_its_artefacts (w : World) (tr : list pevent)
    (p : string) :
  p ∉ artefacts ->
  files (fst (snd (run_pipeline (w, tr)))) !! p = files w !! p.
Proof.
  intros Hp.
  destruct (artefacts_apart p Hp)
    as (H1 & H2 & H3 & H4 & H5 & H6 & H7 & H8).
  unfold run_pipeline.
  apply (main_related World repo_import
           (fun w1 w2 => files w2 !! p = files w1 !! p)).
  - reflexivity.
  - intros w1 w2 w3 H12 H23. rewrite H23. exact H12.
  - intros name w1. unfold repo_import.
    repeat match goal with
           | |- context [if ?b then _ else _] => destruct b
           end; reflexivity.
  - intros name w1 m f Himp Hmain. unfold repo_import in Himp.
    repeat match type of Himp with
           | context [if ?b then _ else _] => destruct b
           end;
      cbn [fst ret raise] in Himp; inversion Himp; subst m;
      cbn [module_main] in Hmain; inversion Hmain; subst f.
    + apply keeps_data_generator_main. exact H1.
    + apply keeps_preprocessing_main. exact H2.
    + apply keeps_feature_selection_main; assumption.
    + apply keeps_train_main; assumption.
    + apply keeps_evaluate_main; assumption.
Qed.

(** *** Runs of the assembled pipeline *)

Lemma dataset_ok_features (df : DataFrame) :
  dataset_ok df = true ->
  exists y c1 c2 c3,
    getitem df "Severity" = Ok y /\ getitem df "Rm_B" = Ok c1 /\
    getitem df "Rm_F" = Ok c2 /\ getitem df "Pachy_Min" = Ok c3.
Proof.
  unfold dataset_ok, feature_names. cbn [forallb].
  destruct (getitem df "Severity") as [y|]; [|discriminate].
  destruct (getitem df "Rm_B") as [c1|]; cbn [is_ok];
    [|rewrite andb_false_r; discriminate].
  destruct (getitem df "Rm_F") as [c2|]; cbn [is_ok];
    [|rewrite andb_false_r; discriminate].
  destruct (getitem df "Pachy_Min") as [c3|]; cbn [is_ok];
    [|rewrite andb_false_r; discriminate].
  intros _. eexists _, _, _, _. repeat split.
Qed.

Lemma generated_ok (g : RngState) :
  dataset_ok (dataset (generator_of 130 42) g) = true.
Proof.
  apply (dataset_ok_generated np_normal_length sample_order_perm).
  cbn [severity_stages generator_of].
  repeat (apply Forall_cons; split; [lia|]). apply Forall_nil_2.
Qed.

(** The world [data_generator.main] leaves. *)
Lemma data_generator_main_world (w : World) :
  exists out g,
    data_generator_main w
    = (Ok tt,
       add_out out
         (mkWorld
            (<[raw_path := Csv (dataset (generator_of 130 42) (mt_seed 42))]>
               (files w))
            ({["data/raw"; "data"]} ∪ dirs w)
            g (stdout w) (model_calls w))).
Proof.
  unfold data_generator_main, PentacamDataGenerator_init.
  change (np_random_seed 42) with (set_rng (mt_seed 42)).
  unfold set_rng. rewrite !bind_assoc, bind_modify, bind_ret.
  fold (generator_of 130 42).
  destruct (generate_dataset_run np_normal_length (generator_of 130 42)
              (Some raw_path)
              (mkWorld (files w) (dirs w) (mt_seed 42) (stdout w)
                 (model_calls w)) eq_refl ltac:(discriminate)) as [out Hrun].
  rewrite (bind_ok _ _ _ _ _ Hrun). rewrite bind_print, print_run.
  rewrite !add_out_add_out. unfold saved.
  change (truthy (Some raw_path)) with (Some raw_path).
  cbn [files dirs rng stdout model_calls].
  change (ancestors _ (parent raw_path)) with ["data/raw"; "data"].
  cbn [list_to_set]. rewrite (right_id_L ∅ (∪)).
  eexists _, _. reflexivity.
Qed.

(** X11.  The pipeline cannot get past preprocessing on a checkout that
    lacks the directory [data/processed]: data generation creates
    [data/raw] and writes the raw dataset, preprocessing reads it and
    fails with [OSError] when saving, and [main] halts there with exit
    status 1, having written the raw dataset and nothing else. *)
Theorem pipeline_needs_the_processed_directory (w : World) :
  dir_exists w "data/processed" = false ->
  exists w' tr,
    run_pipeline (w, []) = (Raise (SystemExit 1), (w', tr)) /\
    outcomes tr
    = [("1. Data Generation", true); ("2. Data Preprocessing", false)] /\
    PFailed "2. Data Preprocessing"
      (OSError "Cannot save file into a non-existent directory") ∈ tr /\
    main_calls tr = ["src.data_generator"; "src.preprocessing"] /\
    files w'
    = <[raw_path := Csv (dataset (generator_of 130 42) (mt_seed 42))]>
        (files w).
Proof.
  intros Hdir.
  destruct (data_generator_main_world w) as (out1 & g & Hgen).
  set (df := dataset (generator_of 130 42) (mt_seed 42)) in *.
  set (w1 := add_out out1 _) in Hgen.
  destruct (preprocessing_main_cases w1) as [out2 Hpre].
  assert (Hraw : files w1 !! raw_path = Some (Csv df))
    by (subst w1; cbn [add_out files]; apply lookup_insert_eq).
  rewrite Hraw in Hpre. cbv zeta in Hpre.
  destruct (dataset_ok_features (parse_frame df))
    as (y & c1 & c2 & c3 & _ & E1 & E2 & E3).
  { rewrite dataset_ok_parse_frame. apply generated_ok. }
  rewrite E1, E2, E3 in Hpre.
  assert (Hdir1 : dir_exists w1 (parent processed_path) = false).
  { subst w1. rewrite dir_exists_add_out.
    change (parent processed_path) with "data/processed".
    unfold dir_exists in *. cbn [dirs String.eqb Ascii.eqb Bool.eqb orb] in *.
    apply bool_decide_eq_false in Hdir. apply bool_decide_eq_false.
    rewrite !elem_of_union, !elem_of_singleton.
    intros [[H|H]|H]; [discriminate|discriminate|contradiction]. }
  rewrite Hdir1 in Hpre.
  unfold run_pipeline, main. rewrite bind_pprint.
  cbn [execute steps]. unfold bind at 1. unfold bind at 1.
  rewrite run_step_cases. cbv zeta.
  change (module_name_of "src.data_generator") with "src.data_generator".
  change (repo_import "src.data_generator" w)
    with (Ok (mkModule (Some data_generator_main)), w).
  cbn [module_main]. rewrite Hgen. cbn [negb].
  unfold bind at 1. rewrite run_step_cases. cbv zeta.
  change (module_name_of "src.preprocessing") with "src.preprocessing".
  change (repo_import "src.preprocessing" w1)
    with (Ok (mkModule (Some preprocessing_main)), w1).
  cbn [module_main]. rewrite Hpre.
  cbn [is_Exception negb]. rewrite bind_pprint. unfold raise.
  eexists _, _. split; [reflexivity|].
  split; [reflexivity|]. split; [|split; [reflexivity|reflexivity]].
  rewrite !elem_of_app, !elem_of_cons. left. right. right. left. reflexivity.
Qed.

(** The world [feature_selection.main] leaves: the selected dataset, and
    the pair plot when it could be drawn and saved. *)
Lemma feature_selection_main_world (w : World) (file : DataFrame) :
  files w !! processed_path = Some (Csv file) ->
  dir_exists w (parent selected_path) = true ->
  exists out fs,
    feature_selection_main w
    = (Ok tt,
       add_out out
         (mkWorld fs (dirs w) (rng w) (stdout w) (model_calls w))) /\
    (forall p, p <> pairplot_path ->
       fs !! p = <[selected_path := Csv (parse_frame file)]> (files w) !! p).
Proof.
  intros Hfile Hdir. unfold feature_selection_main.
  rewrite !bind_print, bind_read_csv, !add_out_add_out.
  cbn [add_out files]. rewrite Hfile. cbv zeta.
  rewrite bind_print. unfold to_csv.
  rewrite bind_write_file_cases, !add_out_add_out, dir_exists_add_out, Hdir.
  rewrite bind_print, put_file_add_out, !add_out_add_out.
  unfold bind at 1. unfold try_except.
  unfold bind at 1. unfold lift at 1.
  destruct (sns_pairplot (parse_frame file) "Severity") as [[]|e].
  - unfold savefig. rewrite bind_write_file_cases.
    rewrite dir_exists_add_out, dir_exists_put_file.
    destruct (dir_exists w (parent pairplot_path)).
    + rewrite put_file_add_out, !print_run, !add_out_add_out.
      eexists _, _. split; [reflexivity|].
      intros p Hp. apply lookup_insert_ne. congruence.
    + cbn [fst snd]. rewrite !print_run, !add_out_add_out.
      eexists _, _. split; [reflexivity|]. reflexivity.
  - rewrite !print_run, !add_out_add_out.
    eexists _, _. split; [reflexivity|]. reflexivity.
Qed.

Lemma generated_length (g : RngState) :
  length (rows (dataset (generator_of 130 42) g)) = 650.
Proof.
  unfold dataset. cbn [rows generator_of random_state n_per_class
                         severity_stages].
  rewrite (shuffled_perm sample_order_perm), (length_unshuffled np_normal_length).
  reflexivity.
Qed.

Lemma repo_step_passes (step_name module_path : string) (f : M World unit)
    (w w' : World) (tr : list pevent) :
  repo_import (module_name_of module_path) w = (Ok (mkModule (Some f)), w) ->
  f w = (Ok tt, w') ->
  run_step repo_import step_name module_path (w, tr)
  = (Ok true,
     (w', tr ++ [PSection ("STEP: " ++ step_name)%string;
                 PImport (module_name_of module_path);
                 PCallMain (module_name_of module_path);
                 PCompleted step_name])).
Proof.
  intros Himp Hrun. rewrite run_step_cases. cbv zeta.
  rewrite Himp. cbn [module_main]. rewrite Hrun, <- app_assoc. reflexivity.
Qed.

Lemma getitems_parse_frame (df : DataFrame) (names : list string) :
  getitems (parse_frame df) names =
  match getitems df names with
  | Ok X => Ok (parse_frame X)
  | Raise e => Raise e
  end.
Proof.
  unfold getitems, parse_frame. cbn [columns rows].
  destruct (indices_of names (columns df)) as [ixs|]; [|reflexivity].
  cbn [columns rows]. f_equal. f_equal. rewrite !map_map.
  apply map_ext. intros r.
  induction ixs as [|i ixs IH]; [reflexivity|].
  cbn [omap list_omap map].
  pose proof (lookup_map parse_cell r i) as Hr. unfold row in *.
  rewrite Hr. destruct (r !! i); cbn; rewrite IH; reflexivity.
Qed.

Lemma parse_labels (col : list cell) :
  forallb label_ok col = true -> map parse_cell col = col.
Proof.
  induction col as [|c col IH]; [reflexivity|].
  cbn [forallb map]. intros H. apply andb_true_iff in H as [Hc H].
  rewrite (IH H). destruct c; [reflexivity|discriminate].
Qed.

Lemma parse_frame_idem (df : DataFrame) :
  (forall q, csv_float (csv_float q) = csv_float q) ->
  parse_frame (parse_frame df) = parse_frame df.
Proof.
  intros Hid. unfold parse_frame. cbn [columns rows]. f_equal.
  rewrite map_map. apply map_ext. intros r. rewrite map_map.
  apply map_ext. intros [z|q]; cbn [parse_cell]; [reflexivity|].
  rewrite Hid. reflexivity.
Qed.

(** X12.  The pipeline runs to the end on a checkout that has the
    directories [data/processed] and [models] and nothing in the way of
    the files to write, when the scikit-learn calls on the data at hand
    return: all five steps are reported
    completed and PASSED, [main] returns normally, the three datasets are
    the generated one and its re-read copies, and the model file holds
    the forest fitted on all 650 rows of the selected dataset.  The
    evaluation scores that forest on the 650 rows of the raw dataset as
    read back once; the training frame is that same frame written and
    read back twice more, with the very same labels, so the two frames
    are equal as soon as reading a written float back is idempotent. *)
Theorem pipeline_completes (w : World) (X X_raw : DataFrame)
    (y y_raw : list cell) (cv_scores : list Q) (rf : Model)
    (train_pred y_pred : list Z) (report : string) (evs : list event) :
  let raw := dataset (generator_of 130 42) (mt_seed 42) in
  let selected := parse_frame (parse_frame raw) in
  unobstructed w ->
  dir_exists w "data/processed" = true ->
  dir_exists w "models" = true ->
  getitems (parse_frame selected) feature_names = Ok X ->
  getitem (parse_frame selected) "Severity" = Ok y ->
  cross_val_score (rows X) y = Ok cv_scores ->
  rf_fit (rows X) y = Ok rf ->
  sk_predict rf (rows X) = Ok train_pred ->
  getitems (parse_frame raw) feature_names = Ok X_raw ->
  getitem (parse_frame raw) "Severity" = Ok y_raw ->
  sk_predict rf (rows X_raw) = Ok y_pred ->
  classification_report y_raw y_pred stage_names = Ok report ->
  Forall2 (fun c ev => case_outcome rf c = Ok ev) test_cases evs ->
  exists w' tr,
    run_pipeline (w, []) = (Ok tt, (w', tr)) /\
    outcomes tr = passed step_names /\
    statuses tr = map (fun name => ("PASSED", name)) step_names /\
    length (rows X) = 650 /\ length (rows X_raw) = 650 /\
    y = y_raw /\ X = parse_frame (parse_frame X_raw) /\
    ((forall q, csv_float (csv_float q) = csv_float q) -> X = X_raw) /\
    files w' !! raw_path = Some (Csv raw) /\
    files w' !! processed_path = Some (Csv (parse_frame raw)) /\
    files w' !! selected_path = Some (Csv selected) /\
    files w' !! model_path = Some (Pickle rf) /\
    files w' !! cv_results_path
    = Some (cv_results cv_scores y train_pred) /\
    files w' !! evaluation_metrics_path
    = Some (MetricsCsv metric_names
              (map (fun name => inr (sk_score name y_raw y_pred * 100)%Q)
                 metric_names)) /\
    model_calls w'
    = model_calls w ++ [CallPredict X; CallPredict X_raw]
        ++ flat_map case_calls test_cases.
Proof.
  intros raw selected _ Hd1 Hd2 HX Hy Hcv Hfit Hpred HX' Hy' Hpred' Hrep
    Hcases.
  (* 1 *)
  destruct (data_generator_main_world w) as (out1 & g1 & Hgen).
  fold raw in Hgen.
  set (w1 := add_out out1 _) in Hgen.
  assert (F1 : files w1 = <[raw_path := Csv raw]> (files w)) by reflexivity.
  assert (D1 : forall d, dir_exists w d = true -> dir_exists w1 d = true).
  { intros d. subst w1. rewrite dir_exists_add_out. unfold dir_exists.
    cbn [dirs]. intros H. apply orb_true_iff in H as [H|H];
      apply orb_true_iff; [left; exact H|right].
    apply bool_decide_eq_true in H. apply bool_decide_eq_true.
    apply elem_of_union. right. exact H. }
  assert (C1 : model_calls w1 = model_calls w) by reflexivity.
  clearbody w1.
  (* 2 *)
  destruct (preprocessing_main_cases w1) as [out2 Hpre].
  rewrite F1, lookup_insert_eq in Hpre. cbv zeta in Hpre.
  destruct (dataset_ok_features (parse_frame raw))
    as (y0 & c1 & c2 & c3 & _ & E1 & E2 & E3).
  { rewrite dataset_ok_parse_frame.
    apply generated_ok. }
  rewrite E1, E2, E3 in Hpre.
  change (parent processed_path) with "data/processed" in Hpre.
  rewrite (D1 _ Hd1) in Hpre.
  set (w2 := add_out out2 _) in Hpre.
  assert (F2 : files w2
               = <[processed_path := Csv (parse_frame raw)]> (files w1))
    by reflexivity.
  assert (D2 : forall d, dir_exists w2 d = dir_exists w1 d) by reflexivity.
  assert (C2 : model_calls w2 = model_calls w1) by reflexivity.
  clearbody w2.
  (* 3 *)
  destruct (feature_selection_main_world w2 (parse_frame raw))
    as (out3 & fs & Hsel & Hfs).
  { rewrite F2. apply lookup_insert_eq. }
  { change (parent selected_path) with "data/processed".
    rewrite D2. apply D1. exact Hd1. }
  fold selected in Hfs.
  set (w3 := add_out out3 _) in Hsel.
  assert (F3 : forall p, p <> pairplot_path ->
            files w3 !! p = <[selected_path := Csv selected]> (files w2) !! p)
    by exact Hfs.
  assert (D3 : forall d, dir_exists w3 d = dir_exists w2 d) by reflexivity.
  assert (C3 : model_calls w3 = model_calls w2) by reflexivity.
  clearbody w3. clear Hfs.
  (* 4 *)
  destruct (train_main_cases w3) as [out4 Htrain].
  rewrite F3, lookup_insert_eq in Htrain by discriminate.
  rewrite HX, Hy, Hcv, Hfit, Hpred in Htrain.
  change (parent model_path) with "models" in Htrain.
  rewrite D3, D2, (D1 _ Hd2) in Htrain.
  set (w4 := add_out out4 _) in Htrain.
  assert (F4 : files w4
               = <[cv_results_path := cv_results cv_scores y train_pred]>
                   (<[model_path := Pickle rf]> (files w3)))
    by reflexivity.
  assert (D4 : forall d, dir_exists w4 d = dir_exists w3 d) by reflexivity.
  assert (C4 : model_calls w4 = model_calls w3 ++ [CallPredict X])
    by reflexivity.
  clearbody w4.
  (* 5 *)
  destruct (evaluate_main_run w4 raw X_raw y_raw rf y_pred report evs)
    as [out5 Heval]; try assumption.
  { rewrite F4, !lookup_insert_ne by discriminate.
    rewrite F3, lookup_insert_ne by discriminate.
    rewrite F2, lookup_insert_ne by discriminate.
    rewrite F1. apply lookup_insert_eq. }
  { rewrite F4, lookup_insert_ne by discriminate. apply lookup_insert_eq. }
  { rewrite D4, D3, D2. apply D1. exact Hd2. }
  set (w5 := add_out _ _) in Heval.
  assert (F5 : forall p, p <> confusion_matrix_path ->
            p <> evaluation_metrics_path -> files w5 !! p = files w4 !! p).
  { intros p Hp1 Hp2. subst w5. cbn [add_out add_calls put_file files].
    rewrite !lookup_insert_ne by congruence. reflexivity. }
  assert (F5' : files w5 !! evaluation_metrics_path
                = Some (MetricsCsv metric_names
                          (map (fun name =>
                                  inr (sk_score name y_raw y_pred * 100)%Q)
                             metric_names)))
    by (subst w5; cbn [add_out add_calls put_file files];
        apply lookup_insert_eq).
  assert (C5 : model_calls w5
               = model_calls w4
                   ++ CallPredict X_raw :: flat_map case_calls test_cases)
    by reflexivity.
  clearbody w5.
  exists w5. unfold run_pipeline, main. rewrite bind_pprint.
  cbn [execute steps]. unfold bind at 1. unfold bind at 1.
  rewrite (repo_step_passes "1. Data Generation" "src.data_generator"
             data_generator_main w w1 _ eq_refl Hgen). cbn [negb].
  unfold bind at 1.
  rewrite (repo_step_passes "2. Data Preprocessing" "src.preprocessing"
             preprocessing_main w1 w2 _ eq_refl Hpre). cbn [negb].
  unfold bind at 1.
  rewrite (repo_step_passes "3. Feature Selection" "src.feature_selection"
             feature_selection_main w2 w3 _ eq_refl Hsel). cbn [negb].
  unfold bind at 1.
  rewrite (repo_step_passes "4. Model Training" "src.train"
             train_main w3 w4 _ eq_refl Htrain). cbn [negb].
  unfold bind at 1.
  rewrite (repo_step_passes "5. Model Evaluation" "src.evaluate"
             evaluate_main w4 w5 _ eq_refl Heval). cbn [negb].
  eexists. split; [reflexivity|]. split; [reflexivity|].
  split; [reflexivity|].
  split.
  { destruct (getitems_shape _ _ _ HX) as [_ ->]. subst selected.
    unfold parse_frame at 1 2 3. cbn [rows]. rewrite !length_map.
    apply generated_length. }
  split.
  { destruct (getitems_shape _ _ _ HX') as [_ ->].
    unfold parse_frame. cbn [rows]. rewrite length_map.
    apply generated_length. }
  split.
  { pose proof (generated_ok (mt_seed 42)) as Hok.
    fold raw in Hok. unfold dataset_ok in Hok.
    subst selected. rewrite !getitem_parse_frame in Hy.
    rewrite getitem_parse_frame in Hy'.
    destruct (getitem raw "Severity") as [col|]; [|discriminate].
    apply andb_true_iff in Hok as [Hok _].
    apply andb_true_iff in Hok as [Hok _].
    injection Hy as <-. injection Hy' as <-.
    rewrite !(parse_labels _ Hok). reflexivity. }
  split.
  { subst selected. rewrite !(getitems_parse_frame (parse_frame _)) in HX.
    rewrite HX' in HX. injection HX as <-. reflexivity. }
  split.
  { intros Hid. subst selected.
    rewrite !getitems_parse_frame in HX. rewrite getitems_parse_frame in HX'.
    destruct (getitems raw feature_names) as [G|]; [|discriminate].
    injection HX as <-. injection HX' as <-.
    rewrite !parse_frame_idem by exact Hid. reflexivity. }
  split.
  { rewrite F5, F4, !lookup_insert_ne, F3, lookup_insert_ne, F2,
      lookup_insert_ne, F1 by discriminate. apply lookup_insert_eq. }
  split.
  { rewrite F5, F4, !lookup_insert_ne, F3, lookup_insert_ne, F2
      by discriminate. apply lookup_insert_eq. }
  split.
  { rewrite F5, F4, !lookup_insert_ne, F3 by discriminate.
    apply lookup_insert_eq. }
  split.
  { rewrite F5, F4, lookup_insert_ne by discriminate.
    apply lookup_insert_eq. }
  split.
  { rewrite F5, F4 by discriminate. apply lookup_insert_eq. }
  split; [exact F5'|].
  rewrite C5, C4, C3, C2, C1, <- !app_assoc. reflexivity.
Qed.

End Further.

(** ** Further runs on the small instance *)

(** X2 on a module table in which no import works. *)
Lemma main_never_ends_with_an_exception_witness :
  is_Exception (SystemExit 1) = false.
Proof.
  assert (H : fst (main broken_import (0, [])) = Raise (SystemExit 1))
    by (vm_compute; reflexivity).
  exact (proj1 (main_never_ends_with_an_exception nat broken_import 0
                  (SystemExit 1) H)).
Defined.

(** X3 with the path of the raw dataset, on a fresh checkout. *)
Lemma generate_dataset_saves_what_it_returns_witness :
  exists df w',
    generate_dataset (L := Toy.libs) (generator_of 2 42) (Some raw_path)
      Toy.fresh = (Ok df, w') /\
    files w' = <[raw_path := Csv df]> (files Toy.fresh) /\
    dir_exists w' (parent raw_path) = true.
Proof.
  destruct (generate_dataset_saves_what_it_returns (L := Toy.libs)
              toy_normal_length (generator_of 2 42) (Some raw_path)
              Toy.fresh eq_refl ltac:(discriminate))
    as (df & w' & Hrun & Hf & Hd & _).
  { intros p Hp. injection Hp as <-. split; [reflexivity|]. split.
    - apply (bool_decide_unpack _). vm_compute. reflexivity.
    - intros d _. apply lookup_empty. }
  exists df, w'. repeat split; assumption.
Defined.

(** X4 with seeds 1 and 2. *)
Lemma draws_follow_the_last_seed_witness :
  fst (first_of_two (L := Toy.libs) 2 1 3 2 None Toy.fresh)
  = Ok (dataset (L := Toy.libs) (generator_of 2 1) 2).
Proof.
  exact (draws_follow_the_last_seed (L := Toy.libs) toy_normal_length
           2 1 3 2 None Toy.fresh eq_refl eq_refl).
Defined.

(** X5 with two samples per class. *)
Lemma second_call_continues_the_stream_witness :
  fst (two_datasets (L := Toy.libs) 2 42 None None Toy.fresh)
  = Ok (dataset (L := Toy.libs) (generator_of 2 42) 42,
        dataset (L := Toy.libs) (generator_of 2 42)
          (rng_after (L := Toy.libs) (generator_of 2 42) 42)).
Proof.
  exact (second_call_continues_the_stream (L := Toy.libs) toy_normal_length
           2 42 None None Toy.fresh eq_refl).
Defined.

(** X6 on a raw file of two rows. *)
Lemma preprocessing_idempotent_witness :
  exists w1 w2,
    preprocessing_main (L := Toy.libs) ToyWorlds.with_raw = (Ok tt, w1) /\
    preprocessing_main (L := Toy.libs) w1 = (Ok tt, w2) /\
    files w2 = files w1.
Proof.
  assert (H : fst (preprocessing_main (L := Toy.libs) ToyWorlds.with_raw)
              = Ok tt) by (vm_compute; reflexivity).
  destruct (preprocessing_main (L := Toy.libs) ToyWorlds.with_raw)
    as [r w1] eqn:E.
  cbn [fst] in H. subst r.
  destruct (preprocessing_idempotent (L := Toy.libs) ToyWorlds.with_raw w1 E)
    as (w2 & Hrun & Hf & _).
  exists w1, w2. repeat split; assumption.
Defined.

(** X7 on a preprocessed file of two rows. *)
Lemma plot_cannot_fail_the_step_witness :
  exists w',
    feature_selection_main (L := Toy.libs) ToyWorlds.with_processed
    = (Ok tt, w').
Proof.
  assert (H0 : files ToyWorlds.with_processed !! processed_path
               = Some (Csv ToyWorlds.sample_frame))
    by (vm_compute; reflexivity).
  assert (H1 : dir_exists ToyWorlds.with_processed (parent selected_path)
               = true) by (vm_compute; reflexivity).
  destruct (plot_cannot_fail_the_step (L := Toy.libs)
              ToyWorlds.with_processed ToyWorlds.sample_frame H0 H1)
    as (w' & out & Hrun & _).
  exists w'. exact Hrun.
Defined.

(** X8 on a selected-features file of two rows. *)
Lemma train_persists_the_fit_witness :
  exists w',
    train_main (L := Toy.libs) MoreWorlds.with_selected = (Ok tt, w') /\
    files w' !! model_path = Some (Pickle (L := Toy.libs) tt) /\
    model_calls w' = [CallPredict ToyWorlds.features_of_sample].
Proof.
  destruct (train_persists_the_fit (L := Toy.libs) MoreWorlds.with_selected
              ToyWorlds.sample_frame ToyWorlds.features_of_sample
              [CInt 0; CInt 4] [0.75%Q] tt [0; 4]%Z
              eq_refl eq_refl eq_refl eq_refl eq_refl eq_refl eq_refl)
    as (w' & Hrun & _ & Hf & Hc).
  exists w'. split; [exact Hrun|]. split; [|exact Hc].
  rewrite Hf. reflexivity.
Defined.

(** X9 on a selected-features file of two rows. *)
Lemma train_writes_only_after_scoring_witness :
  files (snd (train_main (L := Toy.libs) MoreWorlds.with_selected))
    !! model_path
  = Some (Pickle (L := Toy.libs) tt).
Proof.
  destruct (train_writes_only_after_scoring (L := Toy.libs)
              MoreWorlds.with_selected
              (snd (train_main (L := Toy.libs) MoreWorlds.with_selected))
              (fst (train_main (L := Toy.libs) MoreWorlds.with_selected)))
    as (file & X & y & cv & rf & pred & _ & _ & _ & _ & _ & _ & Hm).
  - apply surjective_pairing.
  - intros H.
    assert (H' : files (snd (train_main (L := Toy.libs)
                               MoreWorlds.with_selected)) !! model_path
                 = files MoreWorlds.with_selected !! model_path)
      by (rewrite H; reflexivity).
    vm_compute in H'. discriminate.
  - destruct rf. exact Hm.
Defined.

(** X10 for a file of the user's own in the data directory. *)
Lemma pipeline_writes_only_its_artefacts_witness :
  files (fst (snd (run_pipeline (L := Toy.libs)
                     (MoreWorlds.with_patients, []))))
    !! "data/patients.csv"
  = Some (Csv ToyWorlds.sample_frame).
Proof.
  rewrite (pipeline_writes_only_its_artefacts (L := Toy.libs)
             MoreWorlds.with_patients [] "data/patients.csv").
  - reflexivity.
  - apply (bool_decide_unpack _). vm_compute. reflexivity.
Defined.

(** X11 on a fresh checkout, which has only the [models] directory. *)
Lemma pipeline_needs_the_processed_directory_witness :
  exists w' tr,
    run_pipeline (L := Toy.libs) (Toy.fresh, [])
    = (Raise (SystemExit 1), (w', tr)) /\
    outcomes tr
    = [("1. Data Generation", true); ("2. Data Preprocessing", false)].
Proof.
  destruct (pipeline_needs_the_processed_directory (L := Toy.libs)
              toy_normal_length toy_order_perm Toy.fresh eq_refl)
    as (w' & tr & Hrun & Hout & _).
  exists w', tr. split; assumption.
Defined.

(** X12 from a checkout with the output directories. *)
Lemma pipeline_completes_witness :
  exists w' tr,
    run_pipeline (L := Toy.libs) (Toy.prepared, []) = (Ok tt, (w', tr)) /\
    outcomes tr = passed step_names /\
    files w' !! model_path = Some (Pickle (L := Toy.libs) tt).
Proof.
  destruct (pipeline_completes (L := Toy.libs) toy_normal_length
              toy_order_perm Toy.prepared
              MoreWorlds.toy_features MoreWorlds.toy_features MoreWorlds.toy_labels MoreWorlds.toy_labels
              [0.75%Q] tt (map Toy.stage_of (rows MoreWorlds.toy_features))
              (map Toy.stage_of (rows MoreWorlds.toy_features)) "report"
              ToyWorlds.case_events)
    as (w' & tr & Hrun & Hout & _ & _ & _ & _ & _ & _ & _ & _ & _ & Hm & _).
  - split.
    + intros p Hp Hin. cbn [Toy.prepared dirs] in Hin.
      rewrite !elem_of_union, !elem_of_singleton in Hin.
      revert Hp. change (p ∉ artefacts).
      destruct Hin as [[-> | ->] | ->];
        apply (bool_decide_unpack _); vm_compute; reflexivity.
    + intros d _. apply lookup_empty.
  - reflexivity.
  - reflexivity.
  - vm_compute. reflexivity.
  - vm_compute. reflexivity.
  - reflexivity.
  - reflexivity.
  - reflexivity.
  - vm_compute. reflexivity.
  - vm_compute. reflexivity.
  - reflexivity.
  - reflexivity.
  - exact toy_case_events.
  - exists w', tr. repeat split; assumption.
Defined.

